(** * BeancountPilot: rule engine, classification coordinator, feedback learner

    A shallow embedding of [src/db/repositories.py], [src/core/rule_engine.py],
    [src/core/classifier.py], [src/core/feedback.py],
    [src/ai/openai_provider.py] and the classification route of
    [src/api/routes/classify.py], and the properties of the design document
    proved (or refuted) over it, followed by further properties of the code.

    Conventions of the embedding.
    - A Python [str] is a [string]; a [float] confidence is a rational [Q]
      (only comparisons and the literals 0.0, 0.5, 0.9, 1.0 are used).
    - A Python [dict] with string keys is a [gmap string _].
    - A table of the SQLite store is the list of its rows in insertion order;
      [query.offset(skip).limit(limit).all()] is [take limit (drop skip rows)].
    - [uuid.uuid4()] and [datetime.utcnow()] read an explicit environment
      carried by the state, so every operation is a function.
    - An exception is a value of [Exn]; code that can raise returns [Result]. *)

From Stdlib Require Import String Ascii QArith OrdersEx Lia.
From stdpp Require Import gmap strings list.

Open Scope string_scope.

(** ** Python built-ins used by the sources *)

Module Py.

(** [p in s] on strings: [p] occurs in [s] as a contiguous substring. *)
Fixpoint contains (p s : string) : bool :=
  String.prefix p s ||
  match s with
  | EmptyString => false
  | String _ s' => contains p s'
  end.

(** [s[:n]] *)
Fixpoint slice_to (n : nat) (s : string) : string :=
  match n, s with
  | S n', String c s' => String c (slice_to n' s')
  | _, _ => EmptyString
  end.

(** [s[n:]] *)
Fixpoint slice_from (n : nat) (s : string) : string :=
  match n, s with
  | S n', String _ s' => slice_from n' s'
  | _, _ => s
  end.

(** [bool(s)]: the empty string is falsy. *)
Definition truthy (s : string) : bool := negb (String.eqb s "").

(** [bool(o)] for an [Optional[str]]: [None] and [""] are falsy. *)
Definition truthy_opt (o : option string) : bool :=
  match o with
  | Some s => truthy s
  | None => false
  end.

(** [x in l] on a list of strings. *)
Definition mem (x : string) (l : list string) : bool :=
  existsb (String.eqb x) l.

(** [any(f(x) for x in l)] *)
Definition any {A} (f : A -> bool) (l : list A) : bool := existsb f l.

(** The loop of [max(iterable, key=...)]: the running maximum is replaced
    only by a strictly greater element, so the first maximal element wins. *)
Fixpoint max_from {A} (gt : A -> A -> bool) (best : A) (l : list A) : A :=
  match l with
  | [] => best
  | x :: l' => max_from gt (if gt x best then x else best) l'
  end.

(** [max(l, key=...)]; [None] stands for the [ValueError] on an empty list. *)
Definition max_by {A} (gt : A -> A -> bool) (l : list A) : option A :=
  match l with
  | [] => None
  | x :: l' => Some (max_from gt x l')
  end.

(** [a > b] on floats, read on rationals. *)
Definition float_gt (a b : Q) : bool := negb (Qle_bool a b).

(** [a > b] on strings: lexicographic on code points. *)
Definition str_gt (a b : string) : bool :=
  match String_as_OT.compare a b with
  | Gt => true
  | _ => false
  end.

(** [sum(1 for x in l if f(x))] *)
Definition count {A} (f : A -> bool) (l : list A) : nat :=
  length (List.filter f l).

(** [a / b] on non-negative ints with [b > 0] (true division). *)
Definition truediv (a b : nat) : Q := Z.of_nat a # Pos.of_nat b.

End Py.

(** ** uuid4 *)

Module Uuid.

Definition hex_digit (n : N) : ascii :=
  match n with
  | 0%N => "0" | 1%N => "1" | 2%N => "2" | 3%N => "3"
  | 4%N => "4" | 5%N => "5" | 6%N => "6" | 7%N => "7"
  | 8%N => "8" | 9%N => "9" | 10%N => "a" | 11%N => "b"
  | 12%N => "c" | 13%N => "d" | 14%N => "e" | _ => "f"
  end%char.

Definition is_hex (c : ascii) : bool :=
  existsb (Ascii.eqb c) (list_ascii_of_string "0123456789abcdef").

(** The [digits] low hexadecimal digits of [v], most significant first. *)
Fixpoint hex_of (digits : nat) (v : N) : string :=
  match digits with
  | O => EmptyString
  | S d => String (hex_digit ((v / 16 ^ N.of_nat d) mod 16)) (hex_of d v)
  end.

(** [u.hex]: the 128-bit value as 32 hexadecimal digits. *)
Definition hex (u : N) : string := hex_of 32 u.

(** [str(u)]: the 8-4-4-4-12 form. *)
Definition str (u : N) : string :=
  let h := hex u in
  Py.slice_to 8 h ++ "-" ++ Py.slice_to 4 (Py.slice_from 8 h) ++ "-" ++
  Py.slice_to 4 (Py.slice_from 12 h) ++ "-" ++
  Py.slice_to 4 (Py.slice_from 16 h) ++ "-" ++ Py.slice_from 20 h.

End Uuid.

(** ** Exceptions and results *)

Inductive Exn : Type :=
  | IntegrityError (detail : string)
  | IndexError (detail : string)
  | KeyError (key : string).

Inductive Result (A : Type) : Type :=
  | Ok (a : A)
  | Raise (e : Exn).
Arguments Ok {A} a.
Arguments Raise {A} e.

(** ** src/db/models.py *)

(** A condition value of a rule: one pattern or a list of patterns. *)
Inductive CondValue : Type :=
  | PatStr (s : string)
  | PatList (l : list string).

(** [if isinstance(v, str): v = [v]] *)
Definition patterns (v : CondValue) : list string :=
  match v with
  | PatStr s => [s]
  | PatList l => l
  end.

Record Transaction : Type := {
  transaction_id : string;
  transaction_peer : string;
  transaction_item : string;
  transaction_category : string;
  transaction_type : string;
  transaction_time : string;
  transaction_amount : Q;
  transaction_currency : string;
  transaction_provider : string;
  transaction_raw_data : string;
  transaction_created_at : string
}.

Record Classification : Type := {
  classification_id : string;
  classification_transaction_id : string;
  classification_account : string;
  classification_confidence : Q;
  classification_source : string;
  classification_reasoning : string;
  classification_created_at : string
}.

Record Feedback : Type := {
  feedback_id : string;
  feedback_transaction_id : string;
  feedback_original_account : option string;
  feedback_corrected_account : option string;
  feedback_action : string;
  feedback_created_at : string
}.

(** [conditions] is a JSON text column written by [json.dumps] and read by
    [json.loads]; on a dict of string keys whose values are a string or a list
    of strings the round trip is the identity, so the row holds the dict. *)
Record Rule : Type := {
  rule_id : string;
  rule_name : string;
  rule_conditions : gmap string CondValue;
  rule_account : string;
  rule_confidence : Q;
  rule_source : string;
  rule_created_at : string;
  rule_updated_at : string
}.

(** The store: one list of rows per table, in insertion order. *)
Record DB : Type := {
  transactions : list Transaction;
  classifications : list Classification;
  feedbacks : list Feedback;
  rules : list Rule
}.

Definition empty_db : DB :=
  {| transactions := []; classifications := []; feedbacks := []; rules := [] |}.

(** ** The session state and its monad *)

Record World : Type := {
  db : DB;
  uuid_source : nat -> N;
  uuid_calls : nat;
  clock : nat -> string;
  clock_calls : nat
}.

Definition M (A : Type) : Type := World -> Result (A * World).

Definition ret {A} (a : A) : M A := fun w => Ok (a, w).

Definition bind {A B} (m : M A) (k : A -> M B) : M B :=
  fun w =>
    match m w with
    | Ok (a, w') => k a w'
    | Raise e => Raise e
    end.

Definition raise {A} (e : Exn) : M A := fun _ => Raise e.

#[global] Instance M_ret : MRet M := @ret.
#[global] Instance M_bind : MBind M := fun A B k m => bind m k.

Definition get_db : M DB := fun w => Ok (db w, w).

Definition put_db (d : DB) : M unit :=
  fun w =>
    Ok (tt, {| db := d; uuid_source := uuid_source w; uuid_calls := uuid_calls w;
               clock := clock w; clock_calls := clock_calls w |}).

(** [uuid.uuid4()] *)
Definition uuid4 : M N :=
  fun w =>
    Ok (uuid_source w (uuid_calls w),
        {| db := db w; uuid_source := uuid_source w; uuid_calls := S (uuid_calls w);
           clock := clock w; clock_calls := clock_calls w |}).

(** [datetime.utcnow().isoformat()] *)
Definition utcnow : M string :=
  fun w =>
    Ok (clock w (clock_calls w),
        {| db := db w; uuid_source := uuid_source w; uuid_calls := uuid_calls w;
           clock := clock w; clock_calls := S (clock_calls w) |}).

(** [for x in l: ...] collecting the results, stopping at the first raise. *)
Fixpoint mapM {A B} (f : A -> M B) (l : list A) : M (list B) :=
  match l with
  | [] => ret []
  | x :: l' => y ← f x; ys ← mapM f l'; ret (y :: ys)
  end.

(** [query.offset(skip).limit(limit).all()] *)
Definition paginate {A} (skip limit : nat) (rows : list A) : list A :=
  take limit (drop skip rows).

(** ** src/db/repositories.py *)

Module TransactionRepository.

(** [db.query(Transaction).filter(Transaction.id == transaction_id).first()] *)
Definition get_by_id (d : DB) (transaction_id' : string) : option Transaction :=
  List.find (fun t => String.eqb (transaction_id t) transaction_id') (transactions d).

(** [db.add(transaction); db.commit()]: [id] is the primary key. *)
Definition insert (t : Transaction) : M unit :=
  d ← get_db;
  if Py.mem (transaction_id t) (map transaction_id (transactions d))
  then raise (IntegrityError "UNIQUE constraint failed: transactions.id")
  else put_db {| transactions := transactions d ++ [t];
                 classifications := classifications d;
                 feedbacks := feedbacks d;
                 rules := rules d |}.

(** The defaults [currency="CNY"], [provider=""], [raw_data=""] are given by
    the caller. *)
Definition create (peer item category transaction_type time : string) (amount : Q)
    (currency provider raw_data : string) : M Transaction :=
  u ← uuid4;
  now ← utcnow;
  let transaction :=
    {| transaction_id := Uuid.str u;
       transaction_peer := peer;
       transaction_item := item;
       transaction_category := category;
       transaction_type := transaction_type;
       transaction_time := time;
       transaction_amount := amount;
       transaction_currency := currency;
       transaction_provider := provider;
       transaction_raw_data := raw_data;
       transaction_created_at := now |} in
  _ ← insert transaction;
  ret transaction.

(** [def list_all(db, skip=0, limit=100)] *)
Definition list_all (d : DB) (skip limit : nat) : list Transaction :=
  paginate skip limit (transactions d).

Definition list_by_provider (d : DB) (provider : string) (skip limit : nat)
    : list Transaction :=
  paginate skip limit
    (List.filter (fun t => String.eqb (transaction_provider t) provider)
       (transactions d)).

(** [db.delete(transaction); db.commit()]. The relationships [classifications]
    and [feedbacks] of the model are declared with
    [cascade="all, delete-orphan"]: the rows that refer to the transaction are
    deleted with it. *)
Definition delete (transaction_id' : string) : M bool :=
  d ← get_db;
  match get_by_id d transaction_id' with
  | Some transaction =>
      let other {A} (key : A -> string) (row : A) :=
        negb (String.eqb (key row) (transaction_id transaction)) in
      _ ← put_db
            {| transactions := List.filter (other transaction_id) (transactions d);
               classifications :=
                 List.filter (other classification_transaction_id) (classifications d);
               feedbacks := List.filter (other feedback_transaction_id) (feedbacks d);
               rules := rules d |};
      ret true
  | None => ret false
  end.

End TransactionRepository.

Module ClassificationRepository.

(** [db.add(classification); db.commit()]: [id] is the primary key. *)
Definition insert (c : Classification) : M unit :=
  d ← get_db;
  if Py.mem (classification_id c) (map classification_id (classifications d))
  then raise (IntegrityError "UNIQUE constraint failed: classifications.id")
  else put_db {| transactions := transactions d;
                 classifications := classifications d ++ [c];
                 feedbacks := feedbacks d;
                 rules := rules d |}.

Definition create (transaction_id' account : string) (confidence : Q)
    (source reasoning : string) : M Classification :=
  u ← uuid4;
  now ← utcnow;
  let classification :=
    {| classification_id := Uuid.str u;
       classification_transaction_id := transaction_id';
       classification_account := account;
       classification_confidence := confidence;
       classification_source := source;
       classification_reasoning := reasoning;
       classification_created_at := now |} in
  _ ← insert classification;
  ret classification.

Definition get_by_transaction_id (d : DB) (transaction_id' : string)
    : list Classification :=
  List.filter (fun c => String.eqb (classification_transaction_id c) transaction_id')
    (classifications d).

(** [classification.account = account; classification.source = "user"] *)
Definition retarget (account : string) (c : Classification) : Classification :=
  {| classification_id := classification_id c;
     classification_transaction_id := classification_transaction_id c;
     classification_account := account;
     classification_confidence := classification_confidence c;
     classification_source := "user";
     classification_reasoning := classification_reasoning c;
     classification_created_at := classification_created_at c |}.

(** The row selected by [.filter(Classification.id == classification_id).first()]
    is updated in place. *)
Fixpoint update_first (classification_id' account : string)
    (rows : list Classification) : list Classification * bool :=
  match rows with
  | [] => ([], false)
  | c :: rows' =>
      if String.eqb (classification_id c) classification_id'
      then (retarget account c :: rows', true)
      else let (rows'', found) := update_first classification_id' account rows' in
           (c :: rows'', found)
  end.

Definition update_account (classification_id' account : string) : M bool :=
  d ← get_db;
  let (rows, found) := update_first classification_id' account (classifications d) in
  if found
  then _ ← put_db {| transactions := transactions d;
                     classifications := rows;
                     feedbacks := feedbacks d;
                     rules := rules d |};
       ret true
  else ret false.

End ClassificationRepository.

Module FeedbackRepository.

Definition insert (f : Feedback) : M unit :=
  d ← get_db;
  if Py.mem (feedback_id f) (map feedback_id (feedbacks d))
  then raise (IntegrityError "UNIQUE constraint failed: feedback.id")
  else put_db {| transactions := transactions d;
                 classifications := classifications d;
                 feedbacks := feedbacks d ++ [f];
                 rules := rules d |}.

Definition create (transaction_id' action : string)
    (original_account corrected_account : option string) : M Feedback :=
  u ← uuid4;
  now ← utcnow;
  let feedback :=
    {| feedback_id := Uuid.str u;
       feedback_transaction_id := transaction_id';
       feedback_original_account := original_account;
       feedback_corrected_account := corrected_account;
       feedback_action := action;
       feedback_created_at := now |} in
  _ ← insert feedback;
  ret feedback.

(** [def list_all(db, skip=0, limit=100)] *)
Definition list_all (d : DB) (skip limit : nat) : list Feedback :=
  paginate skip limit (feedbacks d).

Definition get_by_transaction_id (d : DB) (transaction_id' : string) : list Feedback :=
  List.filter (fun f => String.eqb (feedback_transaction_id f) transaction_id')
    (feedbacks d).

End FeedbackRepository.

Module RuleRepository.

(** [db.add(rule); db.commit()]: [id] is the primary key, [account] is
    [nullable=False]. *)
Definition insert (r : Rule) : M unit :=
  d ← get_db;
  if Py.mem (rule_id r) (map rule_id (rules d))
  then raise (IntegrityError "UNIQUE constraint failed: rules.id")
  else put_db {| transactions := transactions d;
                 classifications := classifications d;
                 feedbacks := feedbacks d;
                 rules := rules d ++ [r] |}.

(** [account] is annotated [str], but the feedback learner passes an
    [Optional[str]]: a [None] violates the NOT NULL constraint at commit. *)
Definition create (name : string) (conditions : gmap string CondValue)
    (account : option string) (confidence : Q) (source : string) : M Rule :=
  u ← uuid4;
  created ← utcnow;
  updated ← utcnow;
  match account with
  | None => raise (IntegrityError "NOT NULL constraint failed: rules.account")
  | Some account' =>
      let rule :=
        {| rule_id := Uuid.str u;
           rule_name := name;
           rule_conditions := conditions;
           rule_account := account';
           rule_confidence := confidence;
           rule_source := source;
           rule_created_at := created;
           rule_updated_at := updated |} in
      _ ← insert rule;
      ret rule
  end.

(** [def list_all(db, skip=0, limit=100)] *)
Definition list_all (d : DB) (skip limit : nat) : list Rule :=
  paginate skip limit (rules d).

(** The body of the loop of [match_transaction] for one rule. *)
Definition rule_matches (conditions : gmap string CondValue)
    (peer item category : string) : bool :=
  let match1 :=
    match conditions !! "peer" with
    | Some peer_conditions =>
        if negb (Py.any (fun p => Py.contains p peer) (patterns peer_conditions))
        then false else true
    | None => true
    end in
  let match2 :=
    match match1, conditions !! "item" with
    | true, Some item_conditions =>
        if negb (Py.any (fun i => Py.contains i item) (patterns item_conditions))
        then false else match1
    | _, _ => match1
    end in
  match match2, conditions !! "category" with
  | true, Some category_conditions =>
      if negb (Py.mem category (patterns category_conditions))
      then false else match2
  | _, _ => match2
  end.

(** [rules = RuleRepository.list_all(db)]: the defaults [skip=0, limit=100]. *)
Definition match_transaction (d : DB) (peer item category : string) : list Rule :=
  List.filter (fun rule => rule_matches (rule_conditions rule) peer item category)
    (list_all d 0 100).

(** [db.query(Rule).filter(Rule.id == rule_id).first()] *)
Definition get_by_id (d : DB) (rule_id' : string) : option Rule :=
  List.find (fun r => String.eqb (rule_id r) rule_id') (rules d).

(** The partial update: an argument that [is not None] overwrites its field,
    [updated_at] is refreshed; the row is rewritten under its primary key. *)
Definition update (rule_id' : string) (name : option string)
    (conditions : option (gmap string CondValue)) (account : option string)
    : M (option Rule) :=
  d ← get_db;
  match get_by_id d rule_id' with
  | Some rule =>
      now ← utcnow;
      let rule' :=
        {| rule_id := rule_id rule;
           rule_name := default (rule_name rule) name;
           rule_conditions := default (rule_conditions rule) conditions;
           rule_account := default (rule_account rule) account;
           rule_confidence := rule_confidence rule;
           rule_source := rule_source rule;
           rule_created_at := rule_created_at rule;
           rule_updated_at := now |} in
      _ ← put_db
            {| transactions := transactions d;
               classifications := classifications d;
               feedbacks := feedbacks d;
               rules := map (fun r => if String.eqb (rule_id r) (rule_id rule)
                                      then rule' else r) (rules d) |};
      ret (Some rule')
  | None => ret None
  end.

(** [db.delete(rule); db.commit()] *)
Definition delete (rule_id' : string) : M bool :=
  d ← get_db;
  match get_by_id d rule_id' with
  | Some rule =>
      _ ← put_db
            {| transactions := transactions d;
               classifications := classifications d;
               feedbacks := feedbacks d;
               rules := List.filter
                          (fun r => negb (String.eqb (rule_id r) (rule_id rule)))
                          (rules d) |};
      ret true
  | None => ret false
  end.

End RuleRepository.

(** ** The table [user_config] and its repository

    [UserConfigRepository] reads and writes the table [user_config] only; the
    table is passed and returned, with the reading of the clock. *)

Record UserConfig : Type := {
  config_key : string;
  config_value : string;
  config_updated_at : string
}.

Module UserConfigRepository.

(** [db.query(UserConfig).filter(UserConfig.key == key).first()] *)
Definition find_config (table : list UserConfig) (key : string) : option UserConfig :=
  List.find (fun c => String.eqb (config_key c) key) table.

(** The row found is rewritten under its primary key, or a new row is added. *)
Definition set (table : list UserConfig) (now key value : string)
    : list UserConfig * UserConfig :=
  match find_config table key with
  | Some config =>
      let config' :=
        {| config_key := config_key config;
           config_value := value;
           config_updated_at := now |} in
      (map (fun c => if String.eqb (config_key c) (config_key config)
                     then config' else c) table,
       config')
  | None =>
      let config :=
        {| config_key := key; config_value := value; config_updated_at := now |} in
      ((table ++ [config])%list, config)
  end.

(** [return config.value if config else None] *)
Definition get (table : list UserConfig) (key : string) : option string :=
  match find_config table key with
  | Some config => Some (config_value config)
  | None => None
  end.

(** [{c.key: c.value for c in configs}] *)
Definition get_all (table : list UserConfig) : gmap string string :=
  fold_left (fun m c => <[config_key c := config_value c]> m) table ∅.

Definition delete (table : list UserConfig) (key : string) : list UserConfig * bool :=
  match find_config table key with
  | Some config =>
      (List.filter (fun c => negb (String.eqb (config_key c) (config_key config))) table,
       true)
  | None => (table, false)
  end.

End UserConfigRepository.

(** ** src/core/rule_engine.py *)

Module RuleEngine.

(** The dict returned by [create_rule] lists the fields of the created row;
    the row stands for it. No check is made on [conditions]. *)
Definition create_rule (name : string) (conditions : gmap string CondValue)
    (account : option string) (confidence : Q) (source : string) : M Rule :=
  RuleRepository.create name conditions account confidence source.

Definition match_transaction (d : DB) (peer item category : string) : list Rule :=
  RuleRepository.match_transaction d peer item category.

(** [conditions = {}; if peer: conditions["peer"] = peer; ...] *)
Definition build_conditions (peer item category : string) : gmap string CondValue :=
  let c0 : gmap string CondValue := ∅ in
  let c1 := if Py.truthy peer then <["peer" := PatStr peer]> c0 else c0 in
  let c2 := if Py.truthy item then <["item" := PatStr item]> c1 else c1 in
  if Py.truthy category then <["category" := PatStr category]> c2 else c2.

(** [name_parts = []; if peer: name_parts.append(peer[:10]); ...] *)
Definition name_parts (peer item category : string) : list string :=
  ((if Py.truthy peer then [Py.slice_to 10 peer] else []) ++
   (if Py.truthy item then [Py.slice_to 10 item] else []) ++
   (if Py.truthy category then [Py.slice_to 10 category] else []))%list.

(** ["-".join(name_parts) if name_parts else "auto-generated-rule"] *)
Definition base_name (peer item category : string) : string :=
  match name_parts peer item category with
  | [] => "auto-generated-rule"
  | parts => String.concat "-" parts
  end.

Definition auto_generate_rule_from_feedback (peer item category : string)
    (account : option string) : M Rule :=
  let conditions := build_conditions peer item category in
  let name := base_name peer item category in
  u ← uuid4;
  create_rule (name ++ "-" ++ Py.slice_to 6 (Uuid.hex u)) conditions account
    (9 # 10) "auto".

(** [get_rule], [list_rules], [update_rule] and [delete_rule] return the
    rows of the repository as dicts of their fields; the rows stand for the
    dicts. [update_rule] has no parameter for the confidence or the source. *)
Definition get_rule (d : DB) (rule_id' : string) : option Rule :=
  RuleRepository.get_by_id d rule_id'.

(** [def list_rules(self, skip=0, limit=100)] *)
Definition list_rules (d : DB) (skip limit : nat) : list Rule :=
  RuleRepository.list_all d skip limit.

Definition update_rule (rule_id' : string) (name : option string)
    (conditions : option (gmap string CondValue)) (account : option string)
    : M (option Rule) :=
  RuleRepository.update rule_id' name conditions account.

Definition delete_rule (rule_id' : string) : M bool :=
  RuleRepository.delete rule_id'.

(** [if key not in mapping: mapping[key] = {}] followed by
    [mapping[key]["account"] = account]: a dict keeps a key at the position
    of its first insertion. Every inner dict has the single key ["account"];
    its value stands for it. *)
Fixpoint mapping_set (key account : string) (mapping : list (string * string))
    : list (string * string) :=
  match mapping with
  | [] => [(key, account)]
  | (k, a) :: rest =>
      if String.eqb k key then (k, account) :: rest
      else (k, a) :: mapping_set key account rest
  end.

(** The dict [mapping] that [export_rules_to_deg_format] builds and hands to
    [yaml.dump] under the key ["mapping"];
    [rules = RuleRepository.list_all(self.db)]: the defaults
    [skip=0, limit=100]. *)
Definition export_mapping (d : DB) : list (string * string) :=
  fold_left
    (fun mapping rule =>
       let mapping1 :=
         match rule_conditions rule !! "peer" with
         | Some peer_conditions =>
             fold_left (fun m peer => mapping_set peer (rule_account rule) m)
               (patterns peer_conditions) mapping
         | None => mapping
         end in
       match rule_conditions rule !! "item" with
       | Some item_conditions =>
           fold_left (fun m item => mapping_set item (rule_account rule) m)
             (patterns item_conditions) mapping1
       | None => mapping1
       end)
    (RuleRepository.list_all d 0 100) [].

End RuleEngine.

(** ** src/ai/openai_provider.py, deepseek_provider.py, ollama_provider.py *)

(** A transaction as the coordinator receives it: a dict of fields. *)
Abbreviation TxDict := (gmap string string).

(** [tx.get(key, "")] *)
Definition tx_get (tx : TxDict) (key : string) : string := default "" (tx !! key).

(** The dict a provider returns. *)
Record AIResult : Type := {
  ai_account : string;
  ai_confidence : Q;
  ai_reasoning : string
}.

(** The remote model. [chat tx] is the outcome of the [try] block of
    [classify] (the completion request and the parsing of its answer): the
    parsed dict, or [inl msg] when an exception [e] with [str(e) = msg] is
    raised. [chat_batch txs] is the outcome of the batch request and of
    [parse_batch_classification_response]. The chart of accounts and the text
    of the historical rules do not change during a call of the coordinator and
    are part of the oracle. *)
Record Api : Type := {
  chat : TxDict -> string + AIResult;
  chat_batch : list TxDict -> string + list AIResult
}.

(** The requests sent to the remote model, in order. *)
Inductive ProviderCall : Type :=
  | ChatCall (tx : TxDict)
  | BatchChatCall (txs : list TxDict).

Module OpenAIProvider.

Definition classify (api : Api) (transaction : TxDict) : AIResult * list ProviderCall :=
  (match chat api transaction with
   | inr result => result
   | inl e =>
       {| ai_account := "Expenses:Misc";
          ai_confidence := 0;
          ai_reasoning := "API call failed: " ++ e |}
   end,
   [ChatCall transaction]).

(** [asyncio.gather] over the tasks: one result per task, in the order of
    the tasks. *)
Definition _classify_one_by_one (api : Api) (transactions' : list TxDict)
    : list AIResult * list ProviderCall :=
  (map (fun tx => fst (classify api tx)) transactions',
   concat (map (fun tx => snd (classify api tx)) transactions')).

Definition batch_classify (api : Api) (transactions' : list TxDict)
    : list AIResult * list ProviderCall :=
  if Nat.leb (length transactions') 10 then
    match chat_batch api transactions' with
    | inr results =>
        if negb (Nat.eqb (length results) (length transactions'))
        then let (rs, log) := _classify_one_by_one api transactions' in
             (rs, BatchChatCall transactions' :: log)
        else (results, [BatchChatCall transactions'])
    | inl _ =>
        let (rs, log) := _classify_one_by_one api transactions' in
        (rs, BatchChatCall transactions' :: log)
    end
  else _classify_one_by_one api transactions'.

End OpenAIProvider.

(** The provider classes of [src/ai/factory.py]; ["custom"] is registered as
    [OpenAIProvider]. *)
Inductive Provider : Type := OpenAI | DeepSeek | Ollama.

Module BaseLLMProvider.

Definition classify (p : Provider) (api : Api) (transaction : TxDict)
    : AIResult * list ProviderCall :=
  match p with
  | OpenAI | DeepSeek | Ollama => OpenAIProvider.classify api transaction
  end.

(** [OllamaProvider.batch_classify] always classifies one by one. *)
Definition batch_classify (p : Provider) (api : Api) (transactions' : list TxDict)
    : list AIResult * list ProviderCall :=
  match p with
  | OpenAI | DeepSeek => OpenAIProvider.batch_classify api transactions'
  | Ollama => OpenAIProvider._classify_one_by_one api transactions'
  end.

End BaseLLMProvider.

(** ** src/core/classifier.py *)

(** The dict the coordinator returns for one transaction. [classify_transaction]
    has no ["transaction"] key; the placeholder of the first pass of
    [classify_transactions] has only ["transaction"] and ["source"]. *)
Record ResultDict : Type := {
  result_transaction : option TxDict;
  result_account : option string;
  result_confidence : option Q;
  result_reasoning : option string;
  result_source : option string
}.

Module Classifier.

(** [user_rules = [r for r in matched_rules if r.source == "user"]] *)
Definition user_rules (d : DB) (tx : TxDict) : list Rule :=
  List.filter (fun r => String.eqb (rule_source r) "user")
    (RuleRepository.match_transaction d
       (tx_get tx "peer") (tx_get tx "item") (tx_get tx "category")).

(** [max(user_rules, key=lambda r: r.confidence)], [None] when [user_rules]
    is empty (the branch [if user_rules:] is not taken). *)
Definition best_user_rule (d : DB) (tx : TxDict) : option Rule :=
  Py.max_by (fun a b => Py.float_gt (rule_confidence a) (rule_confidence b))
    (user_rules d tx).

Definition rule_result (transaction : option TxDict) (rule : Rule) : ResultDict :=
  {| result_transaction := transaction;
     result_account := Some (rule_account rule);
     result_confidence := Some (rule_confidence rule);
     result_reasoning := Some ("Matched user rule: " ++ rule_name rule);
     result_source := Some "rule" |}.

(** The provider's dict with [result["source"] = "ai"]. *)
Definition ai_result (transaction : option TxDict) (a : AIResult) : ResultDict :=
  {| result_transaction := transaction;
     result_account := Some (ai_account a);
     result_confidence := Some (ai_confidence a);
     result_reasoning := Some (ai_reasoning a);
     result_source := Some "ai" |}.

Definition classify_transaction (d : DB) (provider : Provider) (api : Api)
    (transaction : TxDict) : ResultDict * list ProviderCall :=
  match best_user_rule d transaction with
  | Some rule => (rule_result None rule, [])
  | None =>
      let (result, log) := BaseLLMProvider.classify provider api transaction in
      (ai_result None result, log)
  end.

(** The first loop of [classify_transactions] for one transaction. *)
Definition first_pass (d : DB) (tx : TxDict) : ResultDict :=
  match best_user_rule d tx with
  | Some rule => rule_result (Some tx) rule
  | None =>
      {| result_transaction := Some tx;
         result_account := None;
         result_confidence := None;
         result_reasoning := None;
         result_source := Some "ai" |}
  end.

(** [result["source"] == "ai"] *)
Definition needs_ai (r : ResultDict) : bool :=
  match result_source r with
  | Some s => String.eqb s "ai"
  | None => false
  end.

(** [results[i].update({"account": ..., "confidence": ..., "reasoning": ...})] *)
Definition update (r : ResultDict) (a : AIResult) : ResultDict :=
  {| result_transaction := result_transaction r;
     result_account := Some (ai_account a);
     result_confidence := Some (ai_confidence a);
     result_reasoning := Some (ai_reasoning a);
     result_source := result_source r |}.

(** The merge loop: [ai_results[ai_index]] raises [IndexError] past the end. *)
Fixpoint merge (ai_index : nat) (ai_results : list AIResult)
    (results : list ResultDict) : Result (list ResultDict) :=
  match results with
  | [] => Ok []
  | result :: rest =>
      if needs_ai result then
        match ai_results !! ai_index with
        | Some a =>
            match merge (S ai_index) ai_results rest with
            | Ok rest' => Ok (update result a :: rest')
            | Raise e => Raise e
            end
        | None => Raise (IndexError "list index out of range")
        end
      else
        match merge ai_index ai_results rest with
        | Ok rest' => Ok (result :: rest')
        | Raise e => Raise e
        end
  end.

(** [ai_transactions = [r["transaction"] for r in results if r["source"] == "ai"]] *)
Definition ai_transactions (results : list ResultDict) : list TxDict :=
  omap result_transaction (List.filter needs_ai results).

Definition classify_transactions (d : DB) (provider : Provider) (api : Api)
    (transactions' : list TxDict) : Result (list ResultDict) * list ProviderCall :=
  let results := map (first_pass d) transactions' in
  match ai_transactions results with
  | [] => (Ok results, [])
  | ai_txs =>
      let (ai_results, log) := BaseLLMProvider.batch_classify provider api ai_txs in
      (merge 0 ai_results results, log)
  end.

(** [classification["account"]], [classification["confidence"]] and
    [classification["source"]] raise [KeyError] on a missing key;
    [classification.get("reasoning", "")]. *)
Definition save_classification (transaction_id' : string)
    (classification : ResultDict) : M unit :=
  match result_account classification with
  | None => raise (KeyError "account")
  | Some account =>
      match result_confidence classification with
      | None => raise (KeyError "confidence")
      | Some confidence =>
          match result_source classification with
          | None => raise (KeyError "source")
          | Some source =>
              _ ← ClassificationRepository.create transaction_id' account confidence
                    source (default "" (result_reasoning classification));
              ret tt
          end
      end
  end.

End Classifier.

(** ** src/core/feedback.py *)

(** The dicts collected under a pattern key. *)
Record PatternItem : Type := {
  item_transaction_id : string;
  item_peer : string;
  item_item : string;
  item_category : string;
  item_corrected_account : option string
}.

Record Statistics : Type := {
  stat_total : nat;
  stat_accept : nat;
  stat_reject : nat;
  stat_modify : nat;
  stat_accept_rate : Q;
  stat_modify_rate : Q
}.

Module FeedbackHandler.

(** [max(classifications, key=lambda c: c.created_at)] *)
Definition latest (cs : list Classification) : option Classification :=
  Py.max_by (fun a b => Py.str_gt (classification_created_at a)
                                  (classification_created_at b)) cs.

Definition record_feedback (transaction_id' : string)
    (original_account corrected_account : option string) (action : string)
    : M Feedback :=
  feedback ← FeedbackRepository.create transaction_id' action original_account
               corrected_account;
  _ ← (if String.eqb action "modify" && Py.truthy_opt corrected_account then
         d ← get_db;
         match latest (ClassificationRepository.get_by_transaction_id d transaction_id') with
         | Some latest_classification =>
             _ ← ClassificationRepository.update_account
                   (classification_id latest_classification)
                   (default "" corrected_account);
             ret tt
         | None => ret tt
         end
       else ret tt);
  ret feedback.

(** [f"{transaction.peer}|{transaction.item}|{transaction.category}"] *)
Definition pattern_key (t : Transaction) : string :=
  transaction_peer t ++ "|" ++ transaction_item t ++ "|" ++ transaction_category t.

(** [patterns[key].append(item)] on a [defaultdict(list)]: a dict keeps its
    keys in the order of their first insertion. *)
Fixpoint patterns_append (key : string) (item : PatternItem)
    (patterns' : list (string * list PatternItem)) : list (string * list PatternItem) :=
  match patterns' with
  | [] => [(key, [item])]
  | (k, items) :: rest =>
      if String.eqb k key then (k, (items ++ [item])%list) :: rest
      else (k, items) :: patterns_append key item rest
  end.

(** The grouping loop over [modify_feedbacks]. *)
Definition group_feedback (d : DB) (modify_feedbacks : list Feedback)
    : list (string * list PatternItem) :=
  fold_left
    (fun patterns' feedback =>
       match TransactionRepository.get_by_id d (feedback_transaction_id feedback) with
       | None => patterns'
       | Some transaction =>
           patterns_append (pattern_key transaction)
             {| item_transaction_id := transaction_id transaction;
                item_peer := transaction_peer transaction;
                item_item := transaction_item transaction;
                item_category := transaction_category transaction;
                item_corrected_account := feedback_corrected_account feedback |}
             patterns'
       end)
    modify_feedbacks [].

(** [accounts = {item["corrected_account"] for item in items}] *)
Definition accounts_of (items : list PatternItem) : gset (option string) :=
  list_to_set (map item_corrected_account items).

(** The body of the loop over [patterns.items()]: the rules generated for one
    group (none or one). *)
Definition generate_for_group (min_confidence : Z) (items : list PatternItem)
    : M (list Rule) :=
  if (Z.of_nat (length items) >=? min_confidence)%Z then
    let accounts := accounts_of items in
    if Nat.eqb (size accounts) 1 then
      match items, elements accounts with
      | first :: _, account :: _ =>
          rule ← RuleEngine.auto_generate_rule_from_feedback
                   (item_peer first) (item_item first) (item_category first) account;
          ret [rule]
      | _, _ => raise (IndexError "list index out of range")
      end
    else ret []
  else ret [].

(** [feedbacks = FeedbackRepository.list_all(self.db)]: the defaults
    [skip=0, limit=100]. *)
Definition analyze_feedback_and_generate_rules (min_confidence : Z) : M (list Rule) :=
  d ← get_db;
  let feedbacks' := FeedbackRepository.list_all d 0 100 in
  let modify_feedbacks :=
    List.filter (fun f => String.eqb (feedback_action f) "modify") feedbacks' in
  let patterns' := group_feedback d modify_feedbacks in
  generated ← mapM (fun kv => generate_for_group min_confidence (snd kv)) patterns';
  ret (concat generated).

(** [feedbacks = FeedbackRepository.list_all(self.db)]: the defaults
    [skip=0, limit=100]. *)
Definition get_statistics (d : DB) : Statistics :=
  let feedbacks' := FeedbackRepository.list_all d 0 100 in
  let total := length feedbacks' in
  let accept := Py.count (fun f => String.eqb (feedback_action f) "accept") feedbacks' in
  let reject := Py.count (fun f => String.eqb (feedback_action f) "reject") feedbacks' in
  let modify := Py.count (fun f => String.eqb (feedback_action f) "modify") feedbacks' in
  {| stat_total := total;
     stat_accept := accept;
     stat_reject := reject;
     stat_modify := modify;
     stat_accept_rate := if Nat.ltb 0 total then Py.truediv accept total else 0;
     stat_modify_rate := if Nat.ltb 0 total then Py.truediv modify total else 0 |}.

End FeedbackHandler.

(** ** src/api/routes/classify.py *)

Module Routes.

(** [PUT /classifications/{classification_id}]: the direct edit of a row. *)
Definition update_classification (classification_id' account : string) : M bool :=
  ClassificationRepository.update_account classification_id' account.

End Routes.

(** The pydantic model [ClassificationResult] of the response of
    [POST /classify]. *)
Record ClassificationResult : Type := {
  cr_transaction_id : string;
  cr_account : string;
  cr_confidence : Q;
  cr_reasoning : string;
  cr_source : string
}.

Module ClassifyRoute.

(** The body of the loop over [results]: [result["transaction"]],
    [result["account"]], [result["confidence"]], [result["reasoning"]] and
    [result["source"]] raise [KeyError] on a missing key; the row is created
    under [transaction.get("id", "")]. *)
Definition persist_result (result : ResultDict) : M ClassificationResult :=
  match result_transaction result with
  | None => raise (KeyError "transaction")
  | Some transaction =>
      match result_account result with
      | None => raise (KeyError "account")
      | Some account =>
          match result_confidence result with
          | None => raise (KeyError "confidence")
          | Some confidence =>
              match result_reasoning result with
              | None => raise (KeyError "reasoning")
              | Some reasoning =>
                  match result_source result with
                  | None => raise (KeyError "source")
                  | Some source =>
                      _ ← ClassificationRepository.create (tx_get transaction "id")
                            account confidence source reasoning;
                      ret {| cr_transaction_id := tx_get transaction "id";
                             cr_account := account;
                             cr_confidence := confidence;
                             cr_reasoning := reasoning;
                             cr_source := source |}
                  end
              end
          end
      end
  end.

(** [POST /classify] for a provider name of the registry: the results of the
    coordinator are persisted one by one and returned. The handler reports
    any exception as an [HTTPException] of status 500 that quotes it; the
    exception stands for that response. The requests sent to the remote model
    are returned beside the response. *)
Definition classify_transactions (provider : Provider) (api : Api)
    (transactions' : list TxDict) : M (list ClassificationResult * list ProviderCall) :=
  d ← get_db;
  let (results, log) := Classifier.classify_transactions d provider api transactions' in
  match results with
  | Ok results' =>
      classification_results ← mapM persist_result results';
      ret (classification_results, log)
  | Raise e => raise e
  end.

End ClassifyRoute.

(** ** Notions used in the statements *)

(** [p] occurs in [s]: some text before, [p], some text after. *)
Definition substring_of (p s : string) : Prop :=
  exists before after, s = before ++ p ++ after.

(** A condition on a free-text field ([peer], [item]) holds when it is absent
    or when one of its patterns occurs in the field. *)
Definition text_condition_holds (c : option CondValue) (field : string) : Prop :=
  forall v, c = Some v -> exists p, In p (patterns v) /\ substring_of p field.

(** The [category] condition holds when it is absent or when the category is
    one of its patterns. *)
Definition category_condition_holds (c : option CondValue) (category : string) : Prop :=
  forall v, c = Some v -> In category (patterns v).

(** All the condition keys present in [conditions] evaluate true. *)
Definition conditions_hold (conditions : gmap string CondValue)
    (peer item category : string) : Prop :=
  text_condition_holds (conditions !! "peer") peer /\
  text_condition_holds (conditions !! "item") item /\
  category_condition_holds (conditions !! "category") category.

(** The primary key drawn by the next [uuid4()] is not in use. *)
Definition fresh_in (ids : list string) (u : N) : Prop :=
  Py.mem (Uuid.str u) ids = false.

(** The value stored under a condition key by rule generation: the component
    itself when it is not empty, no entry otherwise. *)
Definition nonempty_component (value : string) : option CondValue :=
  if Py.truthy value then Some (PatStr value) else None.

(** What [auto_generate_rule_from_feedback] creates from
    (peer, item, category, account) when [uuid4().hex] is [hex suffix_uuid]. *)
Definition generated_rule_spec (peer item category account : string)
    (suffix_uuid : N) (rule : Rule) : Prop :=
  let parts := map (Py.slice_to 10) (List.filter Py.truthy [peer; item; category]) in
  let suffix := Py.slice_to 6 (Uuid.hex suffix_uuid) in
  (forall key : string,
     rule_conditions rule !! key =
       if decide (key = "peer") then nonempty_component peer
       else if decide (key = "item") then nonempty_component item
       else if decide (key = "category") then nonempty_component category
       else None) /\
  rule_name rule =
    match parts with
    | [] => "auto-generated-rule"
    | _ => String.concat "-" parts
    end ++ "-" ++ suffix /\
  String.length suffix = 6 /\
  Forall (fun c => Uuid.is_hex c = true) (list_ascii_of_string suffix) /\
  rule_account rule = account /\
  rule_confidence rule = 9 # 10 /\
  rule_source rule = "auto".

(** The rule name in the words of the design document: the non-empty
    components, each cut to 10 characters, joined by dashes and followed by the
    suffix. *)
Definition documented_name (peer item category suffix : string) : string :=
  String.concat "-"
    (map (Py.slice_to 10) (List.filter Py.truthy [peer; item; category])) ++
  "-" ++ suffix.

(** The matched rules of a transaction, as the coordinator asks for them. *)
Definition matched_rules (d : DB) (tx : TxDict) : list Rule :=
  RuleRepository.match_transaction d
    (tx_get tx "peer") (tx_get tx "item") (tx_get tx "category").

(** Order of two rules by confidence. *)
Definition confidence_le (a b : Rule) : Prop :=
  (rule_confidence a <= rule_confidence b)%Q.

(** The transactions that no user rule resolves, in input order: the batch
    handed to the provider. *)
Definition pending (d : DB) (txs : list TxDict) : list TxDict :=
  List.filter
    (fun tx => match Classifier.best_user_rule d tx with
               | None => true
               | Some _ => false
               end) txs.




(** [a.created_at <= b.created_at] in the order of Python strings. *)
Definition created_at_le (a b : Classification) : Prop :=
  String_as_OT.compare (classification_created_at a) (classification_created_at b) <> Gt.

(** [a.created_at < b.created_at] in the order of Python strings. *)
Definition created_at_lt (a b : Classification) : Prop :=
  String_as_OT.compare (classification_created_at a) (classification_created_at b) = Lt.

(** [rows'] is [rows] with the one row [l] retargeted to [account] by the
    user, every other row and the order being kept. *)
Definition retargeted (rows rows' : list Classification) (l : Classification)
    (account : string) : Prop :=
  exists before after,
    rows = (before ++ l :: after)%list /\
    rows' = (before ++ ClassificationRepository.retarget account l :: after)%list.

(** [rows'] is [rows] with the most recent classification of the transaction
    [tid] retargeted to [account] by the user: the retargeted row [l] belongs
    to [tid], every row of [tid] before it in the table is strictly older and
    every row of [tid] after it is not more recent, so that among the rows of
    maximal [created_at] it is the first one; every other row and the order
    are kept. *)
Definition retargets_most_recent (rows rows' : list Classification)
    (tid account : string) : Prop :=
  exists before l after,
    rows = (before ++ l :: after)%list /\
    rows' = (before ++ ClassificationRepository.retarget account l :: after)%list /\
    classification_transaction_id l = tid /\
    (forall c, In c before -> classification_transaction_id c = tid ->
               created_at_lt c l) /\
    (forall c, In c after -> classification_transaction_id c = tid ->
               created_at_le c l).

(** The operations of the coordinator and of the feedback learner that write
    to the store of classifications. *)
Inductive CoreOp : Type :=
  | Persist (tid account : string) (confidence : Q) (source : string)
      (reasoning : option string)
  | RecordFeedback (tid : string) (original corrected : option string)
      (action : string).

Definition run_op (op : CoreOp) : M unit :=
  match op with
  | Persist tid account confidence source reasoning =>
      Classifier.save_classification tid
        {| result_transaction := None;
           result_account := Some account;
           result_confidence := Some confidence;
           result_reasoning := reasoning;
           result_source := Some source |}
  | RecordFeedback tid original corrected action =>
      _ ← FeedbackHandler.record_feedback tid original corrected action;
      ret tt
  end.

(** The primary key the operation draws is unused in the table it inserts
    into. *)
Definition fresh_for (op : CoreOp) (w : World) : Prop :=
  match op with
  | Persist _ _ _ _ _ =>
      fresh_in (map classification_id (classifications (db w)))
        (uuid_source w (uuid_calls w))
  | RecordFeedback _ _ _ _ =>
      fresh_in (map feedback_id (feedbacks (db w))) (uuid_source w (uuid_calls w))
  end.

(** What an operation does to the table of classifications. *)
Definition effect (op : CoreOp) (rows rows' : list Classification) : Prop :=
  match op with
  | Persist tid account confidence source reasoning =>
      exists row,
        rows' = (rows ++ [row])%list /\
        ~ In (classification_id row) (map classification_id rows) /\
        classification_transaction_id row = tid /\
        classification_account row = account /\
        classification_confidence row = confidence /\
        classification_source row = source /\
        classification_reasoning row = default "" reasoning
  | RecordFeedback tid original corrected action =>
      if String.eqb action "modify" && Py.truthy_opt corrected
      then ((forall c, In c rows -> classification_transaction_id c <> tid) /\
            rows' = rows) \/
           retargets_most_recent rows rows' tid (default "" corrected)
      else rows' = rows
  end.

(** The pattern key and the item the grouping loop builds for one feedback
    record, when its transaction exists. *)
Definition keyed_item (d : DB) (f : Feedback) : option (string * PatternItem) :=
  match TransactionRepository.get_by_id d (feedback_transaction_id f) with
  | None => None
  | Some t =>
      Some (FeedbackHandler.pattern_key t,
            {| item_transaction_id := transaction_id t;
               item_peer := transaction_peer t;
               item_item := transaction_item t;
               item_category := transaction_category t;
               item_corrected_account := feedback_corrected_account f |})
  end.

(** The items of the feedback records [fs] that fall under the key [k], in
    the order of the records. *)
Definition items_under (d : DB) (fs : list Feedback) (k : string) : list PatternItem :=
  map snd (List.filter (fun ki => String.eqb (fst ki) k) (omap (keyed_item d) fs)).

(** The list stored under [k] in an insertion-ordered dict, [[]] when [k] is
    not a key. *)
Definition dict_get (k : string) (dict : list (string * list PatternItem))
    : list PatternItem :=
  match List.find (fun kv => String.eqb (fst kv) k) dict with
  | Some kv => snd kv
  | None => []
  end.

(** All the items of a group were corrected to the account [a]. *)
Definition agree_on (a : option string) (items : list PatternItem) : Prop :=
  forall i, In i items -> item_corrected_account i = a.

(** A dict as the grouping loop builds it: distinct keys, no empty group. *)
Definition dict_ok (dict : list (string * list PatternItem)) : Prop :=
  NoDup (map fst dict) /\ Forall (fun kv => snd kv <> []) dict.

(** The primary keys of every table are unique. *)
Definition keys_unique (d : DB) : Prop :=
  NoDup (map transaction_id (transactions d)) /\
  NoDup (map classification_id (classifications d)) /\
  NoDup (map feedback_id (feedbacks d)) /\
  NoDup (map rule_id (rules d)).

(** The writes of the repositories, of the rule engine, of the coordinator
    and of the feedback learner. *)
Inductive StoreOp : Type :=
  | TransactionCreate (peer item category transaction_type time : string)
      (amount : Q) (currency provider raw_data : string)
  | TransactionDelete (tid : string)
  | ClassificationCreate (tid account : string) (confidence : Q)
      (source reasoning : string)
  | ClassificationUpdateAccount (cid account : string)
  | FeedbackCreate (tid action : string) (original corrected : option string)
  | RuleCreate (name : string) (conditions : gmap string CondValue)
      (account : option string) (confidence : Q) (source : string)
  | RuleUpdate (rid : string) (name : option string)
      (conditions : option (gmap string CondValue)) (account : option string)
  | RuleDelete (rid : string)
  | SaveClassification (tid : string) (classification : ResultDict)
  | RecordFeedbackOp (tid : string) (original corrected : option string)
      (action : string)
  | AutoGenerateRule (peer item category : string) (account : option string)
  | AnalyzeFeedback (min_confidence : Z).

Definition run_store_op (op : StoreOp) : M unit :=
  match op with
  | TransactionCreate peer item category transaction_type time amount currency
      provider raw_data =>
      _ ← TransactionRepository.create peer item category transaction_type time
            amount currency provider raw_data;
      ret tt
  | TransactionDelete tid => _ ← TransactionRepository.delete tid; ret tt
  | ClassificationCreate tid account confidence source reasoning =>
      _ ← ClassificationRepository.create tid account confidence source reasoning;
      ret tt
  | ClassificationUpdateAccount cid account =>
      _ ← ClassificationRepository.update_account cid account; ret tt
  | FeedbackCreate tid action original corrected =>
      _ ← FeedbackRepository.create tid action original corrected; ret tt
  | RuleCreate name conditions account confidence source =>
      _ ← RuleEngine.create_rule name conditions account confidence source; ret tt
  | RuleUpdate rid name conditions account =>
      _ ← RuleEngine.update_rule rid name conditions account; ret tt
  | RuleDelete rid => _ ← RuleEngine.delete_rule rid; ret tt
  | SaveClassification tid classification =>
      Classifier.save_classification tid classification
  | RecordFeedbackOp tid original corrected action =>
      _ ← FeedbackHandler.record_feedback tid original corrected action; ret tt
  | AutoGenerateRule peer item category account =>
      _ ← RuleEngine.auto_generate_rule_from_feedback peer item category account;
      ret tt
  | AnalyzeFeedback min_confidence =>
      _ ← FeedbackHandler.analyze_feedback_and_generate_rules min_confidence; ret tt
  end.

(** A statement of the session keeps the property [P] of the state whenever
    it returns. *)
Definition preserves {A} (P : World -> Prop) (m : M A) : Prop :=
  forall w a w', P w -> m w = Ok (a, w') -> P w'.

(** The keys of a table of [user_config] are unique. *)
Definition config_keys_unique (table : list UserConfig) : Prop :=
  NoDup (map config_key table).

(** The transactions a request to the remote model carries. *)
Definition sent (c : ProviderCall) : list TxDict :=
  match c with
  | ChatCall tx => [tx]
  | BatchChatCall txs => txs
  end.

(** The answer of the provider for one transaction: the parsed result, or the
    default result when the request raised. *)
Definition provider_answer (api : Api) (tx : TxDict) : AIResult :=
  match chat api tx with
  | inr result => result
  | inl e =>
      {| ai_account := "Expenses:Misc";
         ai_confidence := 0;
         ai_reasoning := "API call failed: " ++ e |}
  end.

(** The keys a rule contributes to the exported mapping: its peer patterns,
    then its item patterns. *)
Definition exported_keys (r : Rule) : list string :=
  (match rule_conditions r !! "peer" with
   | Some v => patterns v
   | None => []
   end ++
   match rule_conditions r !! "item" with
   | Some v => patterns v
   | None => []
   end)%list.

(** [mapping[key]["account"]], [None] when [key] is not a key of [mapping]. *)
Definition mapping_get (key : string) (mapping : list (string * string))
    : option string :=
  option_map snd (List.find (fun kv => String.eqb (fst kv) key) mapping).

(** What the learner does with one group of corrections: no rule, when the
    group is below the threshold or its corrections disagree; otherwise one
    rule of source "auto" for the account all corrections agree on, with the
    conditions built from the first item of the group. *)
Definition group_outcome (min_confidence : Z) (items : list PatternItem)
    (out : list Rule) : Prop :=
  (out = [] /\
   ~ ((min_confidence <= Z.of_nat (length items))%Z /\ exists a, agree_on a items)) \/
  (exists rule first rest,
     items = first :: rest /\
     out = [rule] /\
     (min_confidence <= Z.of_nat (length items))%Z /\
     agree_on (Some (rule_account rule)) items /\
     rule_source rule = "auto" /\
     rule_confidence rule = 9 # 10 /\
     rule_conditions rule =
       RuleEngine.build_conditions (item_peer first) (item_item first)
         (item_category first)).

(** The groups of corrections the learner examines: the "modify" records of
    the page of feedback it reads, grouped by pattern key. *)
Definition examined_groups (d : DB) : list (string * list PatternItem) :=
  FeedbackHandler.group_feedback d
    (List.filter (fun f => String.eqb (feedback_action f) "modify")
       (FeedbackRepository.list_all d 0 100)).

(** The row [row] and the entry [resp] of the response are those of the
    result [r] of the coordinator. *)
Definition persisted (r : ResultDict) (row : Classification)
    (resp : ClassificationResult) : Prop :=
  (exists tx, result_transaction r = Some tx /\
              classification_transaction_id row = tx_get tx "id") /\
  result_account r = Some (classification_account row) /\
  result_confidence r = Some (classification_confidence row) /\
  result_source r = Some (classification_source row) /\
  result_reasoning r = Some (classification_reasoning row) /\
  resp = {| cr_transaction_id := classification_transaction_id row;
            cr_account := classification_account row;
            cr_confidence := classification_confidence row;
            cr_reasoning := classification_reasoning row;
            cr_source := classification_source row |}.

(** ** Concrete sessions used as examples *)

(** An empty store; the n-th [uuid4()] is [n], the clock reads the n-th second
    of a minute. *)
Definition w_init : World :=
  {| db := empty_db;
     uuid_source := fun n => N.of_nat n;
     uuid_calls := 0;
     clock := fun n => "2024-01-01T00:00:" ++ Uuid.hex_of 2 (N.of_nat n);
     clock_calls := 0 |}.

(** [n] times the same statement. *)
Fixpoint repeatM {A} (n : nat) (m : M A) : M unit :=
  match n with
  | O => ret tt
  | S n' => _ ← m; repeatM n' m
  end.

(** One hundred user rules on the payee "Costco", then one on "Star". *)
Definition session_101_rules : M Rule :=
  _ ← repeatM 100
        (RuleEngine.create_rule "groceries" {["peer" := PatStr "Costco"]}
           (Some "Expenses:Food:Groceries") 1 "user");
  RuleEngine.create_rule "coffee" {["peer" := PatStr "Star"]}
    (Some "Expenses:Food:Dining") 1 "user".

(** One hundred user rules on the payee "Costco", then a rule generated from
    feedback on a transaction whose peer, item and category are all empty. *)
Definition session_101_rules_last_empty : M Rule :=
  _ ← repeatM 100
        (RuleEngine.create_rule "groceries" {["peer" := PatStr "Costco"]}
           (Some "Expenses:Food:Groceries") 1 "user");
  RuleEngine.auto_generate_rule_from_feedback "" "" "" (Some "Expenses:Misc").

(** A store with two user rules (confidence 0.6 and 0.9) and an auto rule
    (confidence 1.0) that all match the payee "Starbucks Coffee". *)
Definition rule_low : Rule :=
  {| rule_id := "00000000-0000-0000-0000-000000000001";
     rule_name := "coffee";
     rule_conditions := {["peer" := PatStr "Star"]};
     rule_account := "Expenses:Food:Dining";
     rule_confidence := 6 # 10;
     rule_source := "user";
     rule_created_at := "2024-01-01T00:00:00";
     rule_updated_at := "2024-01-01T00:00:00" |}.

Definition rule_high : Rule :=
  {| rule_id := "00000000-0000-0000-0000-000000000002";
     rule_name := "starbucks";
     rule_conditions := {["peer" := PatList ["Starbucks"; "Costa"]]};
     rule_account := "Expenses:Food:Coffee";
     rule_confidence := 9 # 10;
     rule_source := "user";
     rule_created_at := "2024-01-02T00:00:00";
     rule_updated_at := "2024-01-02T00:00:00" |}.

Definition rule_auto : Rule :=
  {| rule_id := "00000000-0000-0000-0000-000000000003";
     rule_name := "Starbucks -a1b2c3";
     rule_conditions := {["peer" := PatStr "Starbucks Coffee"]};
     rule_account := "Expenses:Misc";
     rule_confidence := 1;
     rule_source := "auto";
     rule_created_at := "2024-01-03T00:00:00";
     rule_updated_at := "2024-01-03T00:00:00" |}.

Definition db_three_rules : DB :=
  {| transactions := []; classifications := []; feedbacks := [];
     rules := [rule_low; rule_high; rule_auto] |}.

Definition tx_starbucks : TxDict :=
  {["id" := "t1"; "peer" := "Starbucks Coffee"; "item" := "Latte";
    "category" := "Food"; "amount" := "4.50"]}.

Definition tx_taxi : TxDict :=
  {["id" := "t2"; "peer" := "City Cab"; "item" := "Ride"; "category" := "Transport"]}.

Definition tx_rent : TxDict :=
  {["id" := "t3"; "peer" := "Landlord"; "item" := "Rent"; "category" := "Housing"]}.

(** A remote model whose batch request always raises and whose single
    request raises for the payee "City Cab" only. *)
Definition api_cab_fails : Api :=
  {| chat := fun tx =>
       if String.eqb (tx_get tx "peer") "City Cab" then inl "Request timed out."
       else inr {| ai_account := "Expenses:Housing";
                   ai_confidence := 8 # 10;
                   ai_reasoning := "rent" |};
     chat_batch := fun _ => inl "Connection error." |}.

(** 101 feedback records, all "accept", on the same transaction. *)
Definition session_101_feedback : M unit :=
  repeatM 101 (FeedbackHandler.record_feedback "t1" (Some "Expenses:Misc") None "accept").

(** A store with two classifications of the transaction "t1" and one of
    "t2". *)
Definition w_classified : World :=
  {| db :=
       {| transactions := [];
          classifications :=
            [ {| classification_id := "c1";
                 classification_transaction_id := "t1";
                 classification_account := "Expenses:Misc";
                 classification_confidence := 0;
                 classification_source := "ai";
                 classification_reasoning := "API call failed: timeout";
                 classification_created_at := "2024-01-01T10:00:00" |};
              {| classification_id := "c2";
                 classification_transaction_id := "t2";
                 classification_account := "Expenses:Transport:Taxi";
                 classification_confidence := 8 # 10;
                 classification_source := "ai";
                 classification_reasoning := "cab";
                 classification_created_at := "2024-01-01T10:00:01" |};
              {| classification_id := "c3";
                 classification_transaction_id := "t1";
                 classification_account := "Expenses:Food:Dining";
                 classification_confidence := 7 # 10;
                 classification_source := "ai";
                 classification_reasoning := "coffee";
                 classification_created_at := "2024-01-02T09:30:00.120000" |} ];
          feedbacks := [];
          rules := [] |};
     uuid_source := fun n => N.of_nat n;
     uuid_calls := 0;
     clock := fun n => "2024-01-03T00:00:" ++ Uuid.hex_of 2 (N.of_nat n);
     clock_calls := 0 |}.

(** A store with the single transaction "t1". *)
Definition w_one_transaction : World :=
  {| db :=
       {| transactions :=
            [ {| transaction_id := "t1";
                 transaction_peer := "Starbucks Coffee";
                 transaction_item := "Latte";
                 transaction_category := "Food";
                 transaction_type := "expense";
                 transaction_time := "2024-01-01 09:30:00";
                 transaction_amount := 45 # 10;
                 transaction_currency := "CNY";
                 transaction_provider := "alipay";
                 transaction_raw_data := "";
                 transaction_created_at := "2024-01-01T10:00:00" |} ];
          classifications := [];
          feedbacks := [];
          rules := [] |};
     uuid_source := fun n => N.of_nat n;
     uuid_calls := 0;
     clock := fun n => "2024-01-03T00:00:" ++ Uuid.hex_of 2 (N.of_nat n);
     clock_calls := 0 |}.

Definition modify_t1 (corrected : string) : M Feedback :=
  FeedbackHandler.record_feedback "t1" (Some "Expenses:Misc") (Some corrected) "modify".

(** Three corrections of "t1" to the same account, then rule generation. *)
Definition session_three_modify : M (list Rule) :=
  _ ← repeatM 3 (modify_t1 "Expenses:Food:Coffee");
  FeedbackHandler.analyze_feedback_and_generate_rules 3.

(** The same with a fourth correction to another account. *)
Definition session_four_modify_disagree : M (list Rule) :=
  _ ← repeatM 3 (modify_t1 "Expenses:Food:Coffee");
  _ ← modify_t1 "Expenses:Food:Dining";
  FeedbackHandler.analyze_feedback_and_generate_rules 3.

(** One hundred "accept" records first, then the three corrections. *)
Definition session_100_accept_three_modify : M (list Rule) :=
  _ ← repeatM 100
        (FeedbackHandler.record_feedback "t1" (Some "Expenses:Misc") None "accept");
  _ ← repeatM 3 (modify_t1 "Expenses:Food:Coffee");
  FeedbackHandler.analyze_feedback_and_generate_rules 3.

(** A session on the store of three rules. *)
Definition w_three_rules : World :=
  {| db := db_three_rules;
     uuid_source := fun n => N.of_nat (n + 16);
     uuid_calls := 0;
     clock := fun n => "2024-02-01T00:00:" ++ Uuid.hex_of 2 (N.of_nat n);
     clock_calls := 0 |}.

(** A store with the transactions "t1" and "t2", their classifications and a
    feedback record on each. *)
Definition w_two_transactions : World :=
  {| db :=
       {| transactions :=
            [ {| transaction_id := "t1";
                 transaction_peer := "Starbucks Coffee";
                 transaction_item := "Latte";
                 transaction_category := "Food";
                 transaction_type := "expense";
                 transaction_time := "2024-01-01 09:30:00";
                 transaction_amount := 45 # 10;
                 transaction_currency := "CNY";
                 transaction_provider := "alipay";
                 transaction_raw_data := "";
                 transaction_created_at := "2024-01-01T10:00:00" |};
              {| transaction_id := "t2";
                 transaction_peer := "City Cab";
                 transaction_item := "Ride";
                 transaction_category := "Transport";
                 transaction_type := "expense";
                 transaction_time := "2024-01-01 18:00:00";
                 transaction_amount := 20;
                 transaction_currency := "CNY";
                 transaction_provider := "wechat";
                 transaction_raw_data := "";
                 transaction_created_at := "2024-01-01T19:00:00" |} ];
          classifications := classifications (db w_classified);
          feedbacks :=
            [ {| feedback_id := "f1";
                 feedback_transaction_id := "t1";
                 feedback_original_account := Some "Expenses:Misc";
                 feedback_corrected_account := Some "Expenses:Food:Dining";
                 feedback_action := "modify";
                 feedback_created_at := "2024-01-02T00:00:00" |};
              {| feedback_id := "f2";
                 feedback_transaction_id := "t2";
                 feedback_original_account := Some "Expenses:Transport:Taxi";
                 feedback_corrected_account := None;
                 feedback_action := "accept";
                 feedback_created_at := "2024-01-02T00:00:01" |} ];
          rules := [rule_low; rule_high; rule_auto] |};
     uuid_source := fun n => N.of_nat (n + 16);
     uuid_calls := 0;
     clock := fun n => "2024-02-01T00:00:" ++ Uuid.hex_of 2 (N.of_nat n);
     clock_calls := 0 |}.

(** A table of configuration with two entries. *)
Definition table_two_configs : list UserConfig :=
  [ {| config_key := "chart_of_accounts";
       config_value := "Expenses:Misc";
       config_updated_at := "2024-01-01T00:00:00" |};
    {| config_key := "ai_config";
       config_value := "{}";
       config_updated_at := "2024-01-01T00:00:01" |} ].

(** A store whose only rule is generated from feedback (source "auto"). *)
Definition db_auto_rule_only : DB :=
  {| transactions := []; classifications := []; feedbacks := []; rules := [rule_auto] |}.

Definition api_rent : Api :=
  {| chat := fun _ => inr {| ai_account := "Expenses:Food:Dining";
                             ai_confidence := 7 # 10;
                             ai_reasoning := "coffee shop" |};
     chat_batch := fun _ => inl "Connection error." |}.

(** One hundred user rules on the payee "Costco". *)
Definition session_100_rules : M unit :=
  repeatM 100
    (RuleEngine.create_rule "groceries" {["peer" := PatStr "Costco"]}
       (Some "Expenses:Food:Groceries") 1 "user").

(** A store with two classifications of the transaction "t1" created at the
    same instant, after an older one. *)
Definition w_tied : World :=
  {| db :=
       {| transactions := [];
          classifications :=
            [ {| classification_id := "c1";
                 classification_transaction_id := "t1";
                 classification_account := "Expenses:Misc";
                 classification_confidence := 0;
                 classification_source := "ai";
                 classification_reasoning := "API call failed: timeout";
                 classification_created_at := "2024-01-01T10:00:00" |};
              {| classification_id := "c2";
                 classification_transaction_id := "t1";
                 classification_account := "Expenses:Food:Dining";
                 classification_confidence := 7 # 10;
                 classification_source := "ai";
                 classification_reasoning := "coffee";
                 classification_created_at := "2024-01-02T09:30:00" |};
              {| classification_id := "c3";
                 classification_transaction_id := "t1";
                 classification_account := "Expenses:Food:Groceries";
                 classification_confidence := 6 # 10;
                 classification_source := "ai";
                 classification_reasoning := "shop";
                 classification_created_at := "2024-01-02T09:30:00" |} ];
          feedbacks := [];
          rules := [] |};
     uuid_source := fun n => N.of_nat n;
     uuid_calls := 0;
     clock := fun n => "2024-01-03T00:00:" ++ Uuid.hex_of 2 (N.of_nat n);
     clock_calls := 0 |}.

(** * Properties *)

(** ** Strings *)

Lemma append_cons (c : ascii) (s t : string) : String c s ++ t = String c (s ++ t).
Proof. reflexivity. Qed.

Lemma append_nil (t : string) : "" ++ t = t.
Proof. reflexivity. Qed.

Lemma prefix_app (p s : string) :
  String.prefix p s = true <-> exists after, s = p ++ after.
Proof.
  revert s. induction p as [|c p IH]; intros s.
  - split; [intros _; exists s; reflexivity | intros _; destruct s; reflexivity].
  - destruct s as [|c' s]; simpl.
    + split; [discriminate | intros [after H]; discriminate].
    + destruct (ascii_dec c c') as [->|Hne].
      * rewrite IH. split; intros [after H]; exists after;
          rewrite append_cons in *; congruence.
      * split; [discriminate | intros [after H]; rewrite append_cons in H; congruence].
Qed.

Lemma contains_substring (p s : string) :
  Py.contains p s = true <-> substring_of p s.
Proof.
  unfold substring_of. induction s as [|c s IH].
  - change (Py.contains p "") with (String.prefix p "" || false).
    rewrite orb_false_r, prefix_app. split.
    + intros [after H]. exists "", after. exact H.
    + intros [before [after H]]. destruct before.
      * rewrite append_nil in H. eauto.
      * rewrite append_cons in H. discriminate.
  - change (Py.contains p (String c s))
      with (String.prefix p (String c s) || Py.contains p s).
    rewrite orb_true_iff, prefix_app, IH. split.
    + intros [[after H] | [before [after H]]].
      * exists "", after. exact H.
      * exists (String c before), after. rewrite append_cons. congruence.
    + intros [before [after H]]. destruct before as [|c' before].
      * left. rewrite append_nil in H. eauto.
      * right. rewrite append_cons in H. exists before, after. congruence.
Qed.

Lemma mem_In (x : string) (l : list string) : Py.mem x l = true <-> In x l.
Proof.
  unfold Py.mem. rewrite existsb_exists. split.
  - intros [y [Hy Heq]]. apply String.eqb_eq in Heq. congruence.
  - intros H. exists x. split; [exact H | apply String.eqb_refl].
Qed.

Lemma any_contains (l : list string) (field : string) :
  Py.any (fun p => Py.contains p field) l = true <->
  exists p, In p l /\ substring_of p field.
Proof.
  unfold Py.any. rewrite existsb_exists.
  split; intros [p [Hin H]]; exists p; split; auto; apply contains_substring; exact H.
Qed.

(** ** Rule matching *)

(** The loop body of [match_transaction] accepts a rule exactly when every
    condition key present in its conditions holds: a pattern of [peer] (of
    [item]) occurs in the field, the category is one of the [category]
    patterns. *)
Lemma rule_matches_spec (conditions : gmap string CondValue)
    (peer item category : string) :
  RuleRepository.rule_matches conditions peer item category = true <->
  conditions_hold conditions peer item category.
Proof.
  unfold RuleRepository.rule_matches, conditions_hold,
    text_condition_holds, category_condition_holds.
  destruct (conditions !! "peer") as [vp|] eqn:Hp;
    destruct (conditions !! "item") as [vi|] eqn:Hi;
    destruct (conditions !! "category") as [vc|] eqn:Hc;
    repeat match goal with
    | |- context [Py.any ?f ?l] =>
        let E := fresh "E" in destruct (Py.any f l) eqn:E; simpl
    | |- context [Py.mem ?x ?l] =>
        let E := fresh "E" in destruct (Py.mem x l) eqn:E; simpl
    end;
    repeat match goal with
    | H : Py.any _ _ = true |- _ => apply any_contains in H
    | H : Py.mem _ _ = true |- _ => apply mem_In in H
    | H : Py.any _ _ = false |- _ => apply not_true_iff_false in H; rewrite any_contains in H
    | H : Py.mem _ _ = false |- _ => apply not_true_iff_false in H; rewrite mem_In in H
    end;
    split; try discriminate; try reflexivity;
    try (intros _; repeat split; intros v Hv; inversion Hv; subst; assumption);
    intros (H1 & H2 & H3); exfalso; eauto.
Qed.

(** [match_transaction] returns the rules of the first page of the table
    whose conditions hold. *)
Lemma match_transaction_page (d : DB) (peer item category : string) (rule : Rule) :
  In rule (RuleRepository.match_transaction d peer item category) <->
  In rule (take 100 (rules d)) /\
  conditions_hold (rule_conditions rule) peer item category.
Proof.
  unfold RuleRepository.match_transaction, RuleRepository.list_all, paginate.
  rewrite filter_In, rule_matches_spec. reflexivity.
Qed.

(** While the table holds at most one hundred rules, [match_transaction]
    returns a stored rule exactly when all its present condition keys hold. *)
Lemma match_transaction_small_store (d : DB) (peer item category : string) (rule : Rule) :
  length (rules d) <= 100 ->
  In rule (rules d) ->
  (In rule (RuleRepository.match_transaction d peer item category) <->
   conditions_hold (rule_conditions rule) peer item category).
Proof.
  intros Hlen Hin. rewrite match_transaction_page.
  rewrite take_ge by exact Hlen. tauto.
Qed.

(** The two examples of the design document: the peer pattern "Star" occurs in
    "Starbucks Coffee"; the category pattern "Food" is not the category
    "Food:Dining". *)
Lemma star_matches_starbucks (item category : string) :
  RuleRepository.rule_matches {["peer" := PatStr "Star"]}
    "Starbucks Coffee" item category = true.
Proof. reflexivity. Qed.

Lemma food_differs_from_food_dining (peer item : string) :
  RuleRepository.rule_matches {["category" := PatStr "Food"]}
    peer item "Food:Dining" = false.
Proof. reflexivity. Qed.

(** C3. [match_transaction] reads one page of one hundred rules: in a store of
    101 user rules the last one, whose only condition is the peer pattern
    "Star", is stored and its condition holds for the peer "Starbucks Coffee",
    yet it is not returned. *)
Theorem match_transaction_ignores_rule_101 :
  exists (rule : Rule) (w : World),
    session_101_rules w_init = Ok (rule, w) /\
    rules (db w) !! 100 = Some rule /\
    rule_conditions rule = {["peer" := PatStr "Star"]} /\
    conditions_hold (rule_conditions rule) "Starbucks Coffee" "" "" /\
    RuleRepository.match_transaction (db w) "Starbucks Coffee" "" "" = [].
Proof.
  eexists. eexists. split; [vm_compute; reflexivity|].
  split; [vm_compute; reflexivity|].
  split; [vm_compute; reflexivity|].
  split; [apply rule_matches_spec; vm_compute; reflexivity|].
  vm_compute. reflexivity.
Qed.

(** ** Rules without conditions *)

Lemma empty_conditions_hold (peer item category : string) :
  conditions_hold ∅ peer item category.
Proof.
  unfold conditions_hold, text_condition_holds, category_condition_holds.
  rewrite !lookup_empty. repeat split; intros v Hv; discriminate.
Qed.

(** A rule without conditions on the first page of the table is returned for
    every transaction. *)
Lemma empty_conditions_match_everything (d : DB) (rule : Rule)
    (peer item category : string) :
  In rule (take 100 (rules d)) ->
  rule_conditions rule = ∅ ->
  In rule (RuleRepository.match_transaction d peer item category).
Proof.
  intros Hin Hempty. apply match_transaction_page. split; [exact Hin|].
  rewrite Hempty. apply empty_conditions_hold.
Qed.

(** [auto_generate_rule_from_feedback] builds the empty dict when peer, item
    and category are empty. *)
Lemma build_conditions_empty : RuleEngine.build_conditions "" "" "" = ∅.
Proof. reflexivity. Qed.

(** C10. A rule without conditions can be created (from feedback on a
    transaction with empty peer, item and category) and is stored; as the
    101st rule of the table it is outside the page [match_transaction] reads
    and is returned for no transaction, here for ("Starbucks Coffee", "", ""). *)
Theorem empty_rule_101_is_not_returned :
  exists (rule : Rule) (w : World),
    session_101_rules_last_empty w_init = Ok (rule, w) /\
    rules (db w) !! 100 = Some rule /\
    rule_conditions rule = ∅ /\
    RuleRepository.match_transaction (db w) "Starbucks Coffee" "" "" = [].
Proof.
  eexists. eexists. split; [vm_compute; reflexivity|].
  split; [vm_compute; reflexivity|].
  split; [vm_compute; reflexivity|].
  vm_compute. reflexivity.
Qed.

(** ** Rule creation *)

(** [RuleRepository.create] with an unused primary key stores the row it
    builds, whatever the conditions are. *)
Lemma RuleRepository_create_fresh (w : World) (name : string)
    (conditions : gmap string CondValue) (account : string) (confidence : Q)
    (source : string) :
  fresh_in (map rule_id (rules (db w))) (uuid_source w (uuid_calls w)) ->
  exists w',
    RuleRepository.create name conditions (Some account) confidence source w =
      Ok ({| rule_id := Uuid.str (uuid_source w (uuid_calls w));
             rule_name := name;
             rule_conditions := conditions;
             rule_account := account;
             rule_confidence := confidence;
             rule_source := source;
             rule_created_at := clock w (clock_calls w);
             rule_updated_at := clock w (S (clock_calls w)) |}, w') /\
    rules (db w') =
      (rules (db w) ++
       [{| rule_id := Uuid.str (uuid_source w (uuid_calls w));
           rule_name := name;
           rule_conditions := conditions;
           rule_account := account;
           rule_confidence := confidence;
           rule_source := source;
           rule_created_at := clock w (clock_calls w);
           rule_updated_at := clock w (S (clock_calls w)) |}])%list /\
    transactions (db w') = transactions (db w) /\
    classifications (db w') = classifications (db w) /\
    feedbacks (db w') = feedbacks (db w) /\
    uuid_source w' = uuid_source w /\
    uuid_calls w' = S (uuid_calls w).
Proof.
  intros Hfresh. unfold fresh_in in Hfresh.
  unfold RuleRepository.create, RuleRepository.insert, mbind, M_bind, bind,
    uuid4, utcnow, get_db, put_db, mret, M_ret, ret.
  simpl. rewrite Hfresh. eexists. repeat split.
Qed.

(** C5 fails on the code: the empty conditions map is accepted, the rule is
    created and stored. *)
Lemma create_rule_accepts_empty_conditions :
  exists (rule : Rule) (w : World),
    RuleEngine.create_rule "catch-all" ∅ (Some "Expenses:Misc") 1 "user" w_init =
      Ok (rule, w) /\
    rule_conditions rule = ∅ /\
    rules (db w) = [rule].
Proof.
  eexists. eexists. split; [vm_compute; reflexivity|].
  split; vm_compute; reflexivity.
Qed.

(** C5 as amended. [create_rule] performs no validation of the conditions:
    for every conditions map, the empty one and maps with other keys than
    peer, item and category included, it stores the rule as given and returns
    it, provided the generated primary key is unused. *)
Theorem create_rule_stores_any_conditions (w : World) (name : string)
    (conditions : gmap string CondValue) (account : string) (confidence : Q)
    (source : string) :
  fresh_in (map rule_id (rules (db w))) (uuid_source w (uuid_calls w)) ->
  exists (rule : Rule) (w' : World),
    RuleEngine.create_rule name conditions (Some account) confidence source w =
      Ok (rule, w') /\
    rule_name rule = name /\
    rule_conditions rule = conditions /\
    rule_account rule = account /\
    rule_confidence rule = confidence /\
    rule_source rule = source /\
    rules (db w') = (rules (db w) ++ [rule])%list.
Proof.
  intros Hfresh.
  destruct (RuleRepository_create_fresh w name conditions account confidence source Hfresh)
    as (w' & Hrun & Hrules & _).
  eexists. exists w'. split; [exact Hrun|]. repeat split. exact Hrules.
Qed.

Lemma create_rule_stores_any_conditions_witness :
  fresh_in (map rule_id (rules (db w_init))) (uuid_source w_init (uuid_calls w_init)) /\
  exists (rule : Rule) (w' : World),
    RuleEngine.create_rule "odd" {["amount" := PatStr "12"]} (Some "Expenses:Misc")
      (1 # 2) "user" w_init = Ok (rule, w') /\
    rule_name rule = "odd" /\
    rule_conditions rule = {["amount" := PatStr "12"]} /\
    rule_account rule = "Expenses:Misc" /\
    rule_confidence rule = 1 # 2 /\
    rule_source rule = "user" /\
    rules (db w') = (rules (db w_init) ++ [rule])%list.
Proof.
  split; [reflexivity|].
  apply (create_rule_stores_any_conditions w_init "odd" {["amount" := PatStr "12"]}
           "Expenses:Misc" (1 # 2) "user").
  reflexivity.
Defined.

(** ** Rules generated from feedback *)

Lemma hex_digit_is_hex (n : N) : Uuid.is_hex (Uuid.hex_digit n) = true.
Proof.
  destruct n as [|p]; [reflexivity|].
  repeat (match goal with q : positive |- _ => destruct q end; try reflexivity).
Qed.

Lemma hex_suffix_length (u : N) : String.length (Py.slice_to 6 (Uuid.hex u)) = 6.
Proof. reflexivity. Qed.

Lemma hex_suffix_digits (u : N) :
  Forall (fun c => Uuid.is_hex c = true)
    (list_ascii_of_string (Py.slice_to 6 (Uuid.hex u))).
Proof.
  unfold Uuid.hex.
  change (Py.slice_to 6 (Uuid.hex_of 32 u)) with
    (String (Uuid.hex_digit ((u / 16 ^ N.of_nat 31) mod 16))
    (String (Uuid.hex_digit ((u / 16 ^ N.of_nat 30) mod 16))
    (String (Uuid.hex_digit ((u / 16 ^ N.of_nat 29) mod 16))
    (String (Uuid.hex_digit ((u / 16 ^ N.of_nat 28) mod 16))
    (String (Uuid.hex_digit ((u / 16 ^ N.of_nat 27) mod 16))
    (String (Uuid.hex_digit ((u / 16 ^ N.of_nat 26) mod 16)) ""))))))%N.
  cbv [list_ascii_of_string].
  repeat constructor; apply hex_digit_is_hex.
Qed.

Lemma build_conditions_lookup (peer item category key : string) :
  RuleEngine.build_conditions peer item category !! key =
    if decide (key = "peer") then nonempty_component peer
    else if decide (key = "item") then nonempty_component item
    else if decide (key = "category") then nonempty_component category
    else None.
Proof.
  unfold RuleEngine.build_conditions, nonempty_component.
  destruct (Py.truthy peer), (Py.truthy item), (Py.truthy category);
    repeat case_decide; subst; simplify_map_eq; try reflexivity; try congruence.
Qed.

Lemma name_parts_filter (peer item category : string) :
  RuleEngine.name_parts peer item category =
  map (Py.slice_to 10) (List.filter Py.truthy [peer; item; category]).
Proof.
  unfold RuleEngine.name_parts. simpl.
  destruct (Py.truthy peer), (Py.truthy item), (Py.truthy category); reflexivity.
Qed.

(** With at least one non-empty component the generated name is the
    documented one. *)
Lemma generated_name_documented (peer item category suffix : string) :
  List.filter Py.truthy [peer; item; category] <> [] ->
  RuleEngine.base_name peer item category ++ "-" ++ suffix =
  documented_name peer item category suffix.
Proof.
  intros Hne. unfold RuleEngine.base_name, documented_name.
  rewrite name_parts_filter.
  destruct (List.filter Py.truthy [peer; item; category]); [congruence | reflexivity].
Qed.

(** C9 fails on the code: with peer, item and category all empty the name is
    "auto-generated-rule" and the suffix, not the (empty) join of the
    components and the suffix. *)
Lemma auto_generated_name_of_empty_components :
  exists (rule : Rule) (w : World),
    RuleEngine.auto_generate_rule_from_feedback "" "" "" (Some "Expenses:Misc") w_init =
      Ok (rule, w) /\
    rule_name rule = "auto-generated-rule-000000" /\
    rule_name rule <> documented_name "" "" "" "000000" /\
    rule_name rule <> "000000".
Proof.
  eexists. eexists. split; [vm_compute; reflexivity|].
  split; [vm_compute; reflexivity|].
  split; vm_compute; discriminate.
Qed.

(** The rule generated from one corrected pattern. *)
Lemma auto_generate_rule_ok (w : World)
    (peer item category account : string) :
  fresh_in (map rule_id (rules (db w))) (uuid_source w (S (uuid_calls w))) ->
  exists (rule : Rule) (w' : World),
    RuleEngine.auto_generate_rule_from_feedback peer item category (Some account) w =
      Ok (rule, w') /\
    rules (db w') = (rules (db w) ++ [rule])%list /\
    generated_rule_spec peer item category account (uuid_source w (uuid_calls w)) rule.
Proof.
  intros Hfresh.
  unfold RuleEngine.auto_generate_rule_from_feedback, RuleEngine.create_rule.
  unfold mbind at 1. unfold M_bind, bind. unfold uuid4 at 1.
  set (w1 := {| db := db w; uuid_source := uuid_source w;
                uuid_calls := S (uuid_calls w); clock := clock w;
                clock_calls := clock_calls w |}).
  destruct (RuleRepository_create_fresh w1
              (RuleEngine.base_name peer item category ++ "-" ++
               Py.slice_to 6 (Uuid.hex (uuid_source w (uuid_calls w))))
              (RuleEngine.build_conditions peer item category)
              account (9 # 10) "auto" Hfresh)
    as (w' & Hrun & Hrules & _).
  eexists. exists w'. split; [exact Hrun|]. split; [exact Hrules|].
  unfold generated_rule_spec. cbn [rule_conditions rule_name rule_account
    rule_confidence rule_source].
  split; [apply build_conditions_lookup|].
  split.
  { unfold RuleEngine.base_name. rewrite name_parts_filter.
    destruct (map (Py.slice_to 10) (List.filter Py.truthy [peer; item; category]));
      reflexivity. }
  split; [apply hex_suffix_length|].
  split; [apply hex_suffix_digits|].
  repeat split.
Qed.

(** C9 as amended. For every (peer, item, category, account),
    [auto_generate_rule_from_feedback] creates and stores through
    [create_rule] a rule whose conditions hold exactly the non-empty
    components under their keys, whose name is the dash-joined non-empty
    components cut to 10 characters (or "auto-generated-rule" when all three
    are empty), a dash and the first 6 hexadecimal digits of a fresh uuid,
    with confidence 0.9 and source "auto". *)
Theorem auto_generate_rule_from_feedback_spec (w : World)
    (peer item category account : string) :
  fresh_in (map rule_id (rules (db w))) (uuid_source w (S (uuid_calls w))) ->
  exists (rule : Rule) (w' : World),
    RuleEngine.auto_generate_rule_from_feedback peer item category (Some account) w =
      Ok (rule, w') /\
    rules (db w') = (rules (db w) ++ [rule])%list /\
    generated_rule_spec peer item category account (uuid_source w (uuid_calls w)) rule.
Proof. apply auto_generate_rule_ok. Qed.

Lemma auto_generate_rule_from_feedback_spec_witness :
  fresh_in (map rule_id (rules (db w_init))) (uuid_source w_init (S (uuid_calls w_init))) /\
  exists (rule : Rule) (w' : World),
    RuleEngine.auto_generate_rule_from_feedback "Starbucks Coffee" "" "Food"
      (Some "Expenses:Food:Dining") w_init = Ok (rule, w') /\
    rules (db w') = (rules (db w_init) ++ [rule])%list /\
    generated_rule_spec "Starbucks Coffee" "" "Food" "Expenses:Food:Dining"
      (uuid_source w_init (uuid_calls w_init)) rule.
Proof.
  split; [reflexivity|].
  apply (auto_generate_rule_from_feedback_spec w_init "Starbucks Coffee" "" "Food"
           "Expenses:Food:Dining").
  reflexivity.
Defined.

(** ** The maximum of a list by a key *)

Section MaxBy.

Context {A : Type} (gt : A -> A -> bool) (le : A -> A -> Prop).
Hypothesis le_refl : forall x, le x x.
Hypothesis le_trans : forall x y z, le x y -> le y z -> le x z.
Hypothesis gt_false : forall x y, gt x y = false -> le x y.
Hypothesis gt_true : forall x y, gt x y = true -> le y x.

Lemma max_from_In (l : list A) (best : A) : In (Py.max_from gt best l) (best :: l).
Proof.
  revert best. induction l as [|x l IH]; intros best; simpl.
  - left. reflexivity.
  - destruct (IH (if gt x best then x else best)) as [H|H].
    + destruct (gt x best); [right; left | left]; exact H.
    + right. right. exact H.
Qed.

Lemma max_from_upper (l : list A) (best x : A) :
  In x (best :: l) -> le x (Py.max_from gt best l).
Proof.
  revert best x. induction l as [|y l IH]; intros best x Hin; simpl.
  - destruct Hin as [->|[]]. apply le_refl.
  - destruct Hin as [->|[->|Hin]].
    + apply le_trans with (if gt y x then y else x).
      * destruct (gt y x) eqn:E; [apply gt_true; exact E | apply le_refl].
      * apply IH. left. reflexivity.
    + apply le_trans with (if gt x best then x else best).
      * destruct (gt x best) eqn:E; [apply le_refl | apply gt_false; exact E].
      * apply IH. left. reflexivity.
    + apply IH. right. exact Hin.
Qed.

Lemma max_by_spec (l : list A) :
  l <> [] ->
  exists m, Py.max_by gt l = Some m /\ In m l /\ forall x, In x l -> le x m.
Proof.
  destruct l as [|x l]; [congruence|]. intros _.
  exists (Py.max_from gt x l). split; [reflexivity|]. split.
  - apply max_from_In.
  - intros y. apply max_from_upper.
Qed.

End MaxBy.

Lemma best_rule_spec (l : list Rule) :
  l <> [] ->
  exists m,
    Py.max_by (fun a b => Py.float_gt (rule_confidence a) (rule_confidence b)) l = Some m /\
    In m l /\ forall x, In x l -> confidence_le x m.
Proof.
  apply max_by_spec; unfold confidence_le, Py.float_gt.
  - intros x. apply Qle_refl.
  - intros x y z. apply Qle_trans.
  - intros x y H. apply negb_false_iff in H. apply Qle_bool_iff. exact H.
  - intros x y H. apply negb_true_iff in H.
    destruct (Qlt_le_dec (rule_confidence y) (rule_confidence x)) as [Hlt|Hle].
    + apply Qlt_le_weak. exact Hlt.
    + apply Qle_bool_iff in Hle. congruence.
Qed.

(** ** The coordinator: one transaction *)

Lemma user_rules_In (d : DB) (tx : TxDict) (r : Rule) :
  In r (Classifier.user_rules d tx) <->
  In r (matched_rules d tx) /\ rule_source r = "user".
Proof.
  unfold Classifier.user_rules, matched_rules.
  rewrite filter_In, String.eqb_eq. reflexivity.
Qed.

Lemma best_user_rule_None (d : DB) (tx : TxDict) :
  Classifier.best_user_rule d tx = None <-> Classifier.user_rules d tx = [].
Proof.
  unfold Classifier.best_user_rule, Py.max_by.
  destruct (Classifier.user_rules d tx); split; congruence.
Qed.

(** C2. When a matched rule has source "user", [classify_transaction] answers
    from a user-sourced matched rule of maximal confidence, with source "rule"
    and the reasoning "Matched user rule: <name>", and sends nothing to the
    provider (the log of provider calls is empty). In particular, if a user
    rule of confidence 0.9 matches and the other matched user rules have
    confidence 0.6, the answer is the 0.9 rule. *)
Theorem classify_transaction_user_rule (d : DB) (provider : Provider) (api : Api)
    (tx : TxDict) :
  (exists r, In r (matched_rules d tx) /\ rule_source r = "user") ->
  exists rule : Rule,
    In rule (matched_rules d tx) /\
    rule_source rule = "user" /\
    (forall r, In r (matched_rules d tx) -> rule_source r = "user" ->
               confidence_le r rule) /\
    Classifier.classify_transaction d provider api tx =
      ({| result_transaction := None;
          result_account := Some (rule_account rule);
          result_confidence := Some (rule_confidence rule);
          result_reasoning := Some ("Matched user rule: " ++ rule_name rule);
          result_source := Some "rule" |}, []) /\
    (forall r9,
       In r9 (matched_rules d tx) -> rule_source r9 = "user" ->
       (rule_confidence r9 == 9 # 10)%Q ->
       (forall r, In r (matched_rules d tx) -> rule_source r = "user" ->
                  r = r9 \/ (rule_confidence r == 6 # 10)%Q) ->
       rule = r9).
Proof.
  intros [r0 [Hin0 Hsrc0]].
  assert (Hne : Classifier.user_rules d tx <> []).
  { intros E. assert (H : In r0 (Classifier.user_rules d tx))
      by (apply user_rules_In; auto).
    rewrite E in H. destruct H. }
  destruct (best_rule_spec _ Hne) as (m & Hmax & Hin & Hupper).
  apply user_rules_In in Hin as [Hin Hsrc].
  exists m. split; [exact Hin|]. split; [exact Hsrc|]. split.
  { intros r Hr Hs. apply Hupper. apply user_rules_In. auto. }
  split.
  { unfold Classifier.classify_transaction, Classifier.best_user_rule.
    rewrite Hmax. reflexivity. }
  intros r9 Hin9 Hsrc9 Hc9 Hothers.
  destruct (Hothers m Hin Hsrc) as [->|Hc6]; [reflexivity|].
  exfalso.
  assert (Hle : confidence_le r9 m) by (apply Hupper; apply user_rules_In; auto).
  unfold confidence_le in Hle. rewrite Hc9, Hc6 in Hle.
  revert Hle. unfold Qle. simpl. lia.
Qed.

Lemma classify_transaction_user_rule_witness :
  (exists r, In r (matched_rules db_three_rules tx_starbucks) /\ rule_source r = "user") /\
  exists rule : Rule,
    In rule (matched_rules db_three_rules tx_starbucks) /\
    rule_source rule = "user" /\
    Classifier.classify_transaction db_three_rules DeepSeek
      {| chat := fun _ => inl "unreachable"; chat_batch := fun _ => inl "unreachable" |}
      tx_starbucks =
      ({| result_transaction := None;
          result_account := Some (rule_account rule);
          result_confidence := Some (rule_confidence rule);
          result_reasoning := Some ("Matched user rule: " ++ rule_name rule);
          result_source := Some "rule" |}, []).
Proof.
  assert (H : exists r, In r (matched_rules db_three_rules tx_starbucks) /\
                        rule_source r = "user").
  { exists rule_high. split; [vm_compute; tauto | reflexivity]. }
  split; [exact H|].
  destruct (classify_transaction_user_rule db_three_rules DeepSeek
              {| chat := fun _ => inl "unreachable";
                 chat_batch := fun _ => inl "unreachable" |}
              tx_starbucks H) as (rule & Hin & Hsrc & _ & Hrun & _).
  exists rule. auto.
Defined.

(** On the store with user rules of confidence 0.6 and 0.9 and an auto rule of
    confidence 1.0, all matching, the 0.9 user rule answers. *)
Example classify_starbucks :
  Classifier.classify_transaction db_three_rules DeepSeek
    {| chat := fun _ => inl "unreachable"; chat_batch := fun _ => inl "unreachable" |}
    tx_starbucks =
  ({| result_transaction := None;
      result_account := Some "Expenses:Food:Coffee";
      result_confidence := Some (9 # 10);
      result_reasoning := Some "Matched user rule: starbucks";
      result_source := Some "rule" |}, []).
Proof. vm_compute. reflexivity. Qed.

(** ** The coordinator: a list of transactions *)

Lemma needs_ai_first_pass (d : DB) (tx : TxDict) :
  Classifier.needs_ai (Classifier.first_pass d tx) =
  match Classifier.best_user_rule d tx with
  | None => true
  | Some _ => false
  end.
Proof.
  unfold Classifier.first_pass. destruct (Classifier.best_user_rule d tx); reflexivity.
Qed.

Lemma first_pass_transaction (d : DB) (tx : TxDict) :
  result_transaction (Classifier.first_pass d tx) = Some tx.
Proof.
  unfold Classifier.first_pass. destruct (Classifier.best_user_rule d tx); reflexivity.
Qed.

(** The batch handed to the provider is the list of the unresolved
    transactions, in input order. *)
Lemma ai_transactions_pending (d : DB) (txs : list TxDict) :
  Classifier.ai_transactions (map (Classifier.first_pass d) txs) = pending d txs.
Proof.
  unfold Classifier.ai_transactions, pending.
  induction txs as [|tx txs IH]; [reflexivity|].
  cbn [map List.filter]. rewrite needs_ai_first_pass.
  destruct (Classifier.best_user_rule d tx) eqn:E.
  - exact IH.
  - cbn [omap list_omap]. rewrite first_pass_transaction. f_equal. exact IH.
Qed.

Lemma pending_count (d : DB) (txs : list TxDict) :
  length (List.filter Classifier.needs_ai (map (Classifier.first_pass d) txs)) =
  length (pending d txs).
Proof.
  unfold pending. induction txs as [|tx txs IH]; [reflexivity|].
  cbn [map List.filter]. rewrite needs_ai_first_pass.
  destruct (Classifier.best_user_rule d tx); cbn [length]; congruence.
Qed.

(** The position of a kept element in a filtered list. *)
Lemma filter_lookup_rank {A} (f : A -> bool) (l : list A) (i : nat) (x : A) :
  l !! i = Some x -> f x = true ->
  List.filter f l !! length (List.filter f (take i l)) = Some x.
Proof.
  revert i. induction l as [|y l IH]; intros i Hi Hf; [discriminate|].
  destruct i as [|i]; cbn in Hi.
  - injection Hi as ->. cbn. rewrite Hf. reflexivity.
  - cbn [take List.filter]. destruct (f y); cbn [length]; [cbn|]; apply IH; assumption.
Qed.

Lemma classify_one_by_one_length (api : Api) (txs : list TxDict) :
  length (fst (OpenAIProvider._classify_one_by_one api txs)) = length txs.
Proof. unfold OpenAIProvider._classify_one_by_one. cbn. apply length_map. Qed.

(** Every provider of the repository returns one result per requested
    transaction. *)
Lemma batch_classify_length (provider : Provider) (api : Api) (txs : list TxDict) :
  length (fst (BaseLLMProvider.batch_classify provider api txs)) = length txs.
Proof.
  assert (H1 := classify_one_by_one_length api txs).
  destruct provider; cbn [BaseLLMProvider.batch_classify]; try exact H1;
    unfold OpenAIProvider.batch_classify;
    destruct (Nat.leb (length txs) 10); try exact H1;
    destruct (chat_batch api txs) as [e|rs];
    try (destruct (OpenAIProvider._classify_one_by_one api txs); exact H1);
    destruct (Nat.eqb (length rs) (length txs)) eqn:E; cbn [negb];
    try (destruct (OpenAIProvider._classify_one_by_one api txs); exact H1);
    apply Nat.eqb_eq in E; exact E.
Qed.


(** The merge loop succeeds when the provider returned enough results; it
    keeps the length and the positions, fills the k-th placeholder with the
    k-th provider result and leaves the resolved entries as they are. *)
Lemma merge_spec (ai : list AIResult) (results : list ResultDict) (k : nat) :
  k + length (List.filter Classifier.needs_ai results) <= length ai ->
  exists out,
    Classifier.merge k ai results = Ok out /\
    length out = length results /\
    forall i r, results !! i = Some r ->
      if Classifier.needs_ai r
      then exists a,
             ai !! (k + length (List.filter Classifier.needs_ai (take i results))) = Some a /\
             out !! i = Some (Classifier.update r a)
      else out !! i = Some r.
Proof.
  revert k. induction results as [|r0 results IH]; intros k Hlen.
  - exists []. split; [reflexivity|]. split; [reflexivity|]. intros i r Hi. discriminate.
  - cbn [Classifier.merge List.filter] in *.
    destruct (Classifier.needs_ai r0) eqn:E0.
    + cbn [length] in Hlen.
      destruct (ai !! k) as [a0|] eqn:Ha.
      2:{ apply lookup_ge_None in Ha. lia. }
      destruct (IH (S k)) as (out & Hrun & Hl & Hpos); [lia|].
      rewrite Hrun. exists (Classifier.update r0 a0 :: out).
      split; [reflexivity|]. split; [cbn; congruence|].
      intros [|i] r Hi; cbn in Hi.
      * injection Hi as <-. rewrite E0. exists a0. cbn.
        rewrite Nat.add_0_r. auto.
      * specialize (Hpos i r Hi). cbn [take List.filter]. rewrite E0.
        destruct (Classifier.needs_ai r); [|exact Hpos].
        destruct Hpos as (a & Hai & Hout). exists a. cbn [length].
        rewrite <- Nat.add_succ_comm. auto.
    + destruct (IH k) as (out & Hrun & Hl & Hpos); [lia|].
      rewrite Hrun. exists (r0 :: out).
      split; [reflexivity|]. split; [cbn; congruence|].
      intros [|i] r Hi; cbn in Hi.
      * injection Hi as <-. rewrite E0. reflexivity.
      * specialize (Hpos i r Hi). cbn [take List.filter]. rewrite E0. exact Hpos.
Qed.

Lemma update_placeholder (d : DB) (tx : TxDict) (a : AIResult) :
  Classifier.best_user_rule d tx = None ->
  Classifier.update (Classifier.first_pass d tx) a = Classifier.ai_result (Some tx) a.
Proof. intros E. unfold Classifier.first_pass. rewrite E. reflexivity. Qed.

Lemma pending_take_count (d : DB) (txs : list TxDict) (i : nat) :
  length (List.filter Classifier.needs_ai (take i (map (Classifier.first_pass d) txs))) =
  length (pending d (take i txs)).
Proof.
  change (@map) with (@fmap list _). rewrite <- fmap_take. apply pending_count.
Qed.

Lemma pending_lookup (d : DB) (txs : list TxDict) (i : nat) (tx : TxDict) :
  txs !! i = Some tx ->
  Classifier.best_user_rule d tx = None ->
  pending d txs !! length (pending d (take i txs)) = Some tx.
Proof.
  intros Hi E. unfold pending. apply filter_lookup_rank; [exact Hi|].
  rewrite E. reflexivity.
Qed.

(** The coordinator never fails to merge and places every entry at the
    position of its transaction. *)
Lemma classify_transactions_positions (d : DB) (provider : Provider) (api : Api)
    (txs : list TxDict) :
  exists results,
    fst (Classifier.classify_transactions d provider api txs) = Ok results /\
    length results = length txs /\
    forall i tx, txs !! i = Some tx ->
      match Classifier.best_user_rule d tx with
      | Some rule => results !! i = Some (Classifier.rule_result (Some tx) rule)
      | None =>
          exists a,
            fst (BaseLLMProvider.batch_classify provider api (pending d txs))
              !! length (pending d (take i txs)) = Some a /\
            results !! i = Some (Classifier.ai_result (Some tx) a)
      end.
Proof.
  unfold Classifier.classify_transactions.
  rewrite ai_transactions_pending.
  destruct (pending d txs) as [|tx0 rest] eqn:Hp.
  - exists (map (Classifier.first_pass d) txs).
    split; [reflexivity|]. split; [apply length_map|].
    intros i tx Hi.
    assert (Hf : Classifier.first_pass d tx =
                 match Classifier.best_user_rule d tx with
                 | Some rule => Classifier.rule_result (Some tx) rule
                 | None => Classifier.first_pass d tx
                 end).
    { unfold Classifier.first_pass. destruct (Classifier.best_user_rule d tx); reflexivity. }
    destruct (Classifier.best_user_rule d tx) eqn:E.
    + change (@map) with (@fmap list _). rewrite list_lookup_fmap, Hi. cbn.
      f_equal. exact Hf.
    + exfalso. assert (H := pending_lookup d txs i tx Hi E).
      rewrite Hp in H. discriminate.
  - rewrite <- Hp.
    destruct (BaseLLMProvider.batch_classify provider api (pending d txs))
      as [ai log] eqn:Hb.
    assert (Hlen : length ai = length (pending d txs)).
    { replace ai with (fst (BaseLLMProvider.batch_classify provider api (pending d txs)))
        by (rewrite Hb; reflexivity).
      apply batch_classify_length. }
    destruct (merge_spec ai (map (Classifier.first_pass d) txs) 0)
      as (out & Hrun & Hl & Hpos).
    { rewrite pending_count. lia. }
    exists out. cbn [fst]. split; [exact Hrun|].
    split; [rewrite Hl; apply length_map|].
    intros i tx Hi.
    assert (Hi' : map (Classifier.first_pass d) txs !! i = Some (Classifier.first_pass d tx)).
    { change (@map) with (@fmap list _). rewrite list_lookup_fmap, Hi. reflexivity. }
    specialize (Hpos i _ Hi'). rewrite needs_ai_first_pass in Hpos.
    destruct (Classifier.best_user_rule d tx) eqn:E.
    + rewrite Hpos. unfold Classifier.first_pass. rewrite E. reflexivity.
    + destruct Hpos as (a & Ha & Hout). exists a.
      rewrite pending_take_count in Ha. cbn in Ha.
      split; [exact Ha|]. rewrite Hout. f_equal. apply update_placeholder. exact E.
Qed.

(** C1. For every list of N transactions [classify_transactions] returns N
    results, and the result at position i carries the transaction at position
    i and its classification: the answer of its best user rule, or, for the
    k-th transaction that no user rule resolves, the k-th result of the
    provider's batch call on those transactions, tagged "ai". *)
Theorem classify_transactions_order (d : DB) (provider : Provider) (api : Api)
    (txs : list TxDict) :
  exists results,
    fst (Classifier.classify_transactions d provider api txs) = Ok results /\
    length results = length txs /\
    forall i tx, txs !! i = Some tx ->
      exists r,
        results !! i = Some r /\
        result_transaction r = Some tx /\
        match Classifier.best_user_rule d tx with
        | Some rule => r = Classifier.rule_result (Some tx) rule
        | None =>
            let k := length (pending d (take i txs)) in
            pending d txs !! k = Some tx /\
            exists a,
              fst (BaseLLMProvider.batch_classify provider api (pending d txs)) !! k
                = Some a /\
              r = Classifier.ai_result (Some tx) a
        end.
Proof.
  destruct (classify_transactions_positions d provider api txs)
    as (results & Hrun & Hlen & Hpos).
  exists results. split; [exact Hrun|]. split; [exact Hlen|].
  intros i tx Hi. specialize (Hpos i tx Hi).
  destruct (Classifier.best_user_rule d tx) eqn:E.
  - eexists. split; [exact Hpos|]. split; reflexivity.
  - destruct Hpos as (a & Ha & Hr). eexists. split; [exact Hr|].
    split; [reflexivity|]. cbv zeta. split.
    + apply pending_lookup; assumption.
    + exists a. split; [exact Ha | reflexivity].
Qed.

(** ** Degrade and continue *)





(** The example of the design document: three transactions, the provider
    fails on the second. *)
Example classify_three_second_fails :
  fst (Classifier.classify_transactions db_three_rules DeepSeek api_cab_fails
         [tx_starbucks; tx_taxi; tx_rent]) =
  Ok [ {| result_transaction := Some tx_starbucks;
          result_account := Some "Expenses:Food:Coffee";
          result_confidence := Some (9 # 10);
          result_reasoning := Some "Matched user rule: starbucks";
          result_source := Some "rule" |};
       {| result_transaction := Some tx_taxi;
          result_account := Some "Expenses:Misc";
          result_confidence := Some 0%Q;
          result_reasoning := Some "API call failed: Request timed out.";
          result_source := Some "ai" |};
       {| result_transaction := Some tx_rent;
          result_account := Some "Expenses:Housing";
          result_confidence := Some (8 # 10);
          result_reasoning := Some "rent";
          result_source := Some "ai" |} ].
Proof. vm_compute. reflexivity. Qed.

(** ** Feedback statistics *)

(** [get_statistics] is computed on the first page of the feedback table. *)
Lemma get_statistics_page (d : DB) :
  let page := take 100 (feedbacks d) in
  let s := FeedbackHandler.get_statistics d in
  stat_total s = length page /\
  stat_accept s = Py.count (fun f => String.eqb (feedback_action f) "accept") page /\
  stat_reject s = Py.count (fun f => String.eqb (feedback_action f) "reject") page /\
  stat_modify s = Py.count (fun f => String.eqb (feedback_action f) "modify") page.
Proof. repeat split. Qed.

(** While the table holds at most one hundred records the statistics are
    those of all the feedback, and the rates are the quotients, or 0 when
    there is no feedback. *)
Lemma get_statistics_small_table (d : DB) :
  length (feedbacks d) <= 100 ->
  let s := FeedbackHandler.get_statistics d in
  stat_total s = length (feedbacks d) /\
  stat_accept s = Py.count (fun f => String.eqb (feedback_action f) "accept") (feedbacks d) /\
  stat_reject s = Py.count (fun f => String.eqb (feedback_action f) "reject") (feedbacks d) /\
  stat_modify s = Py.count (fun f => String.eqb (feedback_action f) "modify") (feedbacks d) /\
  (0 < stat_total s ->
     stat_accept_rate s = Py.truediv (stat_accept s) (stat_total s) /\
     stat_modify_rate s = Py.truediv (stat_modify s) (stat_total s)) /\
  (stat_total s = 0 -> stat_accept_rate s = 0%Q /\ stat_modify_rate s = 0%Q).
Proof.
  intros Hlen. unfold FeedbackHandler.get_statistics, FeedbackRepository.list_all, paginate.
  rewrite drop_0, take_ge by exact Hlen.
  cbn [stat_total stat_accept stat_reject stat_modify stat_accept_rate stat_modify_rate].
  split; [reflexivity|]. split; [reflexivity|]. split; [reflexivity|].
  split; [reflexivity|].
  destruct (length (feedbacks d)) as [|n].
  - split; [intros H; inversion H | intros _; split; reflexivity].
  - split; [intros _; split; reflexivity | discriminate].
Qed.

(** The guard: without feedback both rates are 0. *)
Lemma get_statistics_no_feedback (d : DB) :
  feedbacks d = [] ->
  FeedbackHandler.get_statistics d =
    {| stat_total := 0; stat_accept := 0; stat_reject := 0; stat_modify := 0;
       stat_accept_rate := 0; stat_modify_rate := 0 |}.
Proof.
  intros H. unfold FeedbackHandler.get_statistics, FeedbackRepository.list_all, paginate.
  rewrite H. reflexivity.
Qed.

(** C8. [get_statistics] reads one page of one hundred records: after 101
    "accept" feedback records the table holds 101 rows, yet the total and the
    accept count are 100. *)
Theorem get_statistics_stops_at_100 :
  exists w : World,
    session_101_feedback w_init = Ok (tt, w) /\
    length (feedbacks (db w)) = 101 /\
    Py.count (fun f => String.eqb (feedback_action f) "accept") (feedbacks (db w)) = 101 /\
    stat_total (FeedbackHandler.get_statistics (db w)) = 100 /\
    stat_accept (FeedbackHandler.get_statistics (db w)) = 100.
Proof.
  eexists. split; [vm_compute; reflexivity|].
  repeat split; vm_compute; reflexivity.
Qed.

(** ** The history of classifications *)

Lemma str_compare_Gt_Lt (a b : string) :
  String_as_OT.compare a b = Gt -> String_as_OT.compare b a = Lt.
Proof.
  intros H. destruct (String_as_OT.compare_spec a b) as [E|E|E]; try discriminate.
  exact E.
Qed.

Lemma str_le_trans (a b c : string) :
  String_as_OT.compare a b <> Gt -> String_as_OT.compare b c <> Gt ->
  String_as_OT.compare a c <> Gt.
Proof.
  intros Hab Hbc Hac. apply str_compare_Gt_Lt in Hac.
  change (String_as_OT.lt c a) in Hac.
  destruct (String_as_OT.compare_spec a b) as [E1|E1|E1]; try congruence;
    destruct (String_as_OT.compare_spec b c) as [E2|E2|E2]; try congruence;
    unfold String_as_OT.eq in *.
  - rewrite E1, E2 in Hac. exact (StrictOrder_Irreflexive c Hac).
  - rewrite E1 in Hac.
    exact (StrictOrder_Irreflexive b (StrictOrder_Transitive b c b E2 Hac)).
  - rewrite <- E2 in Hac.
    exact (StrictOrder_Irreflexive a (StrictOrder_Transitive a b a E1 Hac)).
  - exact (StrictOrder_Irreflexive a
             (StrictOrder_Transitive a b a E1 (StrictOrder_Transitive b c a E2 Hac))).
Qed.

Lemma str_le_refl (a : string) : String_as_OT.compare a a <> Gt.
Proof.
  destruct (String_as_OT.compare_spec a a) as [E|E|E]; try discriminate;
    exfalso; apply (StrictOrder_Irreflexive a); exact E.
Qed.

Lemma str_lt_Gt (a b : string) :
  String_as_OT.lt b a -> String_as_OT.compare a b = Gt.
Proof.
  intros H. destruct (String_as_OT.compare_spec a b) as [E|E|E]; [| |reflexivity].
  - unfold String_as_OT.eq in E. subst b.
    exfalso. exact (StrictOrder_Irreflexive a H).
  - exfalso. exact (StrictOrder_Irreflexive a (StrictOrder_Transitive a b a E H)).
Qed.

Lemma str_gt_le (x y z : string) :
  Py.str_gt x y = true -> Py.str_gt z y = false -> Py.str_gt x z = true.
Proof.
  unfold Py.str_gt. intros Hxy Hzy.
  destruct (String_as_OT.compare x y) eqn:Exy; try discriminate.
  apply str_compare_Gt_Lt in Exy. change (String_as_OT.lt y x) in Exy.
  assert (Hlt : String_as_OT.lt z x).
  { destruct (String_as_OT.compare_spec z y) as [E|E|E]; try discriminate.
    - unfold String_as_OT.eq in E. subst z. exact Exy.
    - exact (StrictOrder_Transitive z y x E Exy). }
  rewrite (str_lt_Gt x z Hlt). reflexivity.
Qed.

Lemma str_gt_trans (x y z : string) :
  Py.str_gt x y = true -> Py.str_gt y z = true -> Py.str_gt x z = true.
Proof.
  intros Hxy Hyz. apply str_gt_le with y; [exact Hxy|].
  unfold Py.str_gt in *.
  destruct (String_as_OT.compare y z) eqn:Eyz; try discriminate.
  apply str_compare_Gt_Lt in Eyz. rewrite Eyz. reflexivity.
Qed.

(** Python's [max] returns the first maximal element: the elements before it
    are strictly smaller, the elements after it are not greater. *)
Section MaxFirst.

Context {A : Type} (gt : A -> A -> bool).
Hypothesis gt_trans : forall x y z, gt x y = true -> gt y z = true -> gt x z = true.
Hypothesis gt_le : forall x y z, gt x y = true -> gt z y = false -> gt x z = true.

Lemma max_from_first (l : list A) (best : A) :
  exists before after,
    best :: l = (before ++ Py.max_from gt best l :: after)%list /\
    (forall c, In c before -> gt (Py.max_from gt best l) c = true) /\
    (forall c, In c after -> gt c (Py.max_from gt best l) = false).
Proof.
  revert best. induction l as [|x l IH]; intros best; cbn [Py.max_from].
  - exists [], []. split; [reflexivity|]. split; intros c [].
  - destruct (gt x best) eqn:E.
    + destruct (IH x) as (before & after & Heq & Hb & Ha).
      exists (best :: before), after. split; [cbn; rewrite <- Heq; reflexivity|].
      split; [|exact Ha].
      intros c [<-|Hc]; [|apply Hb, Hc].
      destruct before as [|b0 before']; cbn in Heq; injection Heq as Hx Hl.
      * rewrite <- Hx. exact E.
      * subst b0. apply gt_trans with x; [apply Hb; left; reflexivity | exact E].
    + destruct (IH best) as (before & after & Heq & Hb & Ha).
      destruct before as [|b0 before']; cbn in Heq; injection Heq as Hm Hl.
      * exists [], (x :: l). split; [cbn; rewrite <- Hm; reflexivity|].
        split; [intros c []|].
        intros c [<-|Hc]; [rewrite <- Hm; exact E|].
        apply Ha. rewrite <- Hl. exact Hc.
      * subst b0. exists (best :: x :: before'), after.
        split; [cbn; do 2 f_equal; exact Hl|]. split; [|exact Ha].
        intros c [<-|[<-|Hc]].
        -- apply Hb. left. reflexivity.
        -- apply gt_le with best; [apply Hb; left; reflexivity | exact E].
        -- apply Hb. right. exact Hc.
Qed.

End MaxFirst.

Lemma filter_split {A} (f : A -> bool) (rows b : list A) (x : A) (a : list A) :
  List.filter f rows = (b ++ x :: a)%list ->
  exists before after,
    rows = (before ++ x :: after)%list /\
    List.filter f before = b /\ List.filter f after = a.
Proof.
  revert b. induction rows as [|r rows IH]; intros b H; cbn [List.filter] in H.
  - destruct b; discriminate.
  - destruct (f r) eqn:E.
    + destruct b as [|b0 b']; cbn [app] in H; injection H as Hr H.
      * subst r. exists [], rows. repeat split. exact H.
      * subst b0. destruct (IH b' H) as (before & after & -> & Hb & Ha).
        exists (r :: before), after. split; [reflexivity|].
        split; [cbn [List.filter]; rewrite E, Hb; reflexivity | exact Ha].
    + destruct (IH b H) as (before & after & -> & Hb & Ha).
      exists (r :: before), after. split; [reflexivity|].
      split; [cbn [List.filter]; rewrite E; exact Hb | exact Ha].
Qed.

(** [latest] picks the first row of maximal [created_at]. *)
Lemma latest_first (c0 : Classification) (cs : list Classification) :
  exists l before after,
    FeedbackHandler.latest (c0 :: cs) = Some l /\
    c0 :: cs = (before ++ l :: after)%list /\
    (forall c, In c before -> created_at_lt c l) /\
    (forall c, In c after -> created_at_le c l).
Proof.
  destruct (max_from_first
              (fun a b => Py.str_gt (classification_created_at a)
                                    (classification_created_at b))
              (fun x y z => str_gt_trans _ _ _)
              (fun x y z => str_gt_le _ _ _) cs c0)
    as (before & after & Heq & Hb & Ha).
  eexists. exists before, after. split; [reflexivity|]. split; [exact Heq|].
  split.
  - intros c Hc. specialize (Hb c Hc). unfold created_at_lt.
    cbv beta in Hb. unfold Py.str_gt in Hb.
    destruct (String_as_OT.compare _ (classification_created_at c)) eqn:E;
      try discriminate.
    apply str_compare_Gt_Lt. exact E.
  - intros c Hc. specialize (Ha c Hc). unfold created_at_le.
    cbv beta in Ha. intros E.
    assert (H : Py.str_gt (classification_created_at c)
                  (classification_created_at
                     (Py.max_from
                        (fun a b => Py.str_gt (classification_created_at a)
                                              (classification_created_at b))
                        c0 cs)) = true)
      by (unfold Py.str_gt at 1; rewrite E; reflexivity).
    congruence.
Qed.

(** With unique primary keys [update_account] rewrites the row it is given,
    at its place. *)
Lemma update_first_at (before : list Classification) (l : Classification)
    (after : list Classification) (account : string) :
  NoDup (map classification_id (before ++ l :: after)) ->
  ClassificationRepository.update_first (classification_id l) account
    (before ++ l :: after) =
  ((before ++ ClassificationRepository.retarget account l :: after)%list, true).
Proof.
  induction before as [|c before IH]; intros Hnd;
    cbn [app ClassificationRepository.update_first].
  - rewrite String.eqb_refl. reflexivity.
  - cbn [map app] in Hnd. apply NoDup_cons in Hnd as [Hnotin Hnd].
    destruct (String.eqb (classification_id c) (classification_id l)) eqn:E.
    + exfalso. apply String.eqb_eq in E. apply Hnotin. rewrite E.
      apply list_elem_of_In, in_map, in_or_app. right. left. reflexivity.
    + rewrite (IH Hnd). reflexivity.
Qed.

(** [latest] picks a row of maximal [created_at]. *)
Lemma latest_spec (cs : list Classification) :
  cs <> [] ->
  exists l, FeedbackHandler.latest cs = Some l /\ In l cs /\
            forall c, In c cs -> created_at_le c l.
Proof.
  apply max_by_spec; unfold created_at_le, Py.str_gt.
  - intros x. apply str_le_refl.
  - intros x y z. apply str_le_trans.
  - intros x y H E. rewrite E in H. discriminate.
  - intros x y H E.
    destruct (String_as_OT.compare (classification_created_at x)
                (classification_created_at y)) eqn:Exy; try discriminate.
    apply str_compare_Gt_Lt in Exy. congruence.
Qed.

Lemma get_by_transaction_id_In (d : DB) (tid : string) (c : Classification) :
  In c (ClassificationRepository.get_by_transaction_id d tid) <->
  In c (classifications d) /\ classification_transaction_id c = tid.
Proof.
  unfold ClassificationRepository.get_by_transaction_id.
  rewrite filter_In, String.eqb_eq. reflexivity.
Qed.

(** With unique primary keys [update_account] rewrites the row it is given and
    no other. *)
Lemma update_first_unique (rows : list Classification) (l : Classification)
    (account : string) :
  NoDup (map classification_id rows) ->
  In l rows ->
  exists rows',
    ClassificationRepository.update_first (classification_id l) account rows =
      (rows', true) /\
    retargeted rows rows' l account.
Proof.
  induction rows as [|c rows IH]; intros Hnd Hin; [destruct Hin|].
  cbn [map] in Hnd. apply NoDup_cons in Hnd as [Hnotin Hnd].
  cbn [ClassificationRepository.update_first].
  destruct (String.eqb (classification_id c) (classification_id l)) eqn:E.
  - apply String.eqb_eq in E.
    assert (c = l) as ->.
    { destruct Hin as [H|H]; [exact H|].
      exfalso. apply Hnotin. rewrite E. apply list_elem_of_In. apply in_map. exact H. }
    eexists. split; [reflexivity|]. exists [], rows. split; reflexivity.
  - destruct Hin as [H|H].
    { subst c. rewrite String.eqb_refl in E. discriminate. }
    destruct (IH Hnd H) as (rows' & Hrun & before & after & H1 & H2).
    rewrite Hrun. eexists. split; [reflexivity|].
    exists (c :: before), after. split; cbn; congruence.
Qed.

Ltac unfold_M :=
  unfold mbind, M_bind, bind, mret, M_ret, ret, get_db, put_db, uuid4, utcnow, raise.

Lemma classification_create_fresh (w : World) (tid account : string) (confidence : Q)
    (source reasoning : string) :
  fresh_in (map classification_id (classifications (db w))) (uuid_source w (uuid_calls w)) ->
  exists row w',
    ClassificationRepository.create tid account confidence source reasoning w =
      Ok (row, w') /\
    row = {| classification_id := Uuid.str (uuid_source w (uuid_calls w));
             classification_transaction_id := tid;
             classification_account := account;
             classification_confidence := confidence;
             classification_source := source;
             classification_reasoning := reasoning;
             classification_created_at := clock w (clock_calls w) |} /\
    classifications (db w') = (classifications (db w) ++ [row])%list /\
    uuid_source w' = uuid_source w /\
    uuid_calls w' = S (uuid_calls w).
Proof.
  intros Hfresh. unfold fresh_in in Hfresh.
  unfold ClassificationRepository.create, ClassificationRepository.insert. unfold_M.
  simpl. rewrite Hfresh. eexists. eexists. repeat split.
Qed.

Lemma feedback_create_fresh (w : World) (tid action : string)
    (original corrected : option string) :
  fresh_in (map feedback_id (feedbacks (db w))) (uuid_source w (uuid_calls w)) ->
  exists fb w',
    FeedbackRepository.create tid action original corrected w = Ok (fb, w') /\
    classifications (db w') = classifications (db w).
Proof.
  intros Hfresh. unfold fresh_in in Hfresh.
  unfold FeedbackRepository.create, FeedbackRepository.insert. unfold_M.
  simpl. rewrite Hfresh. eexists. eexists. repeat split.
Qed.

Lemma fresh_not_In (ids : list string) (u : N) :
  fresh_in ids u -> ~ In (Uuid.str u) ids.
Proof.
  unfold fresh_in. intros H Hin. apply mem_In in Hin. congruence.
Qed.

Lemma retargeted_ids (rows rows' : list Classification) (l : Classification)
    (account : string) :
  retargeted rows rows' l account ->
  map classification_id rows' = map classification_id rows.
Proof.
  intros (before & after & -> & ->).
  change (@map) with (@fmap list _). rewrite !fmap_app. reflexivity.
Qed.

(** Every write of the coordinator and of the learner to the classifications:
    it succeeds, has the documented effect and keeps the primary keys unique. *)
Lemma run_op_effect (w : World) (op : CoreOp) :
  NoDup (map classification_id (classifications (db w))) ->
  fresh_for op w ->
  exists w',
    run_op op w = Ok (tt, w') /\
    effect op (classifications (db w)) (classifications (db w')) /\
    NoDup (map classification_id (classifications (db w'))).
Proof.
  intros Hnd Hfresh. destruct op as [tid account confidence source reasoning
                                    | tid original corrected action];
    cbn [run_op fresh_for effect] in *.
  - destruct (classification_create_fresh w tid account confidence source
                (default "" reasoning) Hfresh) as (row & w' & Hrun & Hrow & Hrows & _).
    exists w'. split.
    { unfold Classifier.save_classification. cbn [result_account result_confidence
        result_source result_reasoning].
      unfold mbind, M_bind, bind. rewrite Hrun. reflexivity. }
    split.
    + exists row. split; [exact Hrows|]. rewrite Hrow. cbn.
      split; [apply fresh_not_In; exact Hfresh|]. repeat split.
    + rewrite Hrows. change (@map) with (@fmap list _). rewrite fmap_app. cbn.
      apply NoDup_app. split; [exact Hnd|]. split.
      * intros x Hx Hx'. apply list_elem_of_In in Hx.
        apply list_elem_of_singleton in Hx'. subst x.
        apply (fresh_not_In _ _ Hfresh). rewrite Hrow in Hx. exact Hx.
      * apply NoDup_singleton.
  - destruct (feedback_create_fresh w tid action original corrected Hfresh)
      as (fb & w1 & Hcreate & Hkeep).
    unfold FeedbackHandler.record_feedback.
    unfold mbind at 1 2. unfold M_bind, bind. rewrite Hcreate.
    destruct (String.eqb action "modify" && Py.truthy_opt corrected).
    + unfold_M. cbn beta.
      destruct (ClassificationRepository.get_by_transaction_id (db w1) tid)
        as [|c0 cs] eqn:Hrows.
      * exists w1. split; [reflexivity|]. rewrite Hkeep. split; [|exact Hnd].
        left. split; [|reflexivity]. intros c Hc Htid.
        assert (H : In c (ClassificationRepository.get_by_transaction_id (db w1) tid))
          by (apply get_by_transaction_id_In; rewrite Hkeep; auto).
        rewrite Hrows in H. destruct H.
      * destruct (latest_first c0 cs) as (l & bf & af & Hlatest & Heq & Hbf & Haf).
        rewrite Hlatest.
        assert (Htid : classification_transaction_id l = tid).
        { assert (Hin : In l (ClassificationRepository.get_by_transaction_id (db w1) tid)).
          { rewrite Hrows, Heq. apply in_or_app. right. left. reflexivity. }
          apply get_by_transaction_id_In in Hin as [_ Htid]. exact Htid. }
        rewrite <- Hrows in Heq.
        unfold ClassificationRepository.get_by_transaction_id in Heq.
        apply filter_split in Heq as (before & after & Hsplit & Hfb & Hfa).
        rewrite Hkeep in Hsplit.
        assert (Hupd := update_first_at before l after (default "" corrected)).
        rewrite <- Hsplit in Hupd at 1 2. specialize (Hupd Hnd).
        unfold ClassificationRepository.update_account.
        unfold_M. cbn beta. rewrite Hkeep, Hupd. cbn.
        eexists. split; [reflexivity|]. cbn. split.
        { right. exists before, l, after. split; [exact Hsplit|].
          split; [reflexivity|]. split; [exact Htid|]. split.
          - intros c Hc Hctid. apply Hbf. rewrite <- Hfb.
            apply filter_In. split; [exact Hc|]. apply String.eqb_eq. exact Hctid.
          - intros c Hc Hctid. apply Haf. rewrite <- Hfa.
            apply filter_In. split; [exact Hc|]. apply String.eqb_eq. exact Hctid. }
        { assert (Hret : retargeted (classifications (db w))
                           (before ++ ClassificationRepository.retarget
                                        (default "" corrected) l :: after)%list
                           l (default "" corrected)).
          { exists before, after. split; [exact Hsplit | reflexivity]. }
          rewrite (retargeted_ids _ _ _ _ Hret). exact Hnd. }
    + exists w1. split; [reflexivity|]. rewrite Hkeep. split; [reflexivity | exact Hnd].
Qed.

(** C7 fails on the code: the direct edit of a classification
    ([PUT /classifications/{id}]) rewrites an existing row through
    [update_account] although no feedback is recorded. *)
Lemma direct_edit_mutates_a_classification :
  exists w' : World,
    Routes.update_classification "c2" "Expenses:Transport:Subway" w_classified =
      Ok (true, w') /\
    feedbacks (db w') = [] /\
    classifications (db w_classified) !! 1 =
      Some {| classification_id := "c2";
              classification_transaction_id := "t2";
              classification_account := "Expenses:Transport:Taxi";
              classification_confidence := 8 # 10;
              classification_source := "ai";
              classification_reasoning := "cab";
              classification_created_at := "2024-01-01T10:00:01" |} /\
    classifications (db w') !! 1 =
      Some {| classification_id := "c2";
              classification_transaction_id := "t2";
              classification_account := "Expenses:Transport:Subway";
              classification_confidence := 8 # 10;
              classification_source := "user";
              classification_reasoning := "cab";
              classification_created_at := "2024-01-01T10:00:01" |}.
Proof.
  eexists. split; [vm_compute; reflexivity|].
  repeat split; vm_compute; reflexivity.
Qed.

(** C7 as amended. Among the operations of the coordinator and of the
    feedback learner, on a store with unique primary keys:
    [save_classification] always appends a new row, under an unused key, and
    leaves the existing rows as they are, so that classifying a transaction
    twice yields two distinct rows; [record_feedback] changes the
    classifications only when the action is "modify" and the corrected account
    is not empty, and then retargets the most recent row (by [created_at]) of
    the transaction, the first one in the table when several rows share the
    maximal [created_at], to the corrected account with source "user", every
    other row being kept. (The direct edit of the API, outside these two
    components, rewrites a row as well.) *)
Theorem classification_history (w : World) :
  NoDup (map classification_id (classifications (db w))) ->
  (forall op : CoreOp,
     fresh_for op w ->
     exists w',
       run_op op w = Ok (tt, w') /\
       effect op (classifications (db w)) (classifications (db w'))) /\
  (forall tid a1 c1 s1 r1 a2 c2 s2 r2,
     fresh_in (map classification_id (classifications (db w)))
       (uuid_source w (uuid_calls w)) ->
     fresh_in (map classification_id (classifications (db w)) ++
               [Uuid.str (uuid_source w (uuid_calls w))])%list
       (uuid_source w (S (uuid_calls w))) ->
     exists row1 row2 w',
       (_ ← run_op (Persist tid a1 c1 s1 r1); run_op (Persist tid a2 c2 s2 r2)) w =
         Ok (tt, w') /\
       classifications (db w') = (classifications (db w) ++ [row1; row2])%list /\
       classification_id row1 <> classification_id row2 /\
       classification_transaction_id row1 = tid /\
       classification_transaction_id row2 = tid).
Proof.
  intros Hnd. split.
  - intros op Hfresh.
    destruct (run_op_effect w op Hnd Hfresh) as (w' & Hrun & Heff & _).
    exists w'. auto.
  - intros tid a1 c1 s1 r1 a2 c2 s2 r2 H1 H2.
    destruct (classification_create_fresh w tid a1 c1 s1 (default "" r1) H1)
      as (row1 & w1 & Hrun1 & Hrow1 & Hrows1 & Hsrc & Hcalls).
    assert (H2' : fresh_in (map classification_id (classifications (db w1)))
                    (uuid_source w1 (uuid_calls w1))).
    { rewrite Hrows1, Hsrc, Hcalls. change (@map) with (@fmap list _).
      rewrite fmap_app. rewrite Hrow1 at 1. exact H2. }
    destruct (classification_create_fresh w1 tid a2 c2 s2 (default "" r2) H2')
      as (row2 & w2 & Hrun2 & Hrow2 & Hrows2 & _).
    exists row1, row2, w2. split.
    { cbn [run_op]. unfold Classifier.save_classification.
      cbn [result_account result_confidence result_source result_reasoning].
      unfold_M. rewrite Hrun1. cbn beta iota. rewrite Hrun2. reflexivity. }
    split.
    { rewrite Hrows2, Hrows1, <- app_assoc. reflexivity. }
    split.
    { intros E. apply (fresh_not_In _ _ H2').
      rewrite Hrows1. change (@map) with (@fmap list _). rewrite fmap_app.
      apply in_or_app. right. left. rewrite E, Hrow2. reflexivity. }
    rewrite Hrow1, Hrow2. split; reflexivity.
Qed.

Lemma classification_history_witness :
  NoDup (map classification_id (classifications (db w_classified))) /\
  exists w',
    run_op (RecordFeedback "t1" (Some "Expenses:Food:Dining")
              (Some "Expenses:Food:Coffee") "modify") w_classified = Ok (tt, w') /\
    effect (RecordFeedback "t1" (Some "Expenses:Food:Dining")
              (Some "Expenses:Food:Coffee") "modify")
      (classifications (db w_classified)) (classifications (db w')).
Proof.
  assert (H : NoDup (map classification_id (classifications (db w_classified)))).
  { apply (bool_decide_unpack _). vm_compute. exact I. }
  split; [exact H|].
  apply (proj1 (classification_history w_classified H)).
  reflexivity.
Defined.

(** The modify feedback on "t1" retargets the row "c3", the most recent of
    "t1", and nothing else. *)
Example modify_retargets_latest :
  exists fb w',
    FeedbackHandler.record_feedback "t1" (Some "Expenses:Food:Dining")
      (Some "Expenses:Food:Coffee") "modify" w_classified = Ok (fb, w') /\
    map (fun c => (classification_id c, classification_account c, classification_source c))
        (classifications (db w')) =
      [ ("c1", "Expenses:Misc", "ai");
        ("c2", "Expenses:Transport:Taxi", "ai");
        ("c3", "Expenses:Food:Coffee", "user") ].
Proof.
  eexists. eexists. split; vm_compute; reflexivity.
Qed.

(** On a tie the first of the most recent rows is retargeted: "c2" and "c3"
    share the maximal [created_at], the modify feedback retargets "c2" and
    leaves "c3". *)
Example modify_retargets_first_on_tie :
  exists fb w',
    FeedbackHandler.record_feedback "t1" (Some "Expenses:Food:Dining")
      (Some "Expenses:Food:Coffee") "modify" w_tied = Ok (fb, w') /\
    map (fun c => (classification_id c, classification_account c, classification_source c))
        (classifications (db w')) =
      [ ("c1", "Expenses:Misc", "ai");
        ("c2", "Expenses:Food:Coffee", "user");
        ("c3", "Expenses:Food:Groceries", "ai") ].
Proof.
  eexists. eexists. split; vm_compute; reflexivity.
Qed.

(** The effect of a modify feedback determines the retargeted row: on the
    store with the tie, retargeting "c3", the last of the most recent rows,
    is not an effect of the operation. *)
Example effect_rejects_last_tied_row :
  ~ effect (RecordFeedback "t1" (Some "Expenses:Food:Dining")
              (Some "Expenses:Food:Coffee") "modify")
      (classifications (db w_tied))
      (match classifications (db w_tied) with
       | [c1; c2; c3] =>
           [c1; c2; ClassificationRepository.retarget "Expenses:Food:Coffee" c3]
       | rows => rows
       end).
Proof.
  cbn [effect]. change ("modify" =? "modify")%string with true.
  cbn [andb Py.truthy_opt]. intros [[Hnone _]|H].
  - apply (Hnone _ (or_introl eq_refl)). reflexivity.
  - destruct H as (before & l & after & Hrows & Hrows' & Htid & Hb & Ha).
    cbn in Hrows, Hrows'.
    destruct before as [|b0 [|b1 [|b2 before]]]; cbn in Hrows, Hrows'.
    + injection Hrows as <- <-. discriminate Hrows'.
    + injection Hrows as <- <- <-. discriminate Hrows'.
    + injection Hrows as <- <- <- <-.
      specialize (Hb _ (or_intror (or_introl eq_refl)) eq_refl).
      vm_compute in Hb. discriminate Hb.
    + injection Hrows as _ _ _ Hnil. destruct before; discriminate Hnil.
Qed.

(** ** Rule generation from feedback *)

(** The grouping loop is the insertion of the keyed items, in order. *)
Lemma group_feedback_fold (d : DB) (fs : list Feedback)
    (acc : list (string * list PatternItem)) :
  fold_left
    (fun patterns' feedback =>
       match TransactionRepository.get_by_id d (feedback_transaction_id feedback) with
       | None => patterns'
       | Some transaction =>
           FeedbackHandler.patterns_append (FeedbackHandler.pattern_key transaction)
             {| item_transaction_id := transaction_id transaction;
                item_peer := transaction_peer transaction;
                item_item := transaction_item transaction;
                item_category := transaction_category transaction;
                item_corrected_account := feedback_corrected_account feedback |}
             patterns'
       end) fs acc =
  fold_left (fun patterns' ki => FeedbackHandler.patterns_append (fst ki) (snd ki) patterns')
    (omap (keyed_item d) fs) acc.
Proof.
  revert acc. induction fs as [|f fs IH]; intros acc; [reflexivity|].
  cbn [fold_left omap list_omap].
  assert (Hk := eq_refl (keyed_item d f)). unfold keyed_item at 2 in Hk.
  destruct (TransactionRepository.get_by_id d (feedback_transaction_id f));
    rewrite Hk; cbn [fold_left fst snd]; apply IH.
Qed.

Lemma dict_get_append (k k' : string) (i : PatternItem)
    (dict : list (string * list PatternItem)) :
  dict_get k' (FeedbackHandler.patterns_append k i dict) =
  if String.eqb k k' then (dict_get k' dict ++ [i])%list else dict_get k' dict.
Proof.
  unfold dict_get. induction dict as [|[k0 items] rest IH].
  - cbn. destruct (String.eqb k k'); reflexivity.
  - cbn [FeedbackHandler.patterns_append].
    destruct (String.eqb k0 k) eqn:E0.
    + apply String.eqb_eq in E0. subst k0. cbn.
      destruct (String.eqb k k'); reflexivity.
    + cbn [List.find fst]. destruct (String.eqb k0 k') eqn:E1.
      * apply String.eqb_eq in E1. subst k0.
        rewrite String.eqb_sym, E0. reflexivity.
      * exact IH.
Qed.

Lemma keys_append (k : string) (i : PatternItem)
    (dict : list (string * list PatternItem)) :
  map fst (FeedbackHandler.patterns_append k i dict) =
  if Py.mem k (map fst dict) then map fst dict else (map fst dict ++ [k])%list.
Proof.
  induction dict as [|[k0 items] rest IH]; [reflexivity|].
  cbn [FeedbackHandler.patterns_append map fst Py.mem existsb].
  rewrite (String.eqb_sym k k0).
  destruct (String.eqb k0 k); [reflexivity|].
  cbn [map fst orb]. rewrite IH. change (existsb (String.eqb k) (map fst rest))
    with (Py.mem k (map fst rest)).
  destruct (Py.mem k (map fst rest)); reflexivity.
Qed.

Lemma nonempty_append (k : string) (i : PatternItem)
    (dict : list (string * list PatternItem)) :
  Forall (fun kv => snd kv <> []) dict ->
  Forall (fun kv => snd kv <> []) (FeedbackHandler.patterns_append k i dict).
Proof.
  induction 1 as [|[k0 items] rest H0 Hrest IH].
  - repeat constructor. discriminate.
  - cbn [FeedbackHandler.patterns_append]. destruct (String.eqb k0 k).
    + constructor; [|exact Hrest]. cbn. destruct items; discriminate.
    + constructor; [exact H0 | exact IH].
Qed.

Lemma dict_ok_append (k : string) (i : PatternItem)
    (dict : list (string * list PatternItem)) :
  dict_ok dict -> dict_ok (FeedbackHandler.patterns_append k i dict).
Proof.
  intros [Hnd Hne]. split; [|apply nonempty_append; exact Hne].
  rewrite keys_append. destruct (Py.mem k (map fst dict)) eqn:E; [exact Hnd|].
  apply NoDup_app. split; [exact Hnd|]. split; [|apply NoDup_singleton].
  intros x Hx Hx'. apply list_elem_of_singleton in Hx'. subst x.
  apply list_elem_of_In, mem_In in Hx. congruence.
Qed.

Lemma fold_append_spec (kis : list (string * PatternItem))
    (acc : list (string * list PatternItem)) (k : string) :
  dict_ok acc ->
  let dict := fold_left
                (fun patterns' ki =>
                   FeedbackHandler.patterns_append (fst ki) (snd ki) patterns')
                kis acc in
  dict_ok dict /\
  dict_get k dict =
    (dict_get k acc ++
     map snd (List.filter (fun ki => String.eqb (fst ki) k) kis))%list.
Proof.
  revert acc. induction kis as [|[k0 i0] kis IH]; intros acc Hok; cbv zeta;
    cbn [fold_left fst snd].
  - split; [exact Hok|]. cbn. rewrite app_nil_r. reflexivity.
  - destruct (IH (FeedbackHandler.patterns_append k0 i0 acc)
                (dict_ok_append k0 i0 acc Hok)) as [Hok' Hget].
    split; [exact Hok'|]. cbv zeta in Hget. rewrite Hget.
    cbn [fst snd List.filter]. rewrite dict_get_append.
    destruct (String.eqb k0 k); cbn [map snd]; [rewrite <- app_assoc|]; reflexivity.
Qed.

Lemma dict_get_In (dict : list (string * list PatternItem)) (k : string)
    (items : list PatternItem) :
  dict_ok dict ->
  (In (k, items) dict <-> dict_get k dict = items /\ items <> []).
Proof.
  unfold dict_ok, dict_get. induction dict as [|[k0 items0] rest IH]; intros [Hnd Hne].
  - cbn. split; [tauto | intros [<- H]; congruence].
  - cbn [map fst] in Hnd. apply NoDup_cons in Hnd as [Hnotin Hnd].
    apply Forall_cons in Hne as [Hne0 Hne]. cbn [snd] in Hne0.
    cbn [List.find fst]. destruct (String.eqb k0 k) eqn:E.
    + apply String.eqb_eq in E. subst k0. cbn [snd]. split.
      * intros [H|H]; [injection H as <-; auto|].
        exfalso. apply Hnotin. apply list_elem_of_In.
        change k with (fst (k, items)). apply in_map. exact H.
      * intros [<- _]. left. reflexivity.
    + rewrite <- (IH (conj Hnd Hne)). split.
      * intros [H|H]; [|exact H]. injection H as -> _.
        rewrite String.eqb_refl in E. discriminate.
      * intros H. right. exact H.
Qed.

(** The groups built by [analyze_feedback_and_generate_rules]: one entry per
    pattern key that occurs, holding the items of all the given feedback
    records under that key, in order. *)
Lemma group_feedback_spec (d : DB) (fs : list Feedback) :
  NoDup (map fst (FeedbackHandler.group_feedback d fs)) /\
  forall k items,
    In (k, items) (FeedbackHandler.group_feedback d fs) <->
    items = items_under d fs k /\ items <> [].
Proof.
  unfold FeedbackHandler.group_feedback. rewrite group_feedback_fold.
  assert (Hnil : dict_ok []) by (split; constructor).
  split.
  - destruct (fold_append_spec (omap (keyed_item d) fs) [] "" Hnil) as [[H _] _].
    exact H.
  - intros k items.
    destruct (fold_append_spec (omap (keyed_item d) fs) [] k Hnil) as [Hok Hget].
    cbv zeta in Hget. rewrite (dict_get_In _ k items Hok), Hget.
    unfold items_under. cbn [dict_get List.find app].
    split; intros [H1 H2]; split; congruence.
Qed.

Lemma accounts_agree (a : option string) (items : list PatternItem) :
  items <> [] -> agree_on a items -> FeedbackHandler.accounts_of items = {[a]}.
Proof.
  intros Hne Hagree. unfold FeedbackHandler.accounts_of. apply set_eq. intros x.
  rewrite elem_of_list_to_set, elem_of_singleton. split.
  - intros Hx. apply list_elem_of_In, in_map_iff in Hx as (i & <- & Hi).
    apply Hagree. exact Hi.
  - intros ->. destruct items as [|i items]; [congruence|].
    apply list_elem_of_In, in_map_iff. exists i. split; [|left; reflexivity].
    apply Hagree. left. reflexivity.
Qed.

(** A group below the threshold yields no rule. *)
Lemma generate_for_group_small (min_confidence : Z) (items : list PatternItem)
    (w : World) :
  (Z.of_nat (length items) < min_confidence)%Z ->
  FeedbackHandler.generate_for_group min_confidence items w = Ok ([], w).
Proof.
  intros H. unfold FeedbackHandler.generate_for_group.
  rewrite Z.geb_leb, (proj2 (Z.leb_gt _ _) H). reflexivity.
Qed.

(** A group with two different corrected accounts yields no rule. *)
Lemma generate_for_group_disagree (min_confidence : Z) (items : list PatternItem)
    (i j : PatternItem) (w : World) :
  In i items -> In j items ->
  item_corrected_account i <> item_corrected_account j ->
  FeedbackHandler.generate_for_group min_confidence items w = Ok ([], w).
Proof.
  intros Hi Hj Hne. unfold FeedbackHandler.generate_for_group.
  destruct (Z.of_nat (length items) >=? min_confidence)%Z; [|reflexivity].
  destruct (Nat.eqb (size (FeedbackHandler.accounts_of items)) 1) eqn:E; [|reflexivity].
  exfalso. apply Nat.eqb_eq in E. apply Hne.
  apply (size_singleton_inv _ _ _ E); unfold FeedbackHandler.accounts_of;
    apply elem_of_list_to_set, list_elem_of_In, in_map; assumption.
Qed.

(** A group at or above the threshold whose items were all corrected to the
    account [a] yields exactly one rule, generated from the peer, item and
    category of its first item and targeting [a]. *)
Lemma generate_for_group_agree (min_confidence : Z) (first : PatternItem)
    (rest : list PatternItem) (a : string) (w : World) :
  (min_confidence <= Z.of_nat (length (first :: rest)))%Z ->
  agree_on (Some a) (first :: rest) ->
  fresh_in (map rule_id (rules (db w))) (uuid_source w (S (uuid_calls w))) ->
  exists rule w',
    FeedbackHandler.generate_for_group min_confidence (first :: rest) w =
      Ok ([rule], w') /\
    rules (db w') = (rules (db w) ++ [rule])%list /\
    generated_rule_spec (item_peer first) (item_item first) (item_category first) a
      (uuid_source w (uuid_calls w)) rule.
Proof.
  intros Hmin Hagree Hfresh. unfold FeedbackHandler.generate_for_group.
  rewrite Z.geb_leb, (proj2 (Z.leb_le _ _) Hmin).
  rewrite (accounts_agree (Some a) (first :: rest)) by (congruence || exact Hagree).
  rewrite size_singleton, elements_singleton. cbn [Nat.eqb].
  destruct (auto_generate_rule_ok w (item_peer first) (item_item first)
              (item_category first) a Hfresh) as (rule & w' & Hrun & Hrules & Hspec).
  exists rule, w'. split; [|auto].
  unfold mbind, M_bind, bind. rewrite Hrun. reflexivity.
Qed.

(** A group whose corrected accounts are all missing makes the generation
    raise: the rule would have no account. *)
Lemma generate_for_group_no_account (min_confidence : Z) (first : PatternItem)
    (rest : list PatternItem) (w : World) :
  (min_confidence <= Z.of_nat (length (first :: rest)))%Z ->
  agree_on None (first :: rest) ->
  FeedbackHandler.generate_for_group min_confidence (first :: rest) w =
    Raise (IntegrityError "NOT NULL constraint failed: rules.account").
Proof.
  intros Hmin Hagree. unfold FeedbackHandler.generate_for_group.
  rewrite Z.geb_leb, (proj2 (Z.leb_le _ _) Hmin).
  rewrite (accounts_agree None (first :: rest)) by (congruence || exact Hagree).
  rewrite size_singleton, elements_singleton. reflexivity.
Qed.

(** The first example of the design document: three corrections of the same
    pattern to the same account, threshold 3, one auto rule for that account. *)
Example three_corrections_one_rule :
  exists rule w,
    session_three_modify w_one_transaction = Ok ([rule], w) /\
    rules (db w) = [rule] /\
    rule_account rule = "Expenses:Food:Coffee" /\
    rule_source rule = "auto" /\
    rule_conditions rule =
      {["peer" := PatStr "Starbucks Coffee"; "item" := PatStr "Latte";
        "category" := PatStr "Food"]}.
Proof.
  eexists. eexists. split; [vm_compute; reflexivity|].
  repeat split; vm_compute; reflexivity.
Qed.

(** The second example: a fourth correction to another account, no rule. *)
Example four_corrections_disagree_no_rule :
  exists w,
    session_four_modify_disagree w_one_transaction = Ok ([], w) /\ rules (db w) = [].
Proof. eexists. split; vm_compute; reflexivity. Qed.

(** C6. [analyze_feedback_and_generate_rules] reads one page of one hundred
    feedback records: after one hundred "accept" records, three "modify"
    records of the same transaction corrected to the same account are stored
    (records 100 to 102) and form a group of size 3 with a single corrected
    account, yet with threshold 3 no rule is generated. *)
Theorem analyze_feedback_ignores_records_after_100 :
  exists w : World,
    session_100_accept_three_modify w_one_transaction = Ok ([], w) /\
    length (feedbacks (db w)) = 103 /\
    map (fun f => (feedback_transaction_id f, feedback_action f, feedback_corrected_account f))
        (drop 100 (feedbacks (db w))) =
      [ ("t1", "modify", Some "Expenses:Food:Coffee");
        ("t1", "modify", Some "Expenses:Food:Coffee");
        ("t1", "modify", Some "Expenses:Food:Coffee") ] /\
    map item_corrected_account
        (items_under (db w)
           (List.filter (fun f => String.eqb (feedback_action f) "modify")
              (feedbacks (db w)))
           "Starbucks Coffee|Latte|Food") =
      [ Some "Expenses:Food:Coffee"; Some "Expenses:Food:Coffee";
        Some "Expenses:Food:Coffee" ] /\
    rules (db w) = [].
Proof.
  eexists. split; [vm_compute; reflexivity|].
  repeat split; vm_compute; reflexivity.
Qed.

(** While the feedback table holds at most one hundred records, the groups
    are built from all the "modify" records and every group is decided by
    [generate_for_group]. *)
Lemma analyze_small_table (min_confidence : Z) (w : World) :
  length (feedbacks (db w)) <= 100 ->
  FeedbackHandler.analyze_feedback_and_generate_rules min_confidence w =
  (generated ← mapM (fun kv => FeedbackHandler.generate_for_group min_confidence (snd kv))
                 (FeedbackHandler.group_feedback (db w)
                    (List.filter (fun f => String.eqb (feedback_action f) "modify")
                       (feedbacks (db w))));
   ret (concat generated)) w.
Proof.
  intros Hlen. unfold FeedbackHandler.analyze_feedback_and_generate_rules.
  unfold mbind at 1. unfold M_bind, bind, get_db.
  unfold FeedbackRepository.list_all, paginate.
  rewrite drop_0, take_ge by exact Hlen. reflexivity.
Qed.

(** * Further properties of the repositories *)

(** ** Lookup by primary key *)

Lemma find_app_fresh {A} (key : A -> string) (rows : list A) (row : A) (k : string) :
  Py.mem (key row) (map key rows) = false ->
  List.find (fun r => String.eqb (key r) k) (rows ++ [row]) =
  if String.eqb (key row) k then Some row
  else List.find (fun r => String.eqb (key r) k) rows.
Proof.
  intros Hfresh. induction rows as [|r rows IH]; cbn.
  - destruct (String.eqb (key row) k); reflexivity.
  - cbn in Hfresh. apply orb_false_iff in Hfresh as [Hne Hfresh].
    destruct (String.eqb (key r) k) eqn:E.
    + apply String.eqb_eq in E. subst k. rewrite Hne. reflexivity.
    + apply IH. exact Hfresh.
Qed.

Lemma find_key {A} (key : A -> string) (rows : list A) (k : string) (row : A) :
  List.find (fun r => String.eqb (key r) k) rows = Some row ->
  key row = k /\ In row rows.
Proof.
  intros H. apply find_some in H as [Hin Heq].
  apply String.eqb_eq in Heq. auto.
Qed.

Lemma find_replace {A} (key : A -> string) (rows : list A) (k k' : string) (row' : A) :
  key row' = k ->
  List.find (fun r => String.eqb (key r) k')
    (map (fun r => if String.eqb (key r) k then row' else r) rows) =
  if String.eqb k k'
  then match List.find (fun r => String.eqb (key r) k) rows with
       | Some _ => Some row'
       | None => None
       end
  else List.find (fun r => String.eqb (key r) k') rows.
Proof.
  intros Hkey. induction rows as [|r rows IH]; cbn.
  - destruct (String.eqb k k'); reflexivity.
  - destruct (String.eqb (key r) k) eqn:E.
    + apply String.eqb_eq in E. rewrite Hkey.
      destruct (String.eqb k k') eqn:E'; [reflexivity|].
      rewrite E, E'. exact IH.
    + destruct (String.eqb (key r) k') eqn:E'.
      * apply String.eqb_eq in E'. subst k'.
        rewrite String.eqb_sym, E. reflexivity.
      * exact IH.
Qed.

Lemma find_remove {A} (key : A -> string) (rows : list A) (k k' : string) :
  List.find (fun r => String.eqb (key r) k')
    (List.filter (fun r => negb (String.eqb (key r) k)) rows) =
  if String.eqb k k' then None
  else List.find (fun r => String.eqb (key r) k') rows.
Proof.
  induction rows as [|r rows IH]; cbn.
  - destruct (String.eqb k k'); reflexivity.
  - destruct (String.eqb (key r) k) eqn:E; cbn.
    + rewrite IH. apply String.eqb_eq in E. rewrite E.
      destruct (String.eqb k k'); reflexivity.
    + destruct (String.eqb (key r) k') eqn:E'; [|exact IH].
      apply String.eqb_eq in E'. subst k'.
      rewrite String.eqb_sym, E. reflexivity.
Qed.

(** ** Rules: create, get, update, delete *)

(** X1. A rule created under an unused key is the one [get_rule] returns for
    its id, and the lookup of every other id is as before. *)
Theorem create_rule_then_get_rule (w : World) (name : string)
    (conditions : gmap string CondValue) (account : string) (confidence : Q)
    (source : string) :
  fresh_in (map rule_id (rules (db w))) (uuid_source w (uuid_calls w)) ->
  exists rule w',
    RuleEngine.create_rule name conditions (Some account) confidence source w =
      Ok (rule, w') /\
    forall rid,
      RuleEngine.get_rule (db w') rid =
        if String.eqb (rule_id rule) rid then Some rule
        else RuleEngine.get_rule (db w) rid.
Proof.
  intros Hfresh.
  destruct (RuleRepository_create_fresh w name conditions account confidence source Hfresh)
    as (w' & Hrun & Hrules & _).
  eexists. exists w'. split; [exact Hrun|].
  intros rid. unfold RuleEngine.get_rule, RuleRepository.get_by_id.
  rewrite Hrules. apply (find_app_fresh rule_id). exact Hfresh.
Qed.

Lemma create_rule_then_get_rule_witness :
  fresh_in (map rule_id (rules (db w_three_rules)))
    (uuid_source w_three_rules (uuid_calls w_three_rules)) /\
  exists rule w',
    RuleEngine.create_rule "rent" {["peer" := PatStr "Landlord"]}
      (Some "Expenses:Housing") 1 "user" w_three_rules = Ok (rule, w') /\
    forall rid,
      RuleEngine.get_rule (db w') rid =
        if String.eqb (rule_id rule) rid then Some rule
        else RuleEngine.get_rule (db w_three_rules) rid.
Proof.
  split; [reflexivity|].
  apply (create_rule_then_get_rule w_three_rules "rent" {["peer" := PatStr "Landlord"]}
           "Expenses:Housing" 1 "user").
  reflexivity.
Defined.

(** X2. [update_rule] is a partial update: on a stored rule it overwrites
    exactly the fields whose argument is given, refreshes [updated_at] from
    the clock and keeps id, confidence, source and [created_at]; the updated
    row is what [get_rule] then returns, every other lookup, the order of the
    rows and the other tables are unchanged. On an unknown id it returns
    [None] and changes nothing. *)
Theorem update_rule_partial (w : World) (rid : string) (name : option string)
    (conditions : option (gmap string CondValue)) (account : option string) :
  match RuleEngine.get_rule (db w) rid with
  | Some rule =>
      exists rule' w',
        RuleEngine.update_rule rid name conditions account w = Ok (Some rule', w') /\
        rule' =
          {| rule_id := rid;
             rule_name := default (rule_name rule) name;
             rule_conditions := default (rule_conditions rule) conditions;
             rule_account := default (rule_account rule) account;
             rule_confidence := rule_confidence rule;
             rule_source := rule_source rule;
             rule_created_at := rule_created_at rule;
             rule_updated_at := clock w (clock_calls w) |} /\
        (forall rid',
           RuleEngine.get_rule (db w') rid' =
             if String.eqb rid rid' then Some rule'
             else RuleEngine.get_rule (db w) rid') /\
        map rule_id (rules (db w')) = map rule_id (rules (db w)) /\
        transactions (db w') = transactions (db w) /\
        classifications (db w') = classifications (db w) /\
        feedbacks (db w') = feedbacks (db w)
  | None => RuleEngine.update_rule rid name conditions account w = Ok (None, w)
  end.
Proof.
  unfold RuleEngine.get_rule, RuleEngine.update_rule, RuleRepository.update.
  unfold_M. cbn beta.
  destruct (RuleRepository.get_by_id (db w) rid) as [rule|] eqn:Hget; [|reflexivity].
  unfold RuleRepository.get_by_id in Hget.
  destruct (find_key rule_id _ _ _ Hget) as [Hid Hin].
  eexists. eexists. split; [reflexivity|]. cbn [db rules transactions classifications
    feedbacks]. rewrite Hid. split; [reflexivity|]. split.
  - intros rid'. unfold RuleRepository.get_by_id. cbn [db rules].
    rewrite (find_replace rule_id (rules (db w)) rid rid') by reflexivity.
    rewrite Hget. reflexivity.
  - split; [|repeat split].
    clear Hget Hin. induction (rules (db w)) as [|r rows IH]; [reflexivity|].
    cbn [map]. rewrite IH. f_equal.
    destruct (String.eqb (rule_id r) rid) eqn:E; [|reflexivity].
    apply String.eqb_eq in E. symmetry. exact E.
Qed.

(** X3. [delete_rule] returns [True] exactly when the id is stored; the rule
    is then gone for [get_rule] and for [match_transaction], every other
    lookup and the other tables are unchanged. On an unknown id it returns
    [False] and changes nothing. *)
Theorem delete_rule_removes (w : World) (rid : string) :
  match RuleEngine.get_rule (db w) rid with
  | Some _ =>
      exists w',
        RuleEngine.delete_rule rid w = Ok (true, w') /\
        (forall rid',
           RuleEngine.get_rule (db w') rid' =
             if String.eqb rid rid' then None else RuleEngine.get_rule (db w) rid') /\
        (forall peer item category r,
           In r (RuleEngine.match_transaction (db w') peer item category) ->
           rule_id r <> rid) /\
        transactions (db w') = transactions (db w) /\
        classifications (db w') = classifications (db w) /\
        feedbacks (db w') = feedbacks (db w)
  | None => RuleEngine.delete_rule rid w = Ok (false, w)
  end.
Proof.
  unfold RuleEngine.get_rule, RuleEngine.delete_rule, RuleRepository.delete.
  unfold_M. cbn beta.
  destruct (RuleRepository.get_by_id (db w) rid) as [rule|] eqn:Hget; [|reflexivity].
  unfold RuleRepository.get_by_id in Hget.
  destruct (find_key rule_id _ _ _ Hget) as [Hid Hin].
  eexists. split; [reflexivity|]. cbn [db rules transactions classifications
    feedbacks]. rewrite Hid. split.
  - intros rid'. unfold RuleRepository.get_by_id. cbn [db rules].
    apply (find_remove rule_id).
  - split; [|repeat split].
    intros peer item category r Hr.
    unfold RuleEngine.match_transaction in Hr.
    apply match_transaction_page in Hr as [Hr _]. cbn [rules] in Hr.
    apply list_elem_of_In, elem_of_take in Hr as (i & Hr & _).
    apply list_elem_of_lookup_2, list_elem_of_In, filter_In in Hr as [_ Hr].
    apply negb_true_iff, String.eqb_neq in Hr. exact Hr.
Qed.

(** ** Transactions: delete with cascade *)

Lemma filter_other_none {A} (key : A -> string) (rows : list A) (k : string) :
  List.filter (fun r => String.eqb (key r) k)
    (List.filter (fun r => negb (String.eqb (key r) k)) rows) = [].
Proof.
  induction rows as [|r rows IH]; [reflexivity|]. cbn.
  destruct (String.eqb (key r) k) eqn:E; cbn; [exact IH|]. rewrite E. exact IH.
Qed.

Lemma filter_other_same {A} (key : A -> string) (rows : list A) (k k' : string) :
  k' <> k ->
  List.filter (fun r => String.eqb (key r) k')
    (List.filter (fun r => negb (String.eqb (key r) k)) rows) =
  List.filter (fun r => String.eqb (key r) k') rows.
Proof.
  intros Hne. induction rows as [|r rows IH]; [reflexivity|]. cbn.
  destruct (String.eqb (key r) k) eqn:E; cbn.
  - apply String.eqb_eq in E. subst k.
    destruct (String.eqb (key r) k') eqn:E'; [|exact IH].
    apply String.eqb_eq in E'. congruence.
  - destruct (String.eqb (key r) k'); [f_equal|]; exact IH.
Qed.

(** X4. Deleting a stored transaction returns [True] and removes, with the
    transaction, all its classifications and all its feedback; the
    classifications and feedback of every other transaction, the other
    transactions and the rules are unchanged. On an unknown id it returns
    [False] and changes nothing. *)
Theorem delete_transaction_cascades (w : World) (tid : string) :
  match TransactionRepository.get_by_id (db w) tid with
  | Some _ =>
      exists w',
        TransactionRepository.delete tid w = Ok (true, w') /\
        TransactionRepository.get_by_id (db w') tid = None /\
        ClassificationRepository.get_by_transaction_id (db w') tid = [] /\
        FeedbackRepository.get_by_transaction_id (db w') tid = [] /\
        (forall tid', tid' <> tid ->
           TransactionRepository.get_by_id (db w') tid' =
             TransactionRepository.get_by_id (db w) tid' /\
           ClassificationRepository.get_by_transaction_id (db w') tid' =
             ClassificationRepository.get_by_transaction_id (db w) tid' /\
           FeedbackRepository.get_by_transaction_id (db w') tid' =
             FeedbackRepository.get_by_transaction_id (db w) tid') /\
        rules (db w') = rules (db w)
  | None => TransactionRepository.delete tid w = Ok (false, w)
  end.
Proof.
  unfold TransactionRepository.delete. unfold_M. cbn beta.
  destruct (TransactionRepository.get_by_id (db w) tid) as [t|] eqn:Hget; [|reflexivity].
  unfold TransactionRepository.get_by_id in Hget.
  destruct (find_key transaction_id _ _ _ Hget) as [Hid _].
  eexists. split; [reflexivity|].
  unfold TransactionRepository.get_by_id,
    ClassificationRepository.get_by_transaction_id,
    FeedbackRepository.get_by_transaction_id.
  cbn [db transactions classifications feedbacks rules]. rewrite Hid.
  split.
  { rewrite (find_remove transaction_id), String.eqb_refl. reflexivity. }
  split; [apply (filter_other_none classification_transaction_id)|].
  split; [apply (filter_other_none feedback_transaction_id)|].
  split; [|reflexivity].
  intros tid' Hne. split.
  { rewrite (find_remove transaction_id).
    destruct (String.eqb tid tid') eqn:E; [|reflexivity].
    apply String.eqb_eq in E. congruence. }
  split.
  - apply (filter_other_same classification_transaction_id). exact Hne.
  - apply (filter_other_same feedback_transaction_id). exact Hne.
Qed.

(** ** The table of configuration as a finite map *)

Lemma find_append {A} (f : A -> bool) (l1 l2 : list A) :
  List.find f (l1 ++ l2) =
  match List.find f l1 with
  | Some x => Some x
  | None => List.find f l2
  end.
Proof.
  induction l1 as [|x l1 IH]; [reflexivity|]. cbn.
  destruct (f x); [reflexivity | exact IH].
Qed.

Lemma get_all_fold (table : list UserConfig) (m : gmap string string) (key : string) :
  fold_left (fun m c => <[config_key c := config_value c]> m) table m !! key =
  match List.find (fun c => String.eqb (config_key c) key) (rev table) with
  | Some c => Some (config_value c)
  | None => m !! key
  end.
Proof.
  revert m. induction table as [|c table IH]; intros m; [reflexivity|].
  cbn [fold_left rev]. rewrite IH, find_append.
  destruct (List.find (fun c0 => String.eqb (config_key c0) key) (rev table));
    [reflexivity|].
  cbn. destruct (String.eqb (config_key c) key) eqn:E.
  - apply String.eqb_eq in E. subst key. apply lookup_insert_eq.
  - apply String.eqb_neq in E. apply lookup_insert_ne. exact E.
Qed.

Lemma find_rev_unique (table : list UserConfig) (key : string) :
  config_keys_unique table ->
  List.find (fun c => String.eqb (config_key c) key) (rev table) =
  List.find (fun c => String.eqb (config_key c) key) table.
Proof.
  unfold config_keys_unique. induction table as [|c table IH]; intros Hnd; [reflexivity|].
  cbn [map] in Hnd. apply NoDup_cons in Hnd as [Hnotin Hnd].
  cbn [rev List.find]. rewrite find_append, (IH Hnd).
  destruct (String.eqb (config_key c) key) eqn:E.
  - destruct (List.find (fun c0 => String.eqb (config_key c0) key) table) as [c'|] eqn:F.
    + exfalso. apply find_key with (key := config_key) in F as [Hk Hin].
      apply String.eqb_eq in E. apply Hnotin, list_elem_of_In.
      rewrite E, <- Hk. apply in_map. exact Hin.
    + cbn. rewrite E. reflexivity.
  - destruct (List.find (fun c0 => String.eqb (config_key c0) key) table); [reflexivity|].
    cbn. rewrite E. reflexivity.
Qed.

(** On a table with unique keys [get] reads the dict [get_all] builds. *)
Lemma config_get_lookup (table : list UserConfig) (key : string) :
  config_keys_unique table ->
  UserConfigRepository.get table key = UserConfigRepository.get_all table !! key.
Proof.
  intros Hnd. unfold UserConfigRepository.get, UserConfigRepository.get_all,
    UserConfigRepository.find_config.
  rewrite get_all_fold, (find_rev_unique table key Hnd), lookup_empty.
  destruct (List.find _ table); reflexivity.
Qed.

Lemma config_set_get (table : list UserConfig) (now key value key' : string) :
  UserConfigRepository.get (fst (UserConfigRepository.set table now key value)) key' =
  if String.eqb key key' then Some value else UserConfigRepository.get table key'.
Proof.
  unfold UserConfigRepository.get, UserConfigRepository.set,
    UserConfigRepository.find_config.
  destruct (List.find (fun c => String.eqb (config_key c) key) table) as [c|] eqn:F.
  - destruct (find_key config_key _ _ _ F) as [Hk _]. cbn [fst]. rewrite Hk.
    rewrite (find_replace config_key table key key') by reflexivity.
    rewrite F. destruct (String.eqb key key'); reflexivity.
  - cbn [fst]. rewrite find_append.
    destruct (String.eqb key key') eqn:E.
    + apply String.eqb_eq in E. subst key'. rewrite F. cbn.
      rewrite String.eqb_refl. reflexivity.
    + destruct (List.find (fun c => String.eqb (config_key c) key') table);
        [reflexivity|]. cbn. rewrite E. reflexivity.
Qed.

Lemma config_delete_get (table : list UserConfig) (key key' : string) :
  UserConfigRepository.get (fst (UserConfigRepository.delete table key)) key' =
  if String.eqb key key' then None else UserConfigRepository.get table key'.
Proof.
  unfold UserConfigRepository.get, UserConfigRepository.delete,
    UserConfigRepository.find_config.
  destruct (List.find (fun c => String.eqb (config_key c) key) table) as [c|] eqn:F.
  - destruct (find_key config_key _ _ _ F) as [Hk _]. cbn [fst]. rewrite Hk.
    rewrite (find_remove config_key). destruct (String.eqb key key'); reflexivity.
  - cbn [fst]. destruct (String.eqb key key') eqn:E; [|reflexivity].
    apply String.eqb_eq in E. subst key'. rewrite F. reflexivity.
Qed.

Lemma config_set_keys (table : list UserConfig) (now key value : string) :
  config_keys_unique table ->
  config_keys_unique (fst (UserConfigRepository.set table now key value)).
Proof.
  unfold config_keys_unique, UserConfigRepository.set, UserConfigRepository.find_config.
  intros Hnd.
  destruct (List.find (fun c => String.eqb (config_key c) key) table) as [c|] eqn:F;
    cbn [fst].
  - replace (map config_key
               (map (fun c0 => if String.eqb (config_key c0) (config_key c)
                               then {| config_key := config_key c;
                                       config_value := value;
                                       config_updated_at := now |}
                               else c0) table))
      with (map config_key table); [exact Hnd|].
    clear. induction table as [|c0 table IH]; [reflexivity|].
    cbn [map]. rewrite <- IH. f_equal.
    destruct (String.eqb (config_key c0) (config_key c)) eqn:E; [|reflexivity].
    apply String.eqb_eq in E. exact E.
  - change (@map) with (@fmap list _). rewrite fmap_app. cbn.
    apply NoDup_app. split; [exact Hnd|]. split; [|apply NoDup_singleton].
    intros x Hx Hx'. apply list_elem_of_singleton in Hx'. subst x.
    apply list_elem_of_In, in_map_iff in Hx as (c & Hk & Hin).
    assert (H := find_none _ _ F c Hin). cbn in H.
    rewrite Hk, String.eqb_refl in H. discriminate.
Qed.

Lemma config_delete_keys (table : list UserConfig) (key : string) :
  config_keys_unique table ->
  config_keys_unique (fst (UserConfigRepository.delete table key)).
Proof.
  unfold config_keys_unique, UserConfigRepository.delete. intros Hnd.
  destruct (UserConfigRepository.find_config table key) as [c|]; cbn [fst]; [|exact Hnd].
  clear -Hnd. induction table as [|c0 table IH]; [constructor|].
  cbn [map] in Hnd. apply NoDup_cons in Hnd as [Hnotin Hnd]. cbn [List.filter].
  destruct (negb (String.eqb (config_key c0) (config_key c))); [|apply IH; exact Hnd].
  cbn [map]. apply NoDup_cons. split; [|apply IH; exact Hnd].
  intros Hin. apply Hnotin. apply list_elem_of_In in Hin. apply list_elem_of_In.
  apply in_map_iff in Hin as (c1 & Hk & Hin). apply filter_In in Hin as [Hin _].
  rewrite <- Hk. apply in_map. exact Hin.
Qed.

(** X5. The table of configuration behaves as a finite map from keys to
    values: on a table with unique keys, [set] keeps the keys unique and is
    the insertion in the dict of [get_all], [delete] keeps them unique, is the
    removal from it and returns whether the key was present, and [get] is the
    lookup. In particular [get] after [set] returns the value set, and [set]
    on an existing key replaces its value without adding a row. *)
Theorem user_config_is_a_map (table : list UserConfig) (now key value : string) :
  config_keys_unique table ->
  let after_set := fst (UserConfigRepository.set table now key value) in
  let after_delete := fst (UserConfigRepository.delete table key) in
  config_keys_unique after_set /\
  UserConfigRepository.get_all after_set =
    <[key := value]> (UserConfigRepository.get_all table) /\
  UserConfigRepository.get after_set key = Some value /\
  (is_Some (UserConfigRepository.get table key) -> length after_set = length table) /\
  config_keys_unique after_delete /\
  UserConfigRepository.get_all after_delete =
    base.delete key (UserConfigRepository.get_all table) /\
  snd (UserConfigRepository.delete table key) =
    bool_decide (is_Some (UserConfigRepository.get table key)) /\
  forall key', UserConfigRepository.get table key' =
               UserConfigRepository.get_all table !! key'.
Proof.
  intros Hnd. cbv zeta.
  assert (Hset := config_set_keys table now key value Hnd).
  assert (Hdel := config_delete_keys table key Hnd).
  split; [exact Hset|]. split.
  { apply map_eq. intros k. rewrite <- (config_get_lookup _ k Hset), config_set_get.
    destruct (String.eqb key k) eqn:E.
    - apply String.eqb_eq in E. subst k. rewrite lookup_insert_eq. reflexivity.
    - apply String.eqb_neq in E. rewrite lookup_insert_ne by exact E.
      apply config_get_lookup. exact Hnd. }
  split.
  { rewrite config_set_get, String.eqb_refl. reflexivity. }
  split.
  { unfold UserConfigRepository.get, UserConfigRepository.set.
    destruct (UserConfigRepository.find_config table key); cbn [fst].
    - intros _. apply length_map.
    - intros [x Hx]. discriminate. }
  split; [exact Hdel|]. split.
  { apply map_eq. intros k. rewrite <- (config_get_lookup _ k Hdel), config_delete_get.
    destruct (String.eqb key k) eqn:E.
    - apply String.eqb_eq in E. subst k. rewrite lookup_delete_eq. reflexivity.
    - apply String.eqb_neq in E. rewrite lookup_delete_ne by exact E.
      apply config_get_lookup. exact Hnd. }
  split.
  { unfold UserConfigRepository.get, UserConfigRepository.delete.
    destruct (UserConfigRepository.find_config table key); cbn [snd].
    - symmetry. apply bool_decide_eq_true. eauto.
    - symmetry. apply bool_decide_eq_false. intros [x Hx]. discriminate. }
  intros key'. apply config_get_lookup. exact Hnd.
Qed.

Lemma user_config_is_a_map_witness :
  config_keys_unique table_two_configs /\
  UserConfigRepository.get
    (fst (UserConfigRepository.set table_two_configs "2024-03-01T00:00:00"
            "chart_of_accounts" "Assets:Cash"))
    "chart_of_accounts" = Some "Assets:Cash".
Proof.
  assert (H : config_keys_unique table_two_configs).
  { apply (bool_decide_unpack _). vm_compute. exact I. }
  split; [exact H|].
  exact (proj1 (proj2 (proj2
           (user_config_is_a_map table_two_configs "2024-03-01T00:00:00"
              "chart_of_accounts" "Assets:Cash" H)))).
Defined.

(** ** Unique primary keys *)

Lemma preserves_ret {A} (P : World -> Prop) (a : A) : preserves P (mret a).
Proof. intros w a' w' HP H. injection H as _ <-. exact HP. Qed.

Lemma preserves_raise {A} (P : World -> Prop) (e : Exn) : preserves P (@raise A e).
Proof. intros w a w' _ H. discriminate. Qed.

Lemma preserves_bind {A B} (P : World -> Prop) (m : M A) (k : A -> M B) :
  preserves P m -> (forall a, preserves P (k a)) -> preserves P (m ≫= k).
Proof.
  intros Hm Hk w b w' HP H. unfold mbind, M_bind, bind in H.
  destruct (m w) as [[a w1]|e] eqn:E; [|discriminate].
  exact (Hk a w1 b w' (Hm w a w1 HP E) H).
Qed.

Lemma preserves_mapM {A B} (P : World -> Prop) (f : A -> M B) (l : list A) :
  (forall x, preserves P (f x)) -> preserves P (mapM f l).
Proof.
  intros Hf. induction l as [|x l IH]; cbn [mapM].
  - apply (preserves_ret P).
  - apply preserves_bind; [apply Hf|]. intros y.
    apply preserves_bind; [exact IH|]. intros ys. apply (preserves_ret P).
Qed.

Lemma preserves_db_reader {A} (P : DB -> Prop) (m : M A) :
  (forall w a w', m w = Ok (a, w') -> db w' = db w) ->
  preserves (fun w => P (db w)) m.
Proof. intros H w a w' HP E. rewrite (H w a w' E). exact HP. Qed.

Lemma keys_uuid4 : preserves (fun w => keys_unique (db w)) uuid4.
Proof. apply preserves_db_reader. intros w a w' H. injection H as _ <-. reflexivity. Qed.

Lemma keys_utcnow : preserves (fun w => keys_unique (db w)) utcnow.
Proof. apply preserves_db_reader. intros w a w' H. injection H as _ <-. reflexivity. Qed.

Lemma keys_get_db : preserves (fun w => keys_unique (db w)) get_db.
Proof. apply preserves_db_reader. intros w a w' H. injection H as _ <-. reflexivity. Qed.

Lemma NoDup_map_snoc {A} (key : A -> string) (rows : list A) (row : A) :
  NoDup (map key rows) -> Py.mem (key row) (map key rows) = false ->
  NoDup (map key (rows ++ [row])).
Proof.
  intros Hnd Hfresh. change (@map) with (@fmap list _). rewrite fmap_app.
  apply NoDup_app. split; [exact Hnd|]. split; [|apply NoDup_singleton].
  intros x Hx Hx'. apply list_elem_of_singleton in Hx'. subst x.
  apply not_true_iff_false in Hfresh. apply Hfresh, mem_In.
  apply list_elem_of_In in Hx. exact Hx.
Qed.

Lemma NoDup_map_filter {A} (key : A -> string) (f : A -> bool) (rows : list A) :
  NoDup (map key rows) -> NoDup (map key (List.filter f rows)).
Proof.
  induction rows as [|r rows IH]; intros Hnd; [constructor|].
  cbn [map] in Hnd. apply NoDup_cons in Hnd as [Hnotin Hnd]. cbn [List.filter].
  destruct (f r); [|apply IH; exact Hnd].
  cbn [map]. apply NoDup_cons. split; [|apply IH; exact Hnd].
  intros Hin. apply Hnotin. apply list_elem_of_In in Hin. apply list_elem_of_In.
  apply in_map_iff in Hin as (r1 & Hk & Hin). apply filter_In in Hin as [Hin _].
  rewrite <- Hk. apply in_map. exact Hin.
Qed.

Lemma map_replace_keys {A} (key : A -> string) (rows : list A) (k : string) (row' : A) :
  key row' = k ->
  map key (map (fun r => if String.eqb (key r) k then row' else r) rows) = map key rows.
Proof.
  intros Hk. induction rows as [|r rows IH]; [reflexivity|].
  cbn [map]. rewrite IH. f_equal.
  destruct (String.eqb (key r) k) eqn:E; [|reflexivity].
  apply String.eqb_eq in E. congruence.
Qed.

Lemma update_first_keys (cid account : string) (rows : list Classification) :
  map classification_id (fst (ClassificationRepository.update_first cid account rows)) =
  map classification_id rows.
Proof.
  induction rows as [|c rows IH]; [reflexivity|].
  cbn [ClassificationRepository.update_first].
  destruct (String.eqb (classification_id c) cid); [reflexivity|].
  destruct (ClassificationRepository.update_first cid account rows) as [rows' found].
  cbn [fst] in *. cbn [map]. rewrite IH. reflexivity.
Qed.

Ltac unfold_M_in H :=
  unfold mbind, M_bind, bind, mret, M_ret, ret, get_db, put_db, uuid4, utcnow, raise in H.

Lemma keys_transaction_insert (t : Transaction) :
  preserves (fun w => keys_unique (db w)) (TransactionRepository.insert t).
Proof.
  intros w a w' (H1 & H2 & H3 & H4) H.
  unfold TransactionRepository.insert in H. unfold_M_in H. cbn beta in H.
  destruct (Py.mem (transaction_id t) (map transaction_id (transactions (db w))))
    eqn:E; [discriminate|].
  injection H as _ <-. cbn. repeat split; try assumption.
  apply NoDup_map_snoc; assumption.
Qed.

Lemma keys_classification_insert (c : Classification) :
  preserves (fun w => keys_unique (db w)) (ClassificationRepository.insert c).
Proof.
  intros w a w' (H1 & H2 & H3 & H4) H.
  unfold ClassificationRepository.insert in H. unfold_M_in H. cbn beta in H.
  destruct (Py.mem (classification_id c)
              (map classification_id (classifications (db w)))) eqn:E; [discriminate|].
  injection H as _ <-. cbn. repeat split; try assumption.
  apply NoDup_map_snoc; assumption.
Qed.

Lemma keys_feedback_insert (f : Feedback) :
  preserves (fun w => keys_unique (db w)) (FeedbackRepository.insert f).
Proof.
  intros w a w' (H1 & H2 & H3 & H4) H.
  unfold FeedbackRepository.insert in H. unfold_M_in H. cbn beta in H.
  destruct (Py.mem (feedback_id f) (map feedback_id (feedbacks (db w)))) eqn:E;
    [discriminate|].
  injection H as _ <-. cbn. repeat split; try assumption.
  apply NoDup_map_snoc; assumption.
Qed.

Lemma keys_rule_insert (r : Rule) :
  preserves (fun w => keys_unique (db w)) (RuleRepository.insert r).
Proof.
  intros w a w' (H1 & H2 & H3 & H4) H.
  unfold RuleRepository.insert in H. unfold_M_in H. cbn beta in H.
  destruct (Py.mem (rule_id r) (map rule_id (rules (db w)))) eqn:E; [discriminate|].
  injection H as _ <-. cbn. repeat split; try assumption.
  apply NoDup_map_snoc; assumption.
Qed.

Lemma keys_update_account (cid account : string) :
  preserves (fun w => keys_unique (db w))
    (ClassificationRepository.update_account cid account).
Proof.
  intros w a w' (H1 & H2 & H3 & H4) H.
  unfold ClassificationRepository.update_account in H. unfold_M_in H. cbn beta in H.
  assert (Hk := update_first_keys cid account (classifications (db w))).
  destruct (ClassificationRepository.update_first cid account (classifications (db w)))
    as [rows found].
  destruct found; injection H as _ <-; cbn [db transactions classifications feedbacks rules]; repeat split; try assumption.
  cbn [fst] in Hk. cbn [classifications]. rewrite Hk. exact H2.
Qed.

Lemma keys_transaction_delete (tid : string) :
  preserves (fun w => keys_unique (db w)) (TransactionRepository.delete tid).
Proof.
  intros w a w' (H1 & H2 & H3 & H4) H.
  unfold TransactionRepository.delete in H. unfold_M_in H. cbn beta in H.
  destruct (TransactionRepository.get_by_id (db w) tid); injection H as _ <-;
    cbn [db transactions classifications feedbacks rules]; repeat split; try assumption; apply NoDup_map_filter; assumption.
Qed.

Lemma keys_rule_update (rid : string) (name : option string)
    (conditions : option (gmap string CondValue)) (account : option string) :
  preserves (fun w => keys_unique (db w))
    (RuleRepository.update rid name conditions account).
Proof.
  intros w a w' (H1 & H2 & H3 & H4) H.
  unfold RuleRepository.update in H. unfold_M_in H. cbn beta in H.
  destruct (RuleRepository.get_by_id (db w) rid); injection H as _ <-;
    cbn [db transactions classifications feedbacks rules]; repeat split; try assumption.
  cbn [rules]. rewrite (map_replace_keys rule_id) by reflexivity. exact H4.
Qed.

Lemma keys_rule_delete (rid : string) :
  preserves (fun w => keys_unique (db w)) (RuleRepository.delete rid).
Proof.
  intros w a w' (H1 & H2 & H3 & H4) H.
  unfold RuleRepository.delete in H. unfold_M_in H. cbn beta in H.
  destruct (RuleRepository.get_by_id (db w) rid); injection H as _ <-;
    cbn [db transactions classifications feedbacks rules]; repeat split; try assumption; apply NoDup_map_filter; assumption.
Qed.

Ltac keys_step :=
  first
    [ apply (preserves_ret (fun w => keys_unique (db w)))
    | apply (preserves_raise (fun w => keys_unique (db w)))
    | apply keys_uuid4 | apply keys_utcnow | apply keys_get_db
    | apply keys_transaction_insert | apply keys_classification_insert
    | apply keys_feedback_insert | apply keys_rule_insert
    | apply keys_update_account | apply keys_transaction_delete
    | apply keys_rule_update | apply keys_rule_delete
    | apply preserves_bind; [|intros ?] ].

Lemma keys_rule_create (name : string) (conditions : gmap string CondValue)
    (account : option string) (confidence : Q) (source : string) :
  preserves (fun w => keys_unique (db w))
    (RuleRepository.create name conditions account confidence source).
Proof.
  unfold RuleRepository.create. repeat keys_step.
  destruct account; repeat keys_step.
Qed.

Lemma keys_classification_create (tid account : string) (confidence : Q)
    (source reasoning : string) :
  preserves (fun w => keys_unique (db w))
    (ClassificationRepository.create tid account confidence source reasoning).
Proof. unfold ClassificationRepository.create. repeat keys_step. Qed.

Lemma keys_feedback_create (tid action : string) (original corrected : option string) :
  preserves (fun w => keys_unique (db w))
    (FeedbackRepository.create tid action original corrected).
Proof. unfold FeedbackRepository.create. repeat keys_step. Qed.

Lemma keys_transaction_create (peer item category transaction_type time : string)
    (amount : Q) (currency provider raw_data : string) :
  preserves (fun w => keys_unique (db w))
    (TransactionRepository.create peer item category transaction_type time amount
       currency provider raw_data).
Proof. unfold TransactionRepository.create. repeat keys_step. Qed.

Lemma keys_auto_generate (peer item category : string) (account : option string) :
  preserves (fun w => keys_unique (db w))
    (RuleEngine.auto_generate_rule_from_feedback peer item category account).
Proof.
  unfold RuleEngine.auto_generate_rule_from_feedback, RuleEngine.create_rule.
  keys_step; [keys_step|]. apply keys_rule_create.
Qed.

Lemma keys_record_feedback (tid : string) (original corrected : option string)
    (action : string) :
  preserves (fun w => keys_unique (db w))
    (FeedbackHandler.record_feedback tid original corrected action).
Proof.
  unfold FeedbackHandler.record_feedback.
  keys_step; [apply keys_feedback_create|].
  keys_step; [|keys_step].
  destruct (String.eqb action "modify" && Py.truthy_opt corrected); [|keys_step].
  keys_step; [keys_step|].
  destruct (FeedbackHandler.latest _); repeat keys_step.
Qed.

Lemma keys_generate_for_group (min_confidence : Z) (items : list PatternItem) :
  preserves (fun w => keys_unique (db w))
    (FeedbackHandler.generate_for_group min_confidence items).
Proof.
  unfold FeedbackHandler.generate_for_group.
  destruct (Z.of_nat (length items) >=? min_confidence)%Z; [|keys_step].
  destruct (Nat.eqb (size (FeedbackHandler.accounts_of items)) 1); [|keys_step].
  destruct items; [keys_step|].
  destruct (elements (FeedbackHandler.accounts_of (p :: items))); [keys_step|].
  keys_step; [apply keys_auto_generate | keys_step].
Qed.

(** X6. Every write of the repositories, of the rule engine, of the
    coordinator and of the feedback learner keeps the primary keys of the four
    tables unique: from a store with unique keys, whenever the operation
    returns, the keys of the resulting store are unique. *)
Theorem store_ops_keep_keys_unique (w : World) (op : StoreOp) (w' : World) :
  keys_unique (db w) ->
  run_store_op op w = Ok (tt, w') ->
  keys_unique (db w').
Proof.
  revert w w'.
  assert (H : preserves (fun w => keys_unique (db w)) (run_store_op op)).
  { destruct op; cbn [run_store_op].
    - keys_step; [apply keys_transaction_create | keys_step].
    - repeat keys_step.
    - keys_step; [apply keys_classification_create | keys_step].
    - repeat keys_step.
    - keys_step; [apply keys_feedback_create | keys_step].
    - keys_step; [apply keys_rule_create | keys_step].
    - repeat keys_step.
    - repeat keys_step.
    - unfold Classifier.save_classification.
      destruct (result_account classification); [|keys_step].
      destruct (result_confidence classification); [|keys_step].
      destruct (result_source classification); [|keys_step].
      keys_step; [apply keys_classification_create | keys_step].
    - keys_step; [apply keys_record_feedback | keys_step].
    - keys_step; [apply keys_auto_generate | keys_step].
    - unfold FeedbackHandler.analyze_feedback_and_generate_rules.
      keys_step; [|keys_step].
      keys_step; [keys_step|].
      keys_step; [|keys_step].
      apply preserves_mapM. intros kv. apply keys_generate_for_group. }
  intros w w' HP Hrun. exact (H w tt w' HP Hrun).
Qed.

Lemma store_ops_keep_keys_unique_witness :
  keys_unique (db w_two_transactions) /\
  exists w',
    run_store_op (TransactionDelete "t1") w_two_transactions = Ok (tt, w') /\
    keys_unique (db w').
Proof.
  assert (H : keys_unique (db w_two_transactions)).
  { repeat split; apply (bool_decide_unpack _); vm_compute; exact I. }
  split; [exact H|]. eexists. split; [vm_compute; reflexivity|].
  apply (store_ops_keep_keys_unique w_two_transactions (TransactionDelete "t1") _ H).
  vm_compute. reflexivity.
Defined.

(** * Further properties of the coordinator *)

(** X7. When no matched rule has source "user" (rules of source "auto" may
    well match), [classify_transaction] sends exactly one request, for this
    transaction, and returns the provider's answer tagged "ai": rules
    generated from feedback never answer a transaction themselves. *)
Theorem classify_transaction_without_user_rule (d : DB) (provider : Provider)
    (api : Api) (tx : TxDict) :
  (forall r, In r (matched_rules d tx) -> rule_source r <> "user") ->
  Classifier.classify_transaction d provider api tx =
    (Classifier.ai_result None (provider_answer api tx), [ChatCall tx]).
Proof.
  intros Hnone.
  assert (E : Classifier.best_user_rule d tx = None).
  { apply best_user_rule_None.
    destruct (Classifier.user_rules d tx) as [|r l] eqn:Hl; [reflexivity|].
    exfalso. assert (Hr : In r (Classifier.user_rules d tx)) by (rewrite Hl; left; reflexivity).
    apply user_rules_In in Hr as [Hin Hsrc]. exact (Hnone r Hin Hsrc). }
  unfold Classifier.classify_transaction. rewrite E.
  destruct provider; reflexivity.
Qed.

Lemma classify_transaction_without_user_rule_witness :
  (forall r, In r (matched_rules db_auto_rule_only tx_starbucks) ->
             rule_source r <> "user") /\
  matched_rules db_auto_rule_only tx_starbucks = [rule_auto] /\
  Classifier.classify_transaction db_auto_rule_only OpenAI api_rent tx_starbucks =
    (Classifier.ai_result None (provider_answer api_rent tx_starbucks),
     [ChatCall tx_starbucks]).
Proof.
  assert (H : forall r, In r (matched_rules db_auto_rule_only tx_starbucks) ->
                        rule_source r <> "user").
  { intros r Hr. vm_compute in Hr. destruct Hr as [<-|[]]. discriminate. }
  split; [exact H|]. split; [vm_compute; reflexivity|].
  exact (classify_transaction_without_user_rule db_auto_rule_only OpenAI api_rent
           tx_starbucks H).
Defined.

Lemma one_by_one_log (api : Api) (txs : list TxDict) (c : ProviderCall) :
  In c (snd (OpenAIProvider._classify_one_by_one api txs)) ->
  exists tx, c = ChatCall tx /\ In tx txs.
Proof.
  cbn [OpenAIProvider._classify_one_by_one snd]. induction txs as [|tx txs IH].
  - intros [].
  - cbn. intros [<-|H]; [exists tx; auto|].
    destruct (IH H) as (tx' & -> & Hin). exists tx'. auto.
Qed.

Lemma one_by_one_log_length (api : Api) (txs : list TxDict) :
  length (snd (OpenAIProvider._classify_one_by_one api txs)) = length txs.
Proof.
  cbn [OpenAIProvider._classify_one_by_one snd].
  induction txs as [|tx txs IH]; [reflexivity|]. cbn. f_equal. exact IH.
Qed.

Lemma batch_classify_log (provider : Provider) (api : Api) (txs : list TxDict) :
  (forall c tx, In c (snd (BaseLLMProvider.batch_classify provider api txs)) ->
                In tx (sent c) -> In tx txs) /\
  length (snd (BaseLLMProvider.batch_classify provider api txs)) <= 1 + length txs.
Proof.
  assert (H1 : forall c tx,
            In c (snd (OpenAIProvider._classify_one_by_one api txs)) ->
            In tx (sent c) -> In tx txs).
  { intros c tx Hc Htx. apply one_by_one_log in Hc as (tx' & -> & Hin).
    destruct Htx as [<-|[]]. exact Hin. }
  assert (H2 := one_by_one_log_length api txs).
  assert (H3 : forall c tx,
            In c (BatchChatCall txs :: snd (OpenAIProvider._classify_one_by_one api txs)) ->
            In tx (sent c) -> In tx txs).
  { intros c tx [<-|Hc] Htx; [exact Htx | eapply H1; eassumption]. }
  destruct provider; cbn [BaseLLMProvider.batch_classify];
    try (split; [exact H1 | lia]);
    unfold OpenAIProvider.batch_classify;
    (destruct (Nat.leb (length txs) 10); [|split; [exact H1 | lia]]);
    (destruct (chat_batch api txs) as [e|rs];
       [destruct (OpenAIProvider._classify_one_by_one api txs) as [rs' log];
        cbn [snd] in *; split; [exact H3 | cbn [length]; lia]|]);
    (destruct (negb (Nat.eqb (length rs) (length txs)));
       [destruct (OpenAIProvider._classify_one_by_one api txs) as [rs' log];
        cbn [snd] in *; split; [exact H3 | cbn [length]; lia]|]);
    cbn [snd]; (split; [|cbn [length]; lia]);
    intros c tx [<-|[]] Htx; exact Htx.
Qed.

Lemma pending_In (d : DB) (txs : list TxDict) (tx : TxDict) :
  In tx (pending d txs) <-> In tx txs /\ Classifier.best_user_rule d tx = None.
Proof.
  unfold pending. rewrite filter_In.
  destruct (Classifier.best_user_rule d tx); split; intros [H1 H2]; split;
    congruence || assumption.
Qed.

(** X8. [classify_transactions] never sends to the provider a transaction that
    a user rule resolves: every transaction carried by a request is one of the
    input that no user rule resolves. When every transaction is resolved by a
    rule no request is sent at all, and otherwise at most one batch request
    and one request per unresolved transaction. *)
Theorem classify_transactions_requests (d : DB) (provider : Provider) (api : Api)
    (txs : list TxDict) :
  let log := snd (Classifier.classify_transactions d provider api txs) in
  (forall c tx, In c log -> In tx (sent c) ->
                In tx txs /\ Classifier.best_user_rule d tx = None) /\
  (pending d txs = [] -> log = []) /\
  length log <= 1 + length (pending d txs).
Proof.
  cbv zeta. unfold Classifier.classify_transactions.
  rewrite ai_transactions_pending.
  destruct (pending d txs) as [|tx0 rest] eqn:Hp.
  - cbn. repeat split; try tauto. lia.
  - rewrite <- Hp.
    destruct (batch_classify_log provider api (pending d txs)) as [Hsent Hlen].
    destruct (BaseLLMProvider.batch_classify provider api (pending d txs))
      as [ai log]. cbn [snd] in *.
    split; [|split; [rewrite Hp; discriminate | exact Hlen]].
    intros c tx Hc Htx. apply pending_In. eapply Hsent; eassumption.
Qed.

(** ** A new rule and the rules that answer *)

Lemma RuleRepository_create_inv (w : World) (name : string)
    (conditions : gmap string CondValue) (account : option string) (confidence : Q)
    (source : string) (rule : Rule) (w' : World) :
  RuleRepository.create name conditions account confidence source w = Ok (rule, w') ->
  rules (db w') = (rules (db w) ++ [rule])%list /\
  rule_name rule = name /\
  rule_conditions rule = conditions /\
  account = Some (rule_account rule) /\
  rule_confidence rule = confidence /\
  rule_source rule = source.
Proof.
  unfold RuleRepository.create, RuleRepository.insert. unfold_M. cbn beta iota.
  destruct account as [a|]; [|discriminate]. cbn.
  destruct (Py.mem _ _); [discriminate|].
  intros H. injection H as <- <-. cbn. repeat split.
Qed.

Lemma match_transaction_snoc (d d' : DB) (r : Rule) (peer item category : string) :
  rules d' = (rules d ++ [r])%list ->
  RuleRepository.match_transaction d' peer item category =
    (RuleRepository.match_transaction d peer item category ++
     (if Nat.ltb (length (rules d)) 100 &&
         RuleRepository.rule_matches (rule_conditions r) peer item category
      then [r] else []))%list.
Proof.
  intros E. unfold RuleRepository.match_transaction, RuleRepository.list_all, paginate.
  rewrite E, !drop_0, take_app, List.filter_app. f_equal.
  destruct (Nat.ltb (length (rules d)) 100) eqn:Hlt.
  - apply Nat.ltb_lt in Hlt.
    destruct (100 - length (rules d)) as [|n] eqn:Hn; [lia|].
    cbn. rewrite take_nil. destruct (RuleRepository.rule_matches _ _ _ _); reflexivity.
  - apply Nat.ltb_ge in Hlt.
    replace (100 - length (rules d)) with 0 by lia. reflexivity.
Qed.

Lemma user_rules_snoc (d d' : DB) (r : Rule) (tx : TxDict) :
  rules d' = (rules d ++ [r])%list ->
  Classifier.user_rules d' tx =
    (Classifier.user_rules d tx ++
     (if Nat.ltb (length (rules d)) 100 &&
         RuleRepository.rule_matches (rule_conditions r)
           (tx_get tx "peer") (tx_get tx "item") (tx_get tx "category") &&
         String.eqb (rule_source r) "user"
      then [r] else []))%list.
Proof.
  intros E. unfold Classifier.user_rules.
  rewrite (match_transaction_snoc d d' r _ _ _ E), List.filter_app. f_equal.
  destruct (Nat.ltb _ _ && RuleRepository.rule_matches _ _ _ _); cbn;
    [destruct (String.eqb _ _)|]; reflexivity.
Qed.

Lemma max_from_snoc {A} (gt : A -> A -> bool) (l : list A) (best x : A) :
  Py.max_from gt best (l ++ [x]) =
    if gt x (Py.max_from gt best l) then x else Py.max_from gt best l.
Proof.
  revert best. induction l as [|y l IH]; intros best; [reflexivity|].
  cbn. apply IH.
Qed.

(** X9. A rule generated from feedback never answers and never displaces a
    rule that answers: after [auto_generate_rule_from_feedback] the user rule
    that resolves a transaction, if any, is the one that resolved it before,
    so the first pass of [classify_transactions] gives the same results and
    leaves the same transactions to the provider. *)
Theorem auto_rule_never_resolves (w : World) (peer item category : string)
    (account : option string) (rule : Rule) (w' : World) :
  RuleEngine.auto_generate_rule_from_feedback peer item category account w =
    Ok (rule, w') ->
  In rule (rules (db w')) /\
  (forall tx, Classifier.best_user_rule (db w') tx = Classifier.best_user_rule (db w) tx) /\
  (forall txs, map (Classifier.first_pass (db w')) txs =
               map (Classifier.first_pass (db w)) txs) /\
  (forall txs, pending (db w') txs = pending (db w) txs).
Proof.
  intros H. unfold RuleEngine.auto_generate_rule_from_feedback, RuleEngine.create_rule in H.
  unfold mbind at 1, M_bind, bind, uuid4 in H. cbn beta iota in H.
  apply RuleRepository_create_inv in H as (E & _ & _ & _ & _ & Hsrc).
  cbn [db] in E.
  assert (Hbest : forall tx,
            Classifier.best_user_rule (db w') tx = Classifier.best_user_rule (db w) tx).
  { intros tx. unfold Classifier.best_user_rule.
    rewrite (user_rules_snoc (db w) (db w') rule tx E), Hsrc.
    rewrite andb_false_r, app_nil_r. reflexivity. }
  split; [rewrite E; apply in_or_app; right; left; reflexivity|].
  split; [exact Hbest|]. split.
  - intros txs. apply map_ext. intros tx. unfold Classifier.first_pass.
    rewrite Hbest. reflexivity.
  - intros txs. unfold pending. apply filter_ext. intros tx.
    rewrite Hbest. reflexivity.
Qed.

Lemma auto_rule_never_resolves_witness :
  exists rule w',
    RuleEngine.auto_generate_rule_from_feedback "Landlord" "Rent" "Housing"
      (Some "Expenses:Housing:Rent") w_three_rules = Ok (rule, w') /\
    RuleRepository.rule_matches (rule_conditions rule) "Landlord" "Rent" "Housing" = true /\
    Classifier.best_user_rule (db w') tx_rent = None.
Proof.
  eexists. eexists. split; [vm_compute; reflexivity|].
  split; [vm_compute; reflexivity|].
  refine (eq_trans
            (proj1 (proj2 (auto_rule_never_resolves w_three_rules "Landlord" "Rent"
                             "Housing" (Some "Expenses:Housing:Rent") _ _ _)) tx_rent) _).
  - vm_compute. reflexivity.
  - vm_compute. reflexivity.
Defined.

(** X10. A user rule created while fewer than 100 rules are stored answers
    every transaction on which its conditions hold and whose matched user
    rules all have a strictly lower confidence: [classify_transaction] then
    returns the new rule's account and confidence with source "rule" and
    sends nothing to the provider. *)
Theorem created_user_rule_answers (w : World) (name : string)
    (conditions : gmap string CondValue) (account : string) (confidence : Q)
    (tx : TxDict) (rule : Rule) (w' : World) :
  RuleEngine.create_rule name conditions (Some account) confidence "user" w =
    Ok (rule, w') ->
  length (rules (db w)) < 100 ->
  conditions_hold conditions (tx_get tx "peer") (tx_get tx "item") (tx_get tx "category") ->
  (forall r, In r (matched_rules (db w) tx) -> rule_source r = "user" ->
             (rule_confidence r < confidence)%Q) ->
  forall provider api,
    Classifier.classify_transaction (db w') provider api tx =
      ({| result_transaction := None;
          result_account := Some account;
          result_confidence := Some confidence;
          result_reasoning := Some ("Matched user rule: " ++ name);
          result_source := Some "rule" |}, []).
Proof.
  intros H Hlen Hcond Hlow provider api.
  apply RuleRepository_create_inv in H as (E & Hn & Hc & Ha & Hq & Hs).
  injection Ha as Ha.
  assert (Hbest : Classifier.best_user_rule (db w') tx = Some rule).
  { unfold Classifier.best_user_rule.
    rewrite (user_rules_snoc (db w) (db w') rule tx E), Hs, Hc.
    rewrite (proj2 (Nat.ltb_lt _ _) Hlen), (proj2 (rule_matches_spec _ _ _ _) Hcond).
    change (true && true && ("user" =? "user")%string) with true. cbv iota.
    destruct (Classifier.user_rules (db w) tx) as [|r0 l] eqn:Hl; [reflexivity|].
    cbn [app Py.max_by]. rewrite max_from_snoc.
    assert (Hin : In (Py.max_from
                        (fun a b => Py.float_gt (rule_confidence a) (rule_confidence b))
                        r0 l) (Classifier.user_rules (db w) tx)).
    { rewrite Hl. apply max_from_In. }
    apply user_rules_In in Hin as [Hin Hsrc].
    specialize (Hlow _ Hin Hsrc). rewrite <- Hq in Hlow.
    unfold Py.float_gt.
    destruct (Qle_bool (rule_confidence rule) _) eqn:Hle; [|reflexivity].
    apply Qle_bool_iff in Hle. exfalso. exact (Qlt_not_le _ _ Hlow Hle). }
  unfold Classifier.classify_transaction. rewrite Hbest.
  unfold Classifier.rule_result. rewrite Hn, Hq, <- Ha. reflexivity.
Qed.

Lemma created_user_rule_answers_witness :
  exists rule w',
    RuleEngine.create_rule "starbucks-latte"
      {["peer" := PatStr "Starbucks"; "item" := PatStr "Latte"]}
      (Some "Expenses:Food:Latte") (95 # 100) "user" w_three_rules = Ok (rule, w') /\
    Classifier.classify_transaction (db w') Ollama api_rent tx_starbucks =
      ({| result_transaction := None;
          result_account := Some "Expenses:Food:Latte";
          result_confidence := Some (95 # 100);
          result_reasoning := Some ("Matched user rule: " ++ "starbucks-latte");
          result_source := Some "rule" |}, []).
Proof.
  eexists. eexists. split; [vm_compute; reflexivity|].
  eapply (created_user_rule_answers w_three_rules "starbucks-latte"
           {["peer" := PatStr "Starbucks"; "item" := PatStr "Latte"]}
           "Expenses:Food:Latte" (95 # 100) tx_starbucks).
  - vm_compute. reflexivity.
  - cbn. lia.
  - apply rule_matches_spec. vm_compute. reflexivity.
  - intros r Hr Hs. vm_compute in Hr.
    destruct Hr as [<-|[<-|[<-|[]]]]; try discriminate; reflexivity.
Defined.

(** X11. Once 100 rules are stored, a rule created afterwards is stored but
    takes no part in matching: [match_transaction] returns for every
    transaction what it returned before the creation, and the user rule that
    resolves a transaction is unchanged, whatever the new rule's conditions,
    confidence and source are. *)
Theorem rule_created_after_100_is_ignored (w : World) (name : string)
    (conditions : gmap string CondValue) (account : option string) (confidence : Q)
    (source : string) (rule : Rule) (w' : World) :
  RuleEngine.create_rule name conditions account confidence source w = Ok (rule, w') ->
  100 <= length (rules (db w)) ->
  In rule (rules (db w')) /\
  (forall peer item category,
     RuleEngine.match_transaction (db w') peer item category =
     RuleEngine.match_transaction (db w) peer item category) /\
  (forall tx, Classifier.best_user_rule (db w') tx = Classifier.best_user_rule (db w) tx).
Proof.
  intros H Hlen.
  apply RuleRepository_create_inv in H as (E & _).
  assert (Hlt : Nat.ltb (length (rules (db w))) 100 = false)
    by (apply Nat.ltb_ge; exact Hlen).
  split; [rewrite E; apply in_or_app; right; left; reflexivity|]. split.
  - intros peer item category. unfold RuleEngine.match_transaction.
    rewrite (match_transaction_snoc (db w) (db w') rule _ _ _ E), Hlt.
    cbn [andb]. apply app_nil_r.
  - intros tx. unfold Classifier.best_user_rule.
    rewrite (user_rules_snoc (db w) (db w') rule tx E), Hlt.
    cbn [andb]. rewrite app_nil_r. reflexivity.
Qed.

Lemma rule_created_after_100_is_ignored_witness :
  exists w rule w',
    session_100_rules w_init = Ok (tt, w) /\
    RuleEngine.create_rule "coffee" {["peer" := PatStr "Star"]}
      (Some "Expenses:Food:Dining") 1 "user" w = Ok (rule, w') /\
    100 <= length (rules (db w)) /\
    conditions_hold (rule_conditions rule) "Starbucks Coffee" "Latte" "Food" /\
    RuleEngine.match_transaction (db w') "Starbucks Coffee" "Latte" "Food" =
    RuleEngine.match_transaction (db w) "Starbucks Coffee" "Latte" "Food".
Proof.
  eexists. eexists. eexists. split; [vm_compute; reflexivity|].
  split; [vm_compute; reflexivity|].
  assert (Hlen : 100 <= 100) by apply Nat.le_refl.
  split; [vm_compute; exact Hlen|].
  split; [apply rule_matches_spec; vm_compute; reflexivity|].
  refine (proj1 (proj2 (rule_created_after_100_is_ignored _ "coffee"
                          {["peer" := PatStr "Star"]} (Some "Expenses:Food:Dining") 1
                          "user" _ _ _ _)) "Starbucks Coffee" "Latte" "Food").
  - vm_compute. reflexivity.
  - vm_compute. exact Hlen.
Defined.

(** * Further properties of the feedback learner *)

(** ** Bounds of the statistics *)

Lemma count_le_length {A} (f : A -> bool) (l : list A) : Py.count f l <= length l.
Proof. unfold Py.count. apply List.filter_length_le. Qed.

Lemma count_snoc {A} (f : A -> bool) (l : list A) (x : A) :
  Py.count f (l ++ [x]) = Py.count f l + (if f x then 1 else 0).
Proof.
  unfold Py.count. rewrite List.filter_app, List.length_app. cbn.
  destruct (f x); reflexivity.
Qed.

Lemma counts_of_actions (l : list Feedback) :
  Py.count (fun f => String.eqb (feedback_action f) "accept") l +
  Py.count (fun f => String.eqb (feedback_action f) "reject") l +
  Py.count (fun f => String.eqb (feedback_action f) "modify") l +
  Py.count (fun f => negb (String.eqb (feedback_action f) "accept" ||
                           String.eqb (feedback_action f) "reject" ||
                           String.eqb (feedback_action f) "modify")) l =
  length l.
Proof.
  unfold Py.count. induction l as [|f l IH]; [reflexivity|]. cbn [List.filter].
  destruct (String.eqb (feedback_action f) "accept") eqn:Ea;
    destruct (String.eqb (feedback_action f) "reject") eqn:Er;
    destruct (String.eqb (feedback_action f) "modify") eqn:Em;
    try (apply String.eqb_eq in Ea); try (apply String.eqb_eq in Er);
    try (apply String.eqb_eq in Em); try congruence;
    cbn [orb negb length]; lia.
Qed.

Lemma truediv_bounds (a b : nat) :
  a <= b -> 0 < b -> (0 <= Py.truediv a b <= 1)%Q.
Proof.
  intros Hab Hb. unfold Py.truediv, Qle. cbn [Qnum Qden].
  assert (E : Z.pos (Pos.of_nat b) = Z.of_nat b).
  { rewrite <- positive_nat_Z, Nat2Pos.id by lia. reflexivity. }
  rewrite E. lia.
Qed.

(** X12. The statistics are those of at most 100 records: the total is at
    most 100 and at most the number of stored records, the three counts sum
    to the total less the records of the page whose action is none of
    "accept", "reject", "modify" (the action is free text), and both rates
    lie between 0 and 1. *)
Theorem get_statistics_bounds (d : DB) :
  let s := FeedbackHandler.get_statistics d in
  stat_total s <= 100 /\
  stat_total s <= length (feedbacks d) /\
  stat_accept s + stat_reject s + stat_modify s +
    Py.count (fun f => negb (String.eqb (feedback_action f) "accept" ||
                             String.eqb (feedback_action f) "reject" ||
                             String.eqb (feedback_action f) "modify"))
      (FeedbackRepository.list_all d 0 100) = stat_total s /\
  (0 <= stat_accept_rate s <= 1)%Q /\
  (0 <= stat_modify_rate s <= 1)%Q.
Proof.
  cbv zeta. unfold FeedbackHandler.get_statistics.
  cbn [stat_total stat_accept stat_reject stat_modify stat_accept_rate stat_modify_rate].
  set (page := FeedbackRepository.list_all d 0 100).
  assert (Hpage : length page <= 100 /\ length page <= length (feedbacks d)).
  { unfold page, FeedbackRepository.list_all, paginate.
    rewrite drop_0, length_take. lia. }
  split; [tauto|]. split; [tauto|]. split; [apply counts_of_actions|].
  destruct (Nat.ltb 0 (length page)) eqn:Hlt.
  - apply Nat.ltb_lt in Hlt.
    split; apply truediv_bounds; try exact Hlt; apply count_le_length.
  - split; split; apply Qle_bool_iff; reflexivity.
Qed.

(** ** Recording feedback and the statistics *)

Lemma update_account_feedbacks (cid account : string) (w : World) (b : bool) (w' : World) :
  ClassificationRepository.update_account cid account w = Ok (b, w') ->
  feedbacks (db w') = feedbacks (db w).
Proof.
  unfold ClassificationRepository.update_account. unfold_M. cbn beta.
  destruct (ClassificationRepository.update_first cid account (classifications (db w)))
    as [rows found].
  destruct found; intros H; injection H as <- <-; reflexivity.
Qed.

Lemma feedback_create_inv (tid action : string) (original corrected : option string)
    (w : World) (f : Feedback) (w' : World) :
  FeedbackRepository.create tid action original corrected w = Ok (f, w') ->
  feedbacks (db w') = (feedbacks (db w) ++ [f])%list /\
  feedback_transaction_id f = tid /\
  feedback_action f = action /\
  feedback_original_account f = original /\
  feedback_corrected_account f = corrected.
Proof.
  unfold FeedbackRepository.create, FeedbackRepository.insert. unfold_M. cbn.
  destruct (Py.mem _ _); [discriminate|].
  intros H. injection H as <- <-. cbn. repeat split.
Qed.

Lemma record_feedback_inv (tid : string) (original corrected : option string)
    (action : string) (w : World) (f : Feedback) (w' : World) :
  FeedbackHandler.record_feedback tid original corrected action w = Ok (f, w') ->
  feedbacks (db w') = (feedbacks (db w) ++ [f])%list /\
  feedback_transaction_id f = tid /\
  feedback_action f = action /\
  feedback_original_account f = original /\
  feedback_corrected_account f = corrected.
Proof.
  unfold FeedbackHandler.record_feedback.
  unfold mbind at 1, M_bind, bind.
  destruct (FeedbackRepository.create tid action original corrected w)
    as [[f0 w0]|e] eqn:Hc; [|discriminate].
  apply feedback_create_inv in Hc as (E & Hrest).
  unfold mbind at 1, M_bind, bind.
  destruct (String.eqb action "modify" && Py.truthy_opt corrected).
  - unfold mbind at 1, M_bind, bind, get_db.
    destruct (FeedbackHandler.latest _) as [c|].
    + unfold mbind at 1, M_bind, bind.
      destruct (ClassificationRepository.update_account _ _ w0) as [[b w1]|e] eqn:Hu;
        [|discriminate].
      apply update_account_feedbacks in Hu.
      unfold mret, M_ret, ret. intros H. injection H as <- <-.
      rewrite Hu. split; [exact E | exact Hrest].
    + unfold mret, M_ret, ret. intros H. injection H as <- <-.
      split; [exact E | exact Hrest].
  - unfold mret, M_ret, ret. intros H. injection H as <- <-.
    split; [exact E | exact Hrest].
Qed.

(** X13. Recording a feedback and the statistics: while fewer than 100
    records are stored, a successful [record_feedback] raises the total by
    one and the count of its action by one (no count when the action is none
    of the three) and leaves the other counts; once 100 records are stored,
    recording feedback no longer changes the statistics. *)
Theorem record_feedback_statistics (w : World) (tid : string)
    (original corrected : option string) (action : string) (f : Feedback) (w' : World) :
  FeedbackHandler.record_feedback tid original corrected action w = Ok (f, w') ->
  let s := FeedbackHandler.get_statistics (db w) in
  let s' := FeedbackHandler.get_statistics (db w') in
  (length (feedbacks (db w)) < 100 ->
     stat_total s' = S (stat_total s) /\
     stat_accept s' = stat_accept s + (if String.eqb action "accept" then 1 else 0) /\
     stat_reject s' = stat_reject s + (if String.eqb action "reject" then 1 else 0) /\
     stat_modify s' = stat_modify s + (if String.eqb action "modify" then 1 else 0)) /\
  (100 <= length (feedbacks (db w)) -> s' = s).
Proof.
  intros H. apply record_feedback_inv in H as (E & _ & Ha & _).
  cbv zeta. unfold FeedbackHandler.get_statistics, FeedbackRepository.list_all, paginate.
  rewrite !drop_0, E, take_app. split.
  - intros Hlt.
    cbn [stat_total stat_accept stat_reject stat_modify].
    destruct (100 - length (feedbacks (db w))) as [|n] eqn:Hn; [lia|].
    cbn [take]. rewrite take_nil, !count_snoc, Ha, List.length_app. cbn [length].
    repeat split; lia.
  - intros Hge. replace (100 - length (feedbacks (db w))) with 0 by lia.
    cbn [take]. rewrite app_nil_r. reflexivity.
Qed.

Lemma record_feedback_statistics_witness :
  exists f w',
    FeedbackHandler.record_feedback "t1" (Some "Expenses:Misc")
      (Some "Expenses:Food:Coffee") "modify" w_one_transaction = Ok (f, w') /\
    stat_total (FeedbackHandler.get_statistics (db w')) = 1 /\
    stat_modify (FeedbackHandler.get_statistics (db w')) = 1.
Proof.
  eexists. eexists. split; [vm_compute; reflexivity|].
  refine (let H := record_feedback_statistics w_one_transaction "t1"
                     (Some "Expenses:Misc") (Some "Expenses:Food:Coffee") "modify"
                     _ _ _ in _).
  Unshelve.
  4: { vm_compute. reflexivity. }
  destruct H as [H _].
  destruct H as (Ht & _ & _ & Hm); [cbn; lia|].
  split; [exact Ht | exact Hm].
Defined.

(** * The mapping exported to double-entry-generator *)

Lemma mapping_get_set (k a key : string) (m : list (string * string)) :
  mapping_get key (RuleEngine.mapping_set k a m) =
  if String.eqb k key then Some a else mapping_get key m.
Proof.
  unfold mapping_get. induction m as [|[k0 a0] rest IH].
  - cbn. destruct (String.eqb k key); reflexivity.
  - cbn [RuleEngine.mapping_set]. destruct (String.eqb k0 k) eqn:E0.
    + apply String.eqb_eq in E0. subst k0. cbn.
      destruct (String.eqb k key); reflexivity.
    + cbn [List.find fst]. destruct (String.eqb k0 key) eqn:E1.
      * apply String.eqb_eq in E1. subst k0.
        rewrite String.eqb_sym, E0. reflexivity.
      * exact IH.
Qed.

Lemma mapping_keys_set (k a : string) (m : list (string * string)) :
  map fst (RuleEngine.mapping_set k a m) =
  if Py.mem k (map fst m) then map fst m else (map fst m ++ [k])%list.
Proof.
  induction m as [|[k0 a0] rest IH]; [reflexivity|].
  cbn [RuleEngine.mapping_set map fst Py.mem existsb].
  rewrite (String.eqb_sym k k0).
  destruct (String.eqb k0 k); [reflexivity|].
  cbn [map fst orb]. rewrite IH.
  change (existsb (String.eqb k) (map fst rest)) with (Py.mem k (map fst rest)).
  destruct (Py.mem k (map fst rest)); reflexivity.
Qed.

Lemma mapping_set_NoDup (k a : string) (m : list (string * string)) :
  NoDup (map fst m) -> NoDup (map fst (RuleEngine.mapping_set k a m)).
Proof.
  intros Hnd. rewrite mapping_keys_set.
  destruct (Py.mem k (map fst m)) eqn:E; [exact Hnd|].
  apply NoDup_app. split; [exact Hnd|]. split; [|apply NoDup_singleton].
  intros x Hx Hx'. apply list_elem_of_singleton in Hx'. subst x.
  apply not_true_iff_false in E. apply E, mem_In.
  apply list_elem_of_In in Hx. exact Hx.
Qed.

Lemma mapping_set_all (a key : string) (ks : list string) (m : list (string * string)) :
  NoDup (map fst m) ->
  NoDup (map fst (fold_left (fun m k => RuleEngine.mapping_set k a m) ks m)) /\
  mapping_get key (fold_left (fun m k => RuleEngine.mapping_set k a m) ks m) =
    if Py.mem key ks then Some a else mapping_get key m.
Proof.
  revert m. induction ks as [|k ks IH]; intros m Hnd; cbn [fold_left].
  - split; [exact Hnd | reflexivity].
  - destruct (IH (RuleEngine.mapping_set k a m) (mapping_set_NoDup k a m Hnd))
      as [Hnd' Hget].
    split; [exact Hnd'|]. rewrite Hget, mapping_get_set.
    cbn [Py.mem existsb]. change (existsb (String.eqb key) ks) with (Py.mem key ks).
    rewrite (String.eqb_sym key k).
    destruct (Py.mem key ks); [rewrite orb_true_r; reflexivity|].
    rewrite orb_false_r. reflexivity.
Qed.

Lemma mem_app (x : string) (l1 l2 : list string) :
  Py.mem x (l1 ++ l2) = Py.mem x l1 || Py.mem x l2.
Proof. unfold Py.mem. apply existsb_app. Qed.

Lemma export_step (r : Rule) (m : list (string * string)) :
  match rule_conditions r !! "item" with
  | Some item_conditions =>
      fold_left (fun m item => RuleEngine.mapping_set item (rule_account r) m)
        (patterns item_conditions)
        match rule_conditions r !! "peer" with
        | Some peer_conditions =>
            fold_left (fun m peer => RuleEngine.mapping_set peer (rule_account r) m)
              (patterns peer_conditions) m
        | None => m
        end
  | None =>
      match rule_conditions r !! "peer" with
      | Some peer_conditions =>
          fold_left (fun m peer => RuleEngine.mapping_set peer (rule_account r) m)
            (patterns peer_conditions) m
      | None => m
      end
  end =
  fold_left (fun m k => RuleEngine.mapping_set k (rule_account r) m) (exported_keys r) m.
Proof.
  unfold exported_keys. rewrite fold_left_app.
  destruct (rule_conditions r !! "peer"); destruct (rule_conditions r !! "item");
    reflexivity.
Qed.

Lemma export_fold (page : list Rule) (m : list (string * string)) (key : string) :
  NoDup (map fst m) ->
  let mapping :=
    fold_left
      (fun mapping rule =>
         fold_left (fun m k => RuleEngine.mapping_set k (rule_account rule) m)
           (exported_keys rule) mapping) page m in
  NoDup (map fst mapping) /\
  mapping_get key mapping =
    match List.find (fun r => Py.mem key (exported_keys r)) (rev page) with
    | Some r => Some (rule_account r)
    | None => mapping_get key m
    end.
Proof.
  revert m. induction page as [|r page IH]; intros m Hnd; cbv zeta; cbn [fold_left].
  - split; [exact Hnd | reflexivity].
  - destruct (mapping_set_all (rule_account r) key (exported_keys r) m Hnd)
      as [Hnd1 Hget1].
    destruct (IH _ Hnd1) as [Hnd2 Hget2]. cbv zeta in Hget2.
    split; [exact Hnd2|]. rewrite Hget2. cbn [rev]. rewrite find_append.
    destruct (List.find _ (rev page)); [reflexivity|].
    cbn [List.find]. rewrite Hget1.
    destruct (Py.mem key (exported_keys r)); reflexivity.
Qed.

(** X14. The mapping handed to [yaml.dump] by [export_rules_to_deg_format]
    has one entry per distinct peer or item pattern of the first 100 rules
    (no key twice), and the account of an entry is the account of the last
    of these rules that has the pattern: a later rule overwrites an earlier
    one, a pattern of no such rule has no entry. Category conditions,
    confidence and source play no part, and rules after the 100th are not
    exported. *)
Theorem export_mapping_spec (d : DB) :
  NoDup (map fst (RuleEngine.export_mapping d)) /\
  forall key,
    mapping_get key (RuleEngine.export_mapping d) =
    option_map rule_account
      (List.find (fun r => Py.mem key (exported_keys r))
         (rev (RuleRepository.list_all d 0 100))).
Proof.
  assert (E : RuleEngine.export_mapping d =
              fold_left
                (fun mapping rule =>
                   fold_left (fun m k => RuleEngine.mapping_set k (rule_account rule) m)
                     (exported_keys rule) mapping)
                (RuleRepository.list_all d 0 100) []).
  { unfold RuleEngine.export_mapping.
    generalize (@nil (string * string)).
    induction (RuleRepository.list_all d 0 100) as [|r page IH]; intros m;
      [reflexivity|].
    cbn [fold_left]. cbv zeta. rewrite export_step. apply IH. }
  rewrite E. split.
  - apply (export_fold _ [] "" (NoDup_nil_2)).
  - intros key. destruct (export_fold (RuleRepository.list_all d 0 100) [] key
                            NoDup_nil_2) as [_ H].
    cbv zeta in H. rewrite H.
    destruct (List.find _ (rev _)); reflexivity.
Qed.

(** * Rule generation from feedback: what is generated, and from what *)

Lemma bind_Ok {A B} (m : M A) (k : A -> M B) (w : World) (b : B) (w' : World) :
  (x ← m; k x) w = Ok (b, w') ->
  exists a w1, m w = Ok (a, w1) /\ k a w1 = Ok (b, w').
Proof.
  unfold mbind, M_bind, bind. destruct (m w) as [[a w1]|e]; [eauto | discriminate].
Qed.

Lemma RuleRepository_create_frame (w : World) (name : string)
    (conditions : gmap string CondValue) (account : option string) (confidence : Q)
    (source : string) (rule : Rule) (w' : World) :
  RuleRepository.create name conditions account confidence source w = Ok (rule, w') ->
  transactions (db w') = transactions (db w) /\
  classifications (db w') = classifications (db w) /\
  feedbacks (db w') = feedbacks (db w).
Proof.
  unfold RuleRepository.create, RuleRepository.insert. unfold_M. cbn beta iota.
  destruct account as [a|]; [|discriminate]. cbn.
  destruct (Py.mem _ _); [discriminate|].
  intros H. injection H as <- <-. cbn. repeat split.
Qed.

Lemma auto_generate_inv (peer item category : string) (account : option string)
    (w : World) (rule : Rule) (w' : World) :
  RuleEngine.auto_generate_rule_from_feedback peer item category account w =
    Ok (rule, w') ->
  rules (db w') = (rules (db w) ++ [rule])%list /\
  transactions (db w') = transactions (db w) /\
  classifications (db w') = classifications (db w) /\
  feedbacks (db w') = feedbacks (db w) /\
  account = Some (rule_account rule) /\
  rule_source rule = "auto" /\
  rule_confidence rule = 9 # 10 /\
  rule_conditions rule = RuleEngine.build_conditions peer item category.
Proof.
  intros H. unfold RuleEngine.auto_generate_rule_from_feedback, RuleEngine.create_rule in H.
  apply bind_Ok in H as (u & w1 & Hu & H).
  unfold uuid4 in Hu. injection Hu as <- <-.
  pose proof (RuleRepository_create_frame _ _ _ _ _ _ _ _ H) as (F1 & F2 & F3).
  apply RuleRepository_create_inv in H as (E & _ & Hc & Ha & Hq & Hs).
  cbn [db] in *. repeat split; assumption.
Qed.

Lemma generate_for_group_inv (min_confidence : Z) (items : list PatternItem)
    (w : World) (out : list Rule) (w' : World) :
  items <> [] ->
  FeedbackHandler.generate_for_group min_confidence items w = Ok (out, w') ->
  group_outcome min_confidence items out /\
  rules (db w') = (rules (db w) ++ out)%list /\
  transactions (db w') = transactions (db w) /\
  classifications (db w') = classifications (db w) /\
  feedbacks (db w') = feedbacks (db w).
Proof.
  intros Hne. unfold FeedbackHandler.generate_for_group.
  destruct (Z.of_nat (length items) >=? min_confidence)%Z eqn:Hlen.
  2:{ intros H. injection H as <- <-. rewrite app_nil_r. repeat split.
      left. split; [reflexivity|]. intros [Hmin _].
      rewrite Z.geb_leb in Hlen. apply Z.leb_gt in Hlen. lia. }
  rewrite Z.geb_leb in Hlen. apply Z.leb_le in Hlen.
  destruct (Nat.eqb (size (FeedbackHandler.accounts_of items)) 1) eqn:Hsize.
  2:{ intros H. injection H as <- <-. rewrite app_nil_r. repeat split.
      left. split; [reflexivity|]. intros [_ [a Hag]].
      rewrite (accounts_agree a items Hne Hag), size_singleton in Hsize. discriminate. }
  apply Nat.eqb_eq in Hsize.
  destruct (size_1_elem_of _ Hsize) as [x Hx]. apply leibniz_equiv in Hx.
  assert (Hag : agree_on x items).
  { intros i Hi.
    assert (Hin : item_corrected_account i ∈ FeedbackHandler.accounts_of items).
    { unfold FeedbackHandler.accounts_of.
      apply elem_of_list_to_set, list_elem_of_In, in_map. exact Hi. }
    rewrite Hx in Hin. apply elem_of_singleton in Hin. exact Hin. }
  rewrite Hx, elements_singleton.
  destruct items as [|first rest]; [congruence|].
  intros H. apply bind_Ok in H as (rule & w1 & Hrun & H).
  unfold mret, M_ret, ret in H. injection H as <- <-.
  apply auto_generate_inv in Hrun as (E & F1 & F2 & F3 & Ha & Hs & Hq & Hc).
  subst x. repeat split; try assumption.
  right. exists rule, first, rest. repeat split; assumption.
Qed.

Lemma mapM_generate (min_confidence : Z) (groups : list (string * list PatternItem)) :
  Forall (fun kv => snd kv <> []) groups ->
  forall (w : World) (outs : list (list Rule)) (w' : World),
    mapM (fun kv => FeedbackHandler.generate_for_group min_confidence (snd kv))
      groups w = Ok (outs, w') ->
    Forall2 (fun kv out => group_outcome min_confidence (snd kv) out) groups outs /\
    rules (db w') = (rules (db w) ++ concat outs)%list /\
    transactions (db w') = transactions (db w) /\
    classifications (db w') = classifications (db w) /\
    feedbacks (db w') = feedbacks (db w).
Proof.
  induction 1 as [|kv groups Hkv Hrest IH]; intros w outs w' H; cbn [mapM] in H.
  - unfold ret in H. injection H as <- <-. cbn [concat]. rewrite app_nil_r.
    repeat split. constructor.
  - apply bind_Ok in H as (out & w1 & Hout & H).
    apply bind_Ok in H as (outs' & w2 & Houts & H).
    unfold mret, M_ret, ret in H. injection H as <- <-.
    apply (generate_for_group_inv _ _ _ _ _ Hkv) in Hout as (Ho & E1 & T1 & C1 & F1).
    apply IH in Houts as (Hos & E2 & T2 & C2 & F2).
    split; [constructor; assumption|].
    cbn [concat]. rewrite E2, E1, <- app_assoc, T2, T1, C2, C1, F2, F1.
    repeat split.
Qed.

Lemma examined_groups_nonempty (d : DB) :
  Forall (fun kv => snd kv <> []) (examined_groups d).
Proof.
  apply Forall_forall. intros [k items] Hin.
  apply list_elem_of_In in Hin.
  apply (proj2 (group_feedback_spec d _)) in Hin as [_ Hne]. exact Hne.
Qed.

Lemma Forall2_concat_In {A B} (P : A -> list B -> Prop) (xs : list A)
    (outs : list (list B)) (b : B) :
  Forall2 P xs outs -> In b (concat outs) ->
  exists x out, In x xs /\ P x out /\ In b out.
Proof.
  induction 1 as [|x out xs outs HP Hrest IH]; cbn [concat]; [intros []|].
  intros Hin. apply in_app_or in Hin as [Hin|Hin].
  - exists x, out. split; [left; reflexivity | auto].
  - destruct (IH Hin) as (x' & out' & Hx & HP' & Hb).
    exists x', out'. split; [right; exact Hx | auto].
Qed.

Lemma Forall2_In_l {A B} (P : A -> list B -> Prop) (xs : list A)
    (outs : list (list B)) (x : A) :
  Forall2 P xs outs -> In x xs ->
  exists out, P x out /\ forall b, In b out -> In b (concat outs).
Proof.
  induction 1 as [|x0 out xs outs HP Hrest IH]; [intros []|].
  cbn [concat]. intros [->|Hin].
  - exists out. split; [exact HP|]. intros b Hb. apply in_or_app. left. exact Hb.
  - destruct (IH Hin) as (out' & HP' & Hsub). exists out'. split; [exact HP'|].
    intros b Hb. apply in_or_app. right. apply Hsub, Hb.
Qed.

(** X15. Whenever [analyze_feedback_and_generate_rules] returns, the rules it
    returns are exactly what it appended to the rule table, and no other
    table changed; every returned rule has source "auto", confidence 0.9 and
    comes from a group of corrections, among those of the examined page of
    feedback, that has at least [min_confidence] items all corrected to the
    rule's account, with the conditions built from the first item of the
    group; and every such group has its rule among the returned ones. *)
Theorem analyze_feedback_generates (min_confidence : Z) (w : World)
    (out : list Rule) (w' : World) :
  FeedbackHandler.analyze_feedback_and_generate_rules min_confidence w = Ok (out, w') ->
  rules (db w') = (rules (db w) ++ out)%list /\
  transactions (db w') = transactions (db w) /\
  classifications (db w') = classifications (db w) /\
  feedbacks (db w') = feedbacks (db w) /\
  (forall rule, In rule out ->
     rule_source rule = "auto" /\
     rule_confidence rule = 9 # 10 /\
     exists k first rest,
       In (k, first :: rest) (examined_groups (db w)) /\
       (min_confidence <= Z.of_nat (length (first :: rest)))%Z /\
       agree_on (Some (rule_account rule)) (first :: rest) /\
       rule_conditions rule =
         RuleEngine.build_conditions (item_peer first) (item_item first)
           (item_category first)) /\
  (forall k first rest a,
     In (k, first :: rest) (examined_groups (db w)) ->
     (min_confidence <= Z.of_nat (length (first :: rest)))%Z ->
     agree_on a (first :: rest) ->
     exists rule,
       In rule out /\
       a = Some (rule_account rule) /\
       rule_conditions rule =
         RuleEngine.build_conditions (item_peer first) (item_item first)
           (item_category first)).
Proof.
  intros H. unfold FeedbackHandler.analyze_feedback_and_generate_rules in H.
  apply bind_Ok in H as (d & w0 & Hd & H).
  unfold get_db in Hd. injection Hd as <- <-.
  apply bind_Ok in H as (outs & w1 & Hmap & H).
  unfold mret, M_ret, ret in H. injection H as <- <-.
  change (FeedbackHandler.group_feedback (db w) _) with (examined_groups (db w)) in Hmap.
  apply (mapM_generate _ _ (examined_groups_nonempty (db w))) in Hmap
    as (Hall & E & T & C & F).
  split; [exact E|]. split; [exact T|]. split; [exact C|]. split; [exact F|]. split.
  - intros rule Hin.
    destruct (Forall2_concat_In _ _ _ _ Hall Hin) as ([k items] & o & Hk & Ho & Hb).
    cbn [snd] in Ho. destruct Ho as [[-> _]|Ho]; [destruct Hb|].
    destruct Ho as (rule' & first & rest & -> & -> & Hmin & Hag & Hs & Hq & Hc).
    destruct Hb as [<-|[]].
    split; [exact Hs|]. split; [exact Hq|].
    exists k, first, rest. auto.
  - intros k first rest a Hk Hmin Hag.
    destruct (Forall2_In_l _ _ _ _ Hall Hk) as (o & Ho & Hsub).
    cbn [snd] in Ho. destruct Ho as [[_ Hno]|Ho]; [exfalso; apply Hno; eauto|].
    destruct Ho as (rule & first' & rest' & Heq & -> & _ & Hag' & _ & _ & Hc).
    injection Heq as <- <-.
    exists rule. split; [apply Hsub; left; reflexivity|]. split; [|exact Hc].
    rewrite <- (Hag first (or_introl eq_refl)). apply Hag'. left. reflexivity.
Qed.

Lemma analyze_feedback_generates_witness :
  exists w out w',
    repeatM 3 (modify_t1 "Expenses:Food:Coffee") w_one_transaction = Ok (tt, w) /\
    FeedbackHandler.analyze_feedback_and_generate_rules 3 w = Ok (out, w') /\
    length out = 1 /\
    rules (db w') = (rules (db w) ++ out)%list.
Proof.
  eexists. eexists. eexists. split; [vm_compute; reflexivity|].
  split; [vm_compute; reflexivity|].
  split; [vm_compute; reflexivity|].
  refine (proj1 (analyze_feedback_generates 3 _ _ _ _)).
  vm_compute. reflexivity.
Defined.

(** * The route that classifies and persists *)

Lemma classification_create_inv (tid account : string) (confidence : Q)
    (source reasoning : string) (w : World) (row : Classification) (w' : World) :
  ClassificationRepository.create tid account confidence source reasoning w =
    Ok (row, w') ->
  classifications (db w') = (classifications (db w) ++ [row])%list /\
  transactions (db w') = transactions (db w) /\
  feedbacks (db w') = feedbacks (db w) /\
  rules (db w') = rules (db w) /\
  classification_transaction_id row = tid /\
  classification_account row = account /\
  classification_confidence row = confidence /\
  classification_source row = source /\
  classification_reasoning row = reasoning.
Proof.
  unfold ClassificationRepository.create, ClassificationRepository.insert. unfold_M. cbn.
  destruct (Py.mem _ _); [discriminate|].
  intros H. injection H as <- <-. cbn. repeat split.
Qed.

Lemma persist_result_inv (r : ResultDict) (w : World) (resp : ClassificationResult)
    (w' : World) :
  ClassifyRoute.persist_result r w = Ok (resp, w') ->
  exists row,
    persisted r row resp /\
    classifications (db w') = (classifications (db w) ++ [row])%list /\
    transactions (db w') = transactions (db w) /\
    feedbacks (db w') = feedbacks (db w) /\
    rules (db w') = rules (db w).
Proof.
  unfold ClassifyRoute.persist_result.
  destruct (result_transaction r) as [tx|] eqn:Ht; [|discriminate].
  destruct (result_account r) as [a|] eqn:Ha; [|discriminate].
  destruct (result_confidence r) as [q|] eqn:Hq; [|discriminate].
  destruct (result_reasoning r) as [re|] eqn:Hr; [|discriminate].
  destruct (result_source r) as [s|] eqn:Hs; [|discriminate].
  intros H. apply bind_Ok in H as (row & w1 & Hc & H).
  unfold mret, M_ret, ret in H. injection H as <- <-.
  apply classification_create_inv in Hc
    as (E & T & F & R & Htid & Hacc & Hconf & Hsrc & Hreas).
  exists row. split; [|auto].
  unfold persisted. rewrite Ht, Ha, Hq, Hr, Hs, Htid, Hacc, Hconf, Hsrc, Hreas.
  repeat split. exists tx. split; reflexivity.
Qed.

Lemma mapM_persist (results : list ResultDict) :
  forall (w : World) (out : list ClassificationResult) (w' : World),
    mapM ClassifyRoute.persist_result results w = Ok (out, w') ->
    exists rows,
      classifications (db w') = (classifications (db w) ++ rows)%list /\
      transactions (db w') = transactions (db w) /\
      feedbacks (db w') = feedbacks (db w) /\
      rules (db w') = rules (db w) /\
      length rows = length results /\
      length out = length results /\
      forall i r, results !! i = Some r ->
        exists row resp,
          rows !! i = Some row /\ out !! i = Some resp /\ persisted r row resp.
Proof.
  induction results as [|r results IH]; intros w out w' H; cbn [mapM] in H.
  - unfold ret in H. injection H as <- <-. exists []. rewrite app_nil_r.
    repeat split. intros i r Hi. rewrite lookup_nil in Hi. discriminate.
  - apply bind_Ok in H as (resp & w1 & Hp & H).
    apply bind_Ok in H as (out' & w2 & Hm & H).
    unfold mret, M_ret, ret in H. injection H as <- <-.
    apply persist_result_inv in Hp as (row & Hrow & E1 & T1 & F1 & R1).
    apply IH in Hm as (rows & E2 & T2 & F2 & R2 & Hl & Hlo & Hpos).
    exists (row :: rows).
    rewrite E2, E1, <- app_assoc, T2, T1, F2, F1, R2, R1. cbn [length].
    repeat split; try congruence.
    intros [|i] r0 Hi; cbn in Hi.
    + injection Hi as <-. exists row, resp.
      split; [reflexivity|]. split; [reflexivity | exact Hrow].
    + apply Hpos. exact Hi.
Qed.

(** X16. Whenever [POST /classify] answers, it has appended to the table of
    classifications one row per transaction of the request, in the order of
    the request, and changed nothing else: row i is stored under the "id" of
    transaction i (the empty string when the transaction has none) with the
    account, confidence, source and reasoning of result i of
    [classify_transactions], and entry i of the response repeats them. *)
Theorem classify_route_persists (provider : Provider) (api : Api) (txs : list TxDict)
    (w : World) (out : list ClassificationResult) (log : list ProviderCall)
    (w' : World) :
  ClassifyRoute.classify_transactions provider api txs w = Ok ((out, log), w') ->
  exists results rows,
    Classifier.classify_transactions (db w) provider api txs = (Ok results, log) /\
    classifications (db w') = (classifications (db w) ++ rows)%list /\
    transactions (db w') = transactions (db w) /\
    feedbacks (db w') = feedbacks (db w) /\
    rules (db w') = rules (db w) /\
    length rows = length txs /\
    length out = length txs /\
    forall i tx, txs !! i = Some tx ->
      exists r row resp,
        results !! i = Some r /\ rows !! i = Some row /\ out !! i = Some resp /\
        classification_transaction_id row = tx_get tx "id" /\
        persisted r row resp.
Proof.
  intros H. unfold ClassifyRoute.classify_transactions in H.
  apply bind_Ok in H as (d & w0 & Hd & H).
  unfold get_db in Hd. injection Hd as <- <-.
  destruct (classify_transactions_positions (db w) provider api txs)
    as (results & Hrun & Hlen & Hpos).
  destruct (Classifier.classify_transactions (db w) provider api txs)
    as [res log'] eqn:Hc.
  cbn [fst] in Hrun. subst res.
  apply bind_Ok in H as (out' & w1 & Hm & H).
  unfold mret, M_ret, ret in H. injection H as <- <- <-.
  apply mapM_persist in Hm as (rows & E & T & F & R & Hl & Hlo & Hrows).
  exists results, rows. split; [reflexivity|].
  repeat (split; [congruence|]).
  intros i tx Hi. specialize (Hpos i tx Hi).
  assert (Hr : exists r, results !! i = Some r /\ result_transaction r = Some tx).
  { destruct (Classifier.best_user_rule (db w) tx).
    - eexists. split; [exact Hpos | reflexivity].
    - destruct Hpos as (a & _ & Hr). eexists. split; [exact Hr | reflexivity]. }
  destruct Hr as (r & Hr & Htx).
  destruct (Hrows i r Hr) as (row & resp & Hrow & Hresp & Hp).
  exists r, row, resp. repeat (split; [assumption|]). split; [|exact Hp].
  destruct Hp as [(tx' & Htx' & Hid) _]. congruence.
Qed.

Lemma classify_route_persists_witness :
  exists out log w',
    ClassifyRoute.classify_transactions Ollama api_rent [tx_starbucks; tx_rent]
      w_three_rules = Ok ((out, log), w') /\
    map classification_transaction_id (classifications (db w')) = ["t1"; "t3"] /\
    map classification_source (classifications (db w')) = ["rule"; "ai"] /\
    length out = 2.
Proof.
  eexists. eexists. eexists. split; [vm_compute; reflexivity|].
  split; [vm_compute; reflexivity|]. split; [vm_compute; reflexivity|].
  refine (let H := classify_route_persists Ollama api_rent [tx_starbucks; tx_rent]
                     w_three_rules _ _ _ _ in _).
  Unshelve.
  5: { vm_compute. reflexivity. }
  destruct H as (results & rows & _ & _ & _ & _ & _ & _ & Hlen & _). exact Hlen.
Defined.

(** * The learner and the rules that answer *)

Lemma user_rules_app (d d' : DB) (out : list Rule) (tx : TxDict) :
  rules d' = (rules d ++ out)%list ->
  (forall r, In r out -> rule_source r = "auto") ->
  Classifier.user_rules d' tx = Classifier.user_rules d tx.
Proof.
  intros E Hauto.
  unfold Classifier.user_rules, RuleRepository.match_transaction,
    RuleRepository.list_all, paginate.
  rewrite E, !drop_0, take_app, !List.filter_app.
  rewrite <- (app_nil_r (List.filter _ (List.filter _ (take 100 (rules d))))) at 2.
  f_equal.
  assert (Hsub : forall r, In r (take (100 - length (rules d)) out) -> In r out).
  { intros r Hr. rewrite <- (take_drop (100 - length (rules d)) out).
    apply in_or_app. left. exact Hr. }
  induction (take (100 - length (rules d)) out) as [|r l IH]; [reflexivity|].
  cbn [List.filter].
  destruct (RuleRepository.rule_matches _ _ _ _).
  - cbn [List.filter]. rewrite (Hauto r) by (apply Hsub; left; reflexivity).
    change ("auto" =? "user")%string with false. cbv iota.
    apply IH. intros r' Hr'. apply Hsub. right. exact Hr'.
  - apply IH. intros r' Hr'. apply Hsub. right. exact Hr'.
Qed.

(** X17. Rule generation from feedback never changes which rule answers a
    transaction: whenever [analyze_feedback_and_generate_rules] returns, the
    user rule that resolves a transaction, if any, is the one that resolved
    it before, and the transactions left to the provider are the same,
    however many rules were generated. *)
Theorem analyze_feedback_never_changes_resolution (min_confidence : Z) (w : World)
    (out : list Rule) (w' : World) :
  FeedbackHandler.analyze_feedback_and_generate_rules min_confidence w = Ok (out, w') ->
  (forall tx, Classifier.best_user_rule (db w') tx = Classifier.best_user_rule (db w) tx) /\
  (forall txs, pending (db w') txs = pending (db w) txs).
Proof.
  intros H. unfold FeedbackHandler.analyze_feedback_and_generate_rules in H.
  apply bind_Ok in H as (d & w0 & Hd & H).
  unfold get_db in Hd. injection Hd as <- <-.
  apply bind_Ok in H as (outs & w1 & Hmap & H).
  unfold mret, M_ret, ret in H. injection H as <- <-.
  change (FeedbackHandler.group_feedback (db w) _) with (examined_groups (db w)) in Hmap.
  apply (mapM_generate _ _ (examined_groups_nonempty (db w))) in Hmap
    as (Hall & E & _).
  assert (Hauto : forall r, In r (concat outs) -> rule_source r = "auto").
  { intros r Hin.
    destruct (Forall2_concat_In _ _ _ _ Hall Hin) as ([k items] & o & _ & Ho & Hb).
    destruct Ho as [[-> _]|Ho]; [destruct Hb|].
    destruct Ho as (rule' & first & rest & _ & -> & _ & _ & Hs & _).
    destruct Hb as [<-|[]]. exact Hs. }
  assert (Hbest : forall tx,
            Classifier.best_user_rule (db w1) tx = Classifier.best_user_rule (db w) tx).
  { intros tx. unfold Classifier.best_user_rule.
    rewrite (user_rules_app (db w) (db w1) (concat outs) tx E Hauto). reflexivity. }
  split; [exact Hbest|].
  intros txs. unfold pending. apply filter_ext. intros tx. rewrite Hbest. reflexivity.
Qed.

Lemma analyze_feedback_never_changes_resolution_witness :
  exists w out w',
    repeatM 3 (modify_t1 "Expenses:Food:Coffee") w_one_transaction = Ok (tt, w) /\
    FeedbackHandler.analyze_feedback_and_generate_rules 3 w = Ok (out, w') /\
    length (matched_rules (db w') tx_starbucks) = 1 /\
    Classifier.best_user_rule (db w') tx_starbucks =
    Classifier.best_user_rule (db w) tx_starbucks.
Proof.
  eexists. eexists. eexists. split; [vm_compute; reflexivity|].
  split; [vm_compute; reflexivity|].
  split; [vm_compute; reflexivity|].
  refine (proj1 (analyze_feedback_never_changes_resolution 3 _ _ _ _) tx_starbucks).
  vm_compute. reflexivity.
Defined.
